(** * Douyu live-room monitor: a shallow embedding of [main.py]

    The development follows the class [DouyuMonitor] of [main.py]: the
    room-info resolver ([get_room_info], [get_room_info_backup],
    [_try_pc_api]), the name cache update of [check_room_status], the
    notification dispatch ([notify], [send_server_chan]) and the polling
    loop ([run], [handle_new_live_rooms]).

    Modelling choices.
    - A Python [str] is the list of its Unicode code points ([pystr]);
      literals of the source are written [py "..."], which decodes the
      UTF-8 bytes of the literal.
    - A Python value that comes out of [json] or is built as a dict literal
      is a [json] tree; a dict is the association list of its items.
      Numbers are integers: floating point is outside the model.
    - Code that can raise lives in the monad [M]: a computation takes the
      monitor state and returns either the raised exception or a value,
      together with the state reached.  Every modelled exception is an
      instance of Python's [Exception]; asynchronous signals
      ([KeyboardInterrupt]) are outside the model.
    - The outside world (HTTP, the OS notification sink, the browser, the
      console, the clock, the cache file) is a record [world] of functions
      that answer each call from the history of calls made so far; the
      history is the [trace] field of the state.  [logging] and [print]
      enter the history and never raise.
    - The name cache is a finite map: the cache file is taken to hold a
      JSON object.  Its values are arbitrary JSON values, as [json.load]
      gives them and as [check_room_status] stores them.
    - The selection handler runs on a thread of its own in the source; here
      it is a computation like the others, and its interleaving with the
      loop is not modelled. *)

From Stdlib Require Import ZArith NArith List Ascii String Bool Lia.
From stdpp Require Import base option list gmap.

Local Open Scope N_scope.
#[local] Set Warnings "-register-all".

(** ** Python strings *)

Abbreviation pystr := (list N).

(** Decoder of the UTF-8 bytes of a literal: [pending] continuation bytes
    are still expected for the code point accumulated in [acc]. *)
Fixpoint utf8_go (pending : nat) (acc : N) (bs : list N) : pystr :=
  match bs with
  | [] => []
  | b :: bs' =>
      match pending with
      | S p =>
          let acc' := acc * 64 + b mod 64 in
          match p with
          | O => acc' :: utf8_go O 0 bs'
          | S _ => utf8_go p acc' bs'
          end
      | O =>
          if b <? 128 then b :: utf8_go O 0 bs'
          else if b <? 224 then utf8_go 1 (b mod 32) bs'
          else if b <? 240 then utf8_go 2 (b mod 16) bs'
          else utf8_go 3 (b mod 8) bs'
      end
  end.

Definition py (s : string) : pystr :=
  utf8_go O 0 (List.map N_of_ascii (list_ascii_of_string s)).

(** The double quote and the line feed, which a literal cannot hold. *)
Definition dquote : pystr := [34].
Definition newline : pystr := [10].

Definition quoted (s : pystr) : pystr := dquote ++ s ++ dquote.

Fixpoint pystr_eqb (a b : pystr) : bool :=
  match a, b with
  | [], [] => true
  | x :: a', y :: b' => (x =? y) && pystr_eqb a' b'
  | _, _ => false
  end.

Fixpoint is_prefix (p s : pystr) : bool :=
  match p, s with
  | [], _ => true
  | x :: p', y :: s' => (x =? y) && is_prefix p' s'
  | _ :: _, [] => false
  end.

(** [needle in hay] *)
Fixpoint py_in (needle hay : pystr) : bool :=
  is_prefix needle hay ||
  match hay with
  | [] => false
  | _ :: hay' => py_in needle hay'
  end.

(** [str.isspace] on one code point: the set used by [\s] of a str pattern
    and by [str.strip]. *)
Definition isspace (c : N) : bool :=
  ((9 <=? c) && (c <=? 13)) || ((28 <=? c) && (c <=? 32)) ||
  (c =? 133) || (c =? 160) || (c =? 5760) ||
  ((8192 <=? c) && (c <=? 8202)) || (c =? 8232) || (c =? 8233) ||
  (c =? 8239) || (c =? 8287) || (c =? 12288).

Fixpoint lstrip (s : pystr) : pystr :=
  match s with
  | c :: s' => if isspace c then lstrip s' else s
  | [] => []
  end.

(** [s.strip()] *)
Definition str_strip (s : pystr) : pystr := rev (lstrip (rev (lstrip s))).

(** [s.split(sep)] for a one-character separator: the current part is
    accumulated in reverse in [cur]. *)
Fixpoint split_go (sep : N) (cur : pystr) (s : pystr) : list pystr :=
  match s with
  | [] => [rev cur]
  | c :: s' =>
      if c =? sep then rev cur :: split_go sep [] s'
      else split_go sep (c :: cur) s'
  end.

Definition str_split (sep : N) (s : pystr) : list pystr := split_go sep [] s.

(** [s.replace(old, new)] for a non-empty [old]: occurrences are replaced
    from the left and do not overlap; [skip] characters of the occurrence
    just replaced are still to be dropped. *)
Fixpoint replace_go (old new : pystr) (skip : nat) (s : pystr) : pystr :=
  match s with
  | [] => []
  | c :: s' =>
      match skip with
      | S k => replace_go old new k s'
      | O =>
          if is_prefix old s then new ++ replace_go old new (length old - 1) s'
          else c :: replace_go old new O s'
      end
  end.

Definition str_replace (old new s : pystr) : pystr := replace_go old new O s.

(** ** The regular expressions of the scraper

    Every pattern of the source is a sequence of one-character atoms with
    a quantifier, with at most one capturing group. *)

Inductive piece :=
| One (p : N -> bool)        (* one character of the class *)
| Star (p : N -> bool)       (* greedy  c*  *)
| Opt (p : N -> bool)        (* greedy  c?  *)
| LazyStar (p : N -> bool)   (* lazy    c*? *)
| GroupOpen
| GroupClose.

Definition or_else {A} (a b : option A) : option A :=
  match a with
  | Some _ => a
  | None => b
  end.

(** Backtracking match of [ps] at the start of [s], in the priority order
    of Python's [re]; the result is the text of group 1 (empty when the
    pattern has no group).  [start] is the input where the group opened. *)
Fixpoint match_here (ps : list piece) (start grp s : pystr) : option pystr :=
  match ps with
  | [] => Some grp
  | One p :: ps' =>
      match s with
      | c :: s' => if p c then match_here ps' start grp s' else None
      | [] => None
      end
  | Star p :: ps' =>
      (fix go (s : pystr) : option pystr :=
         match s with
         | c :: s' =>
             if p c then or_else (go s') (match_here ps' start grp s)
             else match_here ps' start grp s
         | [] => match_here ps' start grp []
         end) s
  | Opt p :: ps' =>
      match s with
      | c :: s' =>
          if p c then
            or_else (match_here ps' start grp s') (match_here ps' start grp s)
          else match_here ps' start grp s
      | [] => match_here ps' start grp []
      end
  | LazyStar p :: ps' =>
      (fix go (s : pystr) : option pystr :=
         or_else (match_here ps' start grp s)
           match s with
           | c :: s' => if p c then go s' else None
           | [] => None
           end) s
  | GroupOpen :: ps' => match_here ps' s grp s
  | GroupClose :: ps' =>
      match_here ps' start (take (length start - length s) start) s
  end.

(** [re.search(pattern, s)]: the leftmost match; [Some g] carries group 1. *)
Fixpoint re_search (ps : list piece) (s : pystr) : option pystr :=
  or_else (match_here ps [] [] s)
    match s with
    | [] => None
    | _ :: s' => re_search ps s'
    end.

Definition lit (s : pystr) : list piece := List.map (fun c => One (N.eqb c)) s.

Definition not_dquote (c : N) : bool := negb (c =? 34).
Definition not_newline (c : N) : bool := negb (c =? 10).
Definition digit_1_9 (c : N) : bool := (49 <=? c) && (c <=? 57).

(** The quoted key, a colon and [\s*]. *)
Definition key_prefix (key : string) : list piece :=
  lit (quoted (py key) ++ py ":") ++ [Star isspace].

(** The quoted key, a colon, [\s*] and a quoted non-empty group free of
    double quotes. *)
Definition string_field (key : string) : list piece :=
  key_prefix key ++ lit dquote ++
  [GroupOpen; One not_dquote; Star not_dquote; GroupClose] ++ lit dquote.

Definition is_live_patterns : list (list piece) :=
  [ key_prefix "isLive" ++ [GroupOpen; One digit_1_9; GroupClose];
    key_prefix "isLive" ++ lit (py "true");
    key_prefix "show_status" ++ [Opt (N.eqb 34)] ++ lit (py "1") ++ [Opt (N.eqb 34)];
    key_prefix "videoLoop" ++ lit (py "0") ].

Definition nickname_pattern : list piece := string_field "nickname".
Definition room_name_pattern : list piece := string_field "roomName".
Definition alt_room_name_pattern : list piece := string_field "room_name".
Definition title_pattern : list piece :=
  lit (py "<title>") ++ [GroupOpen; LazyStar not_newline; GroupClose] ++
  lit (py "</title>").

(** ** Python values *)

Inductive json :=
| JNull
| JBool (b : bool)
| JNum (z : Z)
| JStr (s : pystr)
| JArr (items : list json)
| JObj (fields : list (pystr * json)).

(** Truth value of a Python object, as tested by [if] and [and]. *)
Definition truthy (v : json) : bool :=
  match v with
  | JNull => false
  | JBool b => b
  | JNum z => negb (z =? 0)%Z
  | JStr s => negb (pystr_eqb s [])
  | JArr l => match l with [] => false | _ => true end
  | JObj l => match l with [] => false | _ => true end
  end.

(** [v == n] for an integer literal [n]: [False == 0] and [True == 1] hold
    in Python. *)
Definition py_eq_int (v : json) (n : Z) : bool :=
  match v with
  | JNum z => (z =? n)%Z
  | JBool b => ((if b then 1 else 0) =? n)%Z
  | _ => false
  end.

(** [v == s] for a string literal [s]. *)
Definition py_eq_str (v : json) (s : pystr) : bool :=
  match v with
  | JStr t => pystr_eqb t s
  | _ => false
  end.

Fixpoint lookup_field (k : pystr) (fs : list (pystr * json)) : option json :=
  match fs with
  | [] => None
  | (k', v) :: fs' => if pystr_eqb k' k then Some v else lookup_field k fs'
  end.

(** ** Exceptions, the outside world and the monitor state *)

Inductive exn :=
| AttributeError             (* [.get] on a value that is not a dict *)
| KeyError                   (* [d[k]] on a missing key *)
| ValueError                 (* [int(s)], [response.json()] *)
| OtherError (name : pystr). (* anything a collaborator raises *)

Record response := {
  resp_url : pystr;              (* [response.url], after redirects *)
  status_code : Z;
  text : pystr;
  body_json : option json        (* [response.json()]; [None]: it raises *)
}.

Inductive level := DEBUG | INFO | WARNING | ERROR.

(** One constructor per logging call of the class, with the values the
    message is formatted from. *)
Inductive log_record :=
| LogSaveFailed (e : exn)
| LogRoomInfoFailed (room_id : pystr) (e : exn)
| LogRedirected (room_id final_url : pystr)
| LogTopicRedirect (room_id : pystr)
| LogRoomMissing (room_id : pystr)
| LogParsed (room_id : pystr) (is_live : bool) (room_name owner_name : pystr)
| LogPageStatus (code : Z)
| LogPcApiFailed (room_id : pystr) (e : exn)
| LogNotifySent (log_title message : pystr)
| LogNotifyFailed (e : exn)
| LogRelayOk (title : pystr)
| LogRelayRejected (message : json)
| LogRelayStatus (code : Z)
| LogRelayError (e : exn)
| LogOpened (url : pystr)
| LogOpenFailed (e : exn)
| LogChoiceError (e : exn)
| LogStart (room_ids : list pystr)
| LogWentLive (owner_name : json) (room_id : pystr)
| LogWentOffline (owner_name : json) (room_id : pystr)
| LogState (room_name : json) (room_id : pystr) (is_live : bool)
| LogCheckFailed (room_id : pystr) (e : exn)
| LogLoopError (e : exn).

(** The calls the monitor makes on its collaborators, in program order. *)
Inductive event :=
| HttpGet (url : pystr) (timeout : option Z)
| HttpPost (url title desp : pystr) (timeout : option Z)
| OsNotify (title message : pystr)
| BrowserOpen (url : pystr)
| ConsoleInput (prompt : pystr)
| ConsolePrint (line : pystr)
| SaveNames (names : gmap pystr json)
| Logged (lvl : level) (r : log_record)
| ThreadStart
| Sleep (seconds : Z).

(** The collaborators: each answers from the calls made before this one. *)
Record world := {
  http_get : list event -> pystr -> option Z -> exn + response;
  http_post : list event -> pystr -> pystr -> pystr -> option Z -> exn + response;
  os_notify : list event -> pystr -> pystr -> exn + unit;
  browser_open : list event -> pystr -> exn + unit;
  console_input : list event -> pystr -> exn + pystr;
  dump_names : list event -> gmap pystr json -> exn + unit;
  strftime_now : list event -> pystr   (* [datetime.now().strftime(...)] *)
}.

(** The attributes of a [DouyuMonitor], and the history of its calls. *)
Record state := {
  room_ids : list pystr;
  check_interval : Z;
  room_status : gmap pystr bool;
  auto_open : bool;
  new_live_rooms : list (pystr * json);
  server_chan_key : option pystr;
  room_names : gmap pystr json;
  trace : list event
}.

Definition set_trace (t : list event) (s : state) : state :=
  {| room_ids := room_ids s; check_interval := check_interval s;
     room_status := room_status s; auto_open := auto_open s;
     new_live_rooms := new_live_rooms s; server_chan_key := server_chan_key s;
     room_names := room_names s; trace := t |}.

Definition set_room_status (m : gmap pystr bool) (s : state) : state :=
  {| room_ids := room_ids s; check_interval := check_interval s;
     room_status := m; auto_open := auto_open s;
     new_live_rooms := new_live_rooms s; server_chan_key := server_chan_key s;
     room_names := room_names s; trace := trace s |}.

Definition set_new_live_rooms (l : list (pystr * json)) (s : state) : state :=
  {| room_ids := room_ids s; check_interval := check_interval s;
     room_status := room_status s; auto_open := auto_open s;
     new_live_rooms := l; server_chan_key := server_chan_key s;
     room_names := room_names s; trace := trace s |}.

Definition set_room_names (m : gmap pystr json) (s : state) : state :=
  {| room_ids := room_ids s; check_interval := check_interval s;
     room_status := room_status s; auto_open := auto_open s;
     new_live_rooms := new_live_rooms s; server_chan_key := server_chan_key s;
     room_names := m; trace := trace s |}.

(** [DouyuMonitor.__init__], with the name cache that [load_room_names]
    read from the file. *)
Definition init (ids : list pystr) (interval : Z) (auto : bool)
    (key : option pystr) (names : gmap pystr json) : state :=
  {| room_ids := ids; check_interval := interval;
     room_status := foldl (fun m room_id => <[room_id := false]> m) ∅ ids;
     auto_open := auto; new_live_rooms := []; server_chan_key := key;
     room_names := names; trace := [] |}.

(** ** The monad of computations that may raise *)

Definition M (A : Type) : Type := state -> (exn + A) * state.

Definition ret {A} (a : A) : M A := fun s => (inr a, s).

Definition raise {A} (e : exn) : M A := fun s => (inl e, s).

Definition bind {A B} (m : M A) (k : A -> M B) : M B :=
  fun s =>
    match m s with
    | (inl e, s') => (inl e, s')
    | (inr a, s') => k a s'
    end.

(** [try: body  except Exception as e: handler e] *)
Definition try_except {A} (body : M A) (handler : exn -> M A) : M A :=
  fun s =>
    match body s with
    | (inl e, s') => handler e s'
    | (inr a, s') => (inr a, s')
    end.

Definition gets {A} (f : state -> A) : M A := fun s => (inr (f s), s).

Definition modify (f : state -> state) : M unit := fun s => (inr tt, f s).

Declare Scope py_scope.
Delimit Scope py_scope with py.
Notation "x <- m ;; k" := (bind m (fun x => k))
  (at level 100, m at next level, right associativity) : py_scope.
Notation "m ;; k" := (bind m (fun _ => k))
  (at level 100, right associativity) : py_scope.
Local Open Scope py_scope.

(** A call on a collaborator: it enters the history and is answered from
    the history before it. *)
Definition call {A} (e : event) (answer : list event -> exn + A) : M A :=
  fun s => (answer (trace s), set_trace (trace s ++ [e]) s).

Definition emit (e : event) : M unit := call e (fun _ => inr tt).

Definition log (lvl : level) (r : log_record) : M unit := emit (Logged lvl r).

Definition print (line : pystr) : M unit := emit (ConsolePrint line).

(** [v.get(k)] and [v.get(k, default)]: only a dict has [get]. *)
Definition py_get (v : json) (k : pystr) : M json :=
  match v with
  | JObj fs => ret (default JNull (lookup_field k fs))
  | _ => raise AttributeError
  end.

Definition py_get_default (v : json) (k : pystr) (d : json) : M json :=
  match v with
  | JObj fs => ret (default d (lookup_field k fs))
  | _ => raise AttributeError
  end.

(** [response.json()] *)
Definition response_json (r : response) : M json :=
  match body_json r with
  | Some v => ret v
  | None => raise ValueError
  end.

(** [for x in l: body x] *)
Fixpoint for_each {A} (l : list A) (body : A -> M unit) : M unit :=
  match l with
  | [] => ret tt
  | x :: l' => body x ;; for_each l' body
  end.

(** ** The class [DouyuMonitor] *)

Section Monitor.

(** The collaborators, and two built-ins of Python whose text-level
    behaviour is left open: [str(v)] of a value that is not a string, and
    [int(s)] ([None]: it raises [ValueError]). *)
Variable W : world.
Variable py_repr : json -> pystr.
Variable py_int : pystr -> option Z.

(** [f"{v}"] *)
Definition py_str (v : json) : pystr :=
  match v with
  | JStr s => s
  | _ => py_repr v
  end.

Definition requests_get (url : pystr) (timeout : option Z) : M response :=
  call (HttpGet url timeout) (fun h => http_get W h url timeout).

Definition requests_post (url title desp : pystr) (timeout : option Z)
    : M response :=
  call (HttpPost url title desp timeout)
       (fun h => http_post W h url title desp timeout).

(** [save_room_names] *)
Definition save_room_names : M unit :=
  try_except
    (names <- gets room_names ;;
     call (SaveNames names) (fun h => dump_names W h names))
    (fun e => log ERROR (LogSaveFailed e)).

Definition unknown_room : pystr := py "未知房间".
Definition unknown_owner : pystr := py "未知主播".

(** [f'未知房间_{room_id}'] and [f'未知主播_{room_id}'] *)
Definition room_placeholder (room_id : pystr) : pystr :=
  py "未知房间_" ++ room_id.
Definition owner_placeholder (room_id : pystr) : pystr :=
  py "未知主播_" ++ room_id.

(** The three endpoints: [f"https://open.douyu.com/api/RoomApi/room/{room_id}"],
    [f"https://m.douyu.com/{room_id}"] and
    [f"https://www.douyu.com/betard/{room_id}"]. *)
Definition primary_prefix : pystr := py "https://open.douyu.com/api/RoomApi/room/".
Definition primary_url (room_id : pystr) : pystr := primary_prefix ++ room_id.
Definition mobile_url (room_id : pystr) : pystr := py "https://m.douyu.com/" ++ room_id.
Definition pc_url (room_id : pystr) : pystr := py "https://www.douyu.com/betard/" ++ room_id.

(** The dict literal that every fallback source returns. *)
Definition room_dict (room_id : pystr) (room_name : json) (room_status : pystr)
    (owner_name : json) : json :=
  JObj [ (py "room_id", JStr room_id);
         (py "room_name", room_name);
         (py "room_status", JStr room_status);
         (py "owner_name", owner_name) ].

(** [_try_pc_api]: the early [return] of the inner [try] is [Some]. *)
Definition _try_pc_api (room_id : pystr) : M json :=
  found <-
    try_except
      (let url := pc_url room_id in
       response <- requests_get url (Some 10%Z) ;;
       if (status_code response =? 200)%Z then
         try_except
           (data <- response_json response ;;
            room <- py_get data (py "room") ;;
            if truthy room then
              rid <- py_get room (py "room_id") ;;
              if truthy rid then
                room_data <- py_get_default data (py "room") (JObj []) ;;
                room_name <- py_get_default room_data (py "room_name")
                               (JStr (room_placeholder room_id)) ;;
                show_status <- py_get room_data (py "show_status") ;;
                owner_name <- py_get_default room_data (py "owner_name")
                                (JStr unknown_owner) ;;
                ret (Some (room_dict room_id room_name
                             (if py_eq_int show_status 1 then py "1" else py "2")
                             owner_name))
              else ret None
            else ret None)
           (fun _ => ret None)
       else ret None)
      (fun e => log ERROR (LogPcApiFailed room_id e) ;; ret None) ;;
  match found with
  | Some info => ret info
  | None =>
      names <- gets room_names ;;
      let cached_name := default JNull (names !! room_id) in
      ret (room_dict room_id
             (if truthy cached_name then cached_name
              else JStr (room_placeholder room_id))
             (py "2")
             (if truthy cached_name then cached_name
              else JStr (owner_placeholder room_id)))
  end.

(** The scan of the mobile page: live flag, room name, owner name. *)
Definition scrape_is_live (html_content : pystr) : bool :=
  existsb (fun pattern => bool_decide (is_Some (re_search pattern html_content)))
          is_live_patterns.

Definition scrape_names (html_content : pystr) : pystr * pystr :=
  let room_name := unknown_room in
  let owner_name := unknown_owner in
  let nickname_match := re_search nickname_pattern html_content in
  let room_name_match := re_search room_name_pattern html_content in
  let owner_name :=
    match nickname_match with
    | Some g => g
    | None => owner_name
    end in
  let room_name :=
    match room_name_match with
    | Some g => g
    | None =>
        match re_search alt_room_name_pattern html_content with
        | Some g => g
        | None => room_name
        end
    end in
  if pystr_eqb owner_name unknown_owner || pystr_eqb room_name unknown_room then
    match re_search title_pattern html_content with
    | Some title_text =>
        if py_in (py "-") title_text then
          match str_split 45 title_text with
          | part0 :: part1 :: _ =>
              (if pystr_eqb room_name unknown_room then str_strip part0
               else room_name,
               if pystr_eqb owner_name unknown_owner then
                 str_strip (str_replace (py "斗鱼") [] (str_strip part1))
               else owner_name)
          | _ => (room_name, owner_name)
          end
        else (room_name, owner_name)
    | None => (room_name, owner_name)
    end
  else (room_name, owner_name).

Definition room_missing (html_content : pystr) : bool :=
  py_in (py "房间未找到") html_content || py_in (py "页面找不到") html_content.

(** [get_room_info_backup]: the early [return] of the redirect test is
    [Some]. *)
Definition get_room_info_backup (room_id : pystr) : M json :=
  try_except
    (let url := mobile_url room_id in
     response <- requests_get url (Some 10%Z) ;;
     let final_url := resp_url response in
     redirected <-
       (if negb (pystr_eqb final_url url) then
          log DEBUG (LogRedirected room_id final_url) ;;
          if py_in (py "topic") final_url then
            log WARNING (LogTopicRedirect room_id) ;;
            names <- gets room_names ;;
            ret (Some (room_dict room_id
                         (default (JStr (room_placeholder room_id))
                                  (names !! room_id))
                         (py "2")
                         (default (JStr (owner_placeholder room_id))
                                  (names !! room_id))))
          else ret None
        else ret None) ;;
     match redirected with
     | Some info => ret info
     | None =>
         if (status_code response =? 200)%Z then
           let html_content := text response in
           let is_live := scrape_is_live html_content in
           let '(room_name, owner_name) := scrape_names html_content in
           is_live <-
             (if room_missing html_content then
                log WARNING (LogRoomMissing room_id) ;; ret false
              else ret is_live) ;;
           log DEBUG (LogParsed room_id is_live room_name owner_name) ;;
           ret (room_dict room_id (JStr room_name)
                  (if is_live then py "1" else py "2") (JStr owner_name))
         else
           log ERROR (LogPageStatus (status_code response)) ;;
           _try_pc_api room_id
     end)
    (fun e =>
       log ERROR (LogRoomInfoFailed room_id e) ;;
       _try_pc_api room_id).

(** [get_room_info] *)
Definition get_room_info (room_id : pystr) : M json :=
  let url := primary_url room_id in
  try_except
    (response <- requests_get url None ;;
     data <- response_json response ;;
     error <- py_get data (py "error") ;;
     if py_eq_int error 0 then py_get_default data (py "data") (JObj [])
     else get_room_info_backup room_id)
    (fun e =>
       log ERROR (LogRoomInfoFailed room_id e) ;;
       get_room_info_backup room_id).

(** [check_room_status] *)
Definition check_room_status (room_id : pystr) : M (bool * json) :=
  room_info <- get_room_info room_id ;;
  room_status <- py_get room_info (py "room_status") ;;
  let is_live := py_eq_str room_status (py "1") in
  room_name <- py_get room_info (py "room_name") ;;
  (if truthy room_name then
     room_name <- py_get room_info (py "room_name") ;;
     modify (fun s => set_room_names (<[room_id := room_name]> (room_names s)) s) ;;
     save_room_names
   else ret tt) ;;
  ret (is_live, room_info).

(** [send_server_chan] *)
Definition send_server_chan (title message : pystr) : M unit :=
  try_except
    (key <- gets server_chan_key ;;
     let url := py "https://sctapi.ftqq.com/" ++
                match key with
                | Some k => k
                | None => py "None"
                end ++ py ".send" in
     let desp := str_replace newline (newline ++ newline) message in
     response <- requests_post url title desp (Some 10%Z) ;;
     if (status_code response =? 200)%Z then
       result <- response_json response ;;
       code <- py_get result (py "code") ;;
       if py_eq_int code 0 then log INFO (LogRelayOk title)
       else
         msg <- py_get result (py "message") ;;
         log ERROR (LogRelayRejected msg)
     else log ERROR (LogRelayStatus (status_code response)))
    (fun e => log ERROR (LogRelayError e)).

(** Truth value of [self.server_chan_key]: [None] or a string. *)
Definition key_set (key : option pystr) : bool :=
  match key with
  | Some k => negb (pystr_eqb k [])
  | None => false
  end.

(** [notify] *)
Definition notify (title message : pystr) : M unit :=
  try_except
    (call (OsNotify title message) (fun h => os_notify W h title message) ;;
     let log_title :=
       str_replace (py "⚪") (py "[下播]")
         (str_replace (py "🔴") (py "[直播]") title) in
     log INFO (LogNotifySent log_title message) ;;
     key <- gets server_chan_key ;;
     if key_set key then send_server_chan title message else ret tt)
    (fun e => log ERROR (LogNotifyFailed e)).

(** [open_live_room] *)
Definition open_live_room (room_id : pystr) : M unit :=
  try_except
    (let url := py "https://www.douyu.com/" ++ room_id in
     call (BrowserOpen url) (fun h => browser_open W h url) ;;
     log INFO (LogOpened url))
    (fun e => log ERROR (LogOpenFailed e)).

(** The body of the [try] of [handle_new_live_rooms]. *)
Definition choose_room : M unit :=
  let prompt := py "请输入数字选择: " in
  answer <- call (ConsoleInput prompt) (fun h => console_input W h prompt) ;;
  match py_int answer with
  | None => raise ValueError
  | Some choice =>
      pending <- gets new_live_rooms ;;
      if ((1 <=? choice) && (choice <=? Z.of_nat (length pending)))%Z then
        match pending !! Z.to_nat (choice - 1) with
        | Some (selected_room_id, _) => open_live_room selected_room_id
        | None => raise (OtherError (py "IndexError"))
        end
      else if negb (choice =? 0)%Z then print (py "无效的选择")
      else ret tt
  end.

(** The numbered menu line of one pending room. *)
Definition menu_line (i : nat) (entry : pystr * json) : M unit :=
  let '(room_id, room_info) := entry in
  room_name <- py_get_default room_info (py "room_name")
                 (JStr (py "房间" ++ room_id)) ;;
  owner_name <- py_get_default room_info (py "owner_name")
                  (JStr (py "主播" ++ room_id)) ;;
  print (py_str (JNum (Z.of_nat i)) ++ py ". " ++ py_str owner_name ++
         py " - " ++ py_str room_name).

(** [for i, entry in enumerate(l, i)] *)
Fixpoint for_enumerate {A} (i : nat) (l : list A) (body : nat -> A -> M unit)
    : M unit :=
  match l with
  | [] => ret tt
  | x :: l' => body i x ;; for_enumerate (S i) l' body
  end.

(** [handle_new_live_rooms] *)
Definition handle_new_live_rooms : M unit :=
  pending <- gets new_live_rooms ;;
  match pending with
  | [] => ret tt
  | [(room_id, room_info)] =>
      auto <- gets auto_open ;;
      (if auto then open_live_room room_id else ret tt) ;;
      modify (set_new_live_rooms [])
  | _ =>
      print (newline ++ py "多个主播同时开播，请选择要打开的直播间:") ;;
      for_enumerate 1 pending menu_line ;;
      print (py "0. 不打开任何直播间") ;;
      try_except choose_room
        (fun e =>
           match e with
           | ValueError => print (py "请输入有效的数字")
           | _ => log ERROR (LogChoiceError e)
           end) ;;
      modify (set_new_live_rooms [])
  end.

(** The body of the [try] of one room's iteration in [run], after
    [check_room_status] has returned [(is_live, room_info)]. *)
Definition update_status (room_id : pystr) (is_live : bool) (room_info : json)
    : M unit :=
  room_name <- py_get_default room_info (py "room_name")
                 (JStr (py "房间" ++ room_id)) ;;
  owner_name <- py_get_default room_info (py "owner_name")
                  (JStr (py "主播" ++ room_id)) ;;
  status <- gets room_status ;;
  match status !! room_id with
  | None => raise KeyError
  | Some stored =>
      if negb (eqb is_live stored) then
        modify (fun s => set_room_status (<[room_id := is_live]> (room_status s)) s) ;;
        if is_live then
          let title := py "🔴 " ++ py_str owner_name ++ py " 开播啦!" in
          now <- gets (fun s => strftime_now W (trace s)) ;;
          let message := py "房间: " ++ py_str room_name ++ newline ++
                         py "时间: " ++ now in
          notify title message ;;
          log INFO (LogWentLive owner_name room_id) ;;
          modify (fun s =>
                    set_new_live_rooms
                      (new_live_rooms s ++ [(room_id, room_info)]) s)
        else
          let title := py "⚪ " ++ py_str owner_name ++ py " 已下播" in
          now <- gets (fun s => strftime_now W (trace s)) ;;
          let message := py "房间: " ++ py_str room_name ++ newline ++
                         py "时间: " ++ now in
          notify title message ;;
          log INFO (LogWentOffline owner_name room_id)
      else log INFO (LogState room_name room_id is_live)
  end.

(** One iteration of the [for] loop of [run]. *)
Definition run_room (room_id : pystr) : M unit :=
  try_except
    (checked <- check_room_status room_id ;;
     update_status room_id (fst checked) (snd checked))
    (fun e => log ERROR (LogCheckFailed room_id e)).

(** One turn of the [while True] loop of [run].  The selection handler is
    started on a thread of its own; its steps are [handle_new_live_rooms],
    and how they interleave with the next turns is not modelled. *)
Definition run_cycle : M unit :=
  ids <- gets room_ids ;;
  for_each ids run_room ;;
  pending <- gets new_live_rooms ;;
  (match pending with
   | [] => ret tt
   | _ => emit ThreadStart
   end) ;;
  interval <- gets check_interval ;;
  emit (Sleep interval).

Fixpoint run_loop (turns : nat) : M unit :=
  match turns with
  | O => ret tt
  | S n => run_cycle ;; run_loop n
  end.

(** [run], observed for [turns] turns of its loop. *)
Definition run (turns : nat) : M unit :=
  ids <- gets room_ids ;;
  log INFO (LogStart ids) ;;
  try_except (run_loop turns) (fun e => log ERROR (LogLoopError e)).

End Monitor.

(** ** Observations on the history *)

(** The room whose resolution a call starts: a GET on the primary API. *)
Definition polled_room (e : event) : option pystr :=
  match e with
  | HttpGet url _ =>
      if is_prefix primary_prefix url then Some (drop (length primary_prefix) url)
      else None
  | _ => None
  end.

Definition polled_rooms (t : list event) : list pystr := omap polled_room t.

(** The room that a log record reports as newly live. *)
Definition went_live_room (e : event) : option pystr :=
  match e with
  | Logged _ (LogWentLive _ room_id) => Some room_id
  | _ => None
  end.

Definition went_live (t : list event) : list pystr := omap went_live_room t.

(** A GET issued without the [timeout] argument. *)
Definition unbounded_get (e : event) : bool :=
  match e with
  | HttpGet _ None => true
  | _ => false
  end.

(** A push on the relay. *)
Definition is_relay_push (e : event) : bool :=
  match e with
  | HttpPost _ _ _ _ => true
  | _ => false
  end.

Definition is_dict (v : json) : bool :=
  match v with
  | JObj _ => true
  | _ => false
  end.

(** The names a resolver returns when it has none: the literal of the
    scraper and the two placeholders built from the room id. *)
Definition is_placeholder (room_id : pystr) (v : json) : bool :=
  py_eq_str v unknown_room || py_eq_str v (room_placeholder room_id) ||
  py_eq_str v (owner_placeholder room_id).

(** What [_try_pc_api] returns when every source has failed. *)
Definition cache_fallback (room_id : pystr) (names : gmap pystr json) : json :=
  let cached_name := default JNull (names !! room_id) in
  room_dict room_id
    (if truthy cached_name then cached_name else JStr (room_placeholder room_id))
    (py "2")
    (if truthy cached_name then cached_name else JStr (owner_placeholder room_id)).

(** What [get_room_info_backup] returns on a redirect to a topic page. *)
Definition topic_fallback (room_id : pystr) (names : gmap pystr json) : json :=
  room_dict room_id
    (default (JStr (room_placeholder room_id)) (names !! room_id))
    (py "2")
    (default (JStr (owner_placeholder room_id)) (names !! room_id)).

(** Both names are there and are not empty. *)
Definition has_names (v : json) : bool :=
  match v with
  | JObj fs =>
      truthy (default JNull (lookup_field (py "room_name") fs)) &&
      truthy (default JNull (lookup_field (py "owner_name") fs))
  | _ => false
  end.

(** Answers of the sources that make the resolver go on to the next one. *)
Definition primary_rejects (a : exn + response) : Prop :=
  match a with
  | inl _ => True
  | inr r =>
      match body_json r with
      | Some (JObj fs) =>
          py_eq_int (default JNull (lookup_field (py "error") fs)) 0 = false
      | _ => True
      end
  end.

Definition mobile_unusable (room_id : pystr) (a : exn + response) : Prop :=
  match a with
  | inl _ => True
  | inr r =>
      status_code r ≠ 200%Z ∧
      (resp_url r = mobile_url room_id ∨ py_in (py "topic") (resp_url r) = false)
  end.

Definition mobile_topic_redirect (room_id : pystr) (a : exn + response) : Prop :=
  match a with
  | inl _ => False
  | inr r =>
      resp_url r ≠ mobile_url room_id ∧ py_in (py "topic") (resp_url r) = true
  end.

Definition pc_has_room (r : response) : bool :=
  (status_code r =? 200)%Z &&
  match body_json r with
  | Some (JObj fs) =>
      match lookup_field (py "room") fs with
      | Some (JObj rfs) =>
          truthy (JObj rfs) &&
          truthy (default JNull (lookup_field (py "room_id") rfs))
      | _ => false
      end
  | _ => false
  end.

Definition pc_fails (a : exn + response) : Prop :=
  match a with
  | inl _ => True
  | inr r => pc_has_room r = false
  end.

(** The three sources are down for a room, whatever was called before. *)
Definition primary_down (W : world) (room_id : pystr) : Prop :=
  ∀ h, primary_rejects (http_get W h (primary_url room_id) None).
Definition mobile_down (W : world) (room_id : pystr) : Prop :=
  ∀ h, mobile_unusable room_id (http_get W h (mobile_url room_id) (Some 10%Z)).
Definition mobile_on_topic (W : world) (room_id : pystr) : Prop :=
  ∀ h, mobile_topic_redirect room_id (http_get W h (mobile_url room_id) (Some 10%Z)).
Definition pc_down (W : world) (room_id : pystr) : Prop :=
  ∀ h, pc_fails (http_get W h (pc_url room_id) (Some 10%Z)).

(** ** Concrete collaborators, used to run the model *)

Definition no_connection : exn := OtherError (py "ConnectionError").

(** Nothing answers: every request raises, the notification sink too. *)
Definition offline_world : world :=
  {| http_get := fun _ _ _ => inl no_connection;
     http_post := fun _ _ _ _ _ => inl no_connection;
     os_notify := fun _ _ _ => inl (OtherError (py "NotImplementedError"));
     browser_open := fun _ _ => inr tt;
     console_input := fun _ _ => inr (py "1");
     dump_names := fun _ _ => inr tt;
     strftime_now := fun _ => py "2024-05-01 12:00:00" |}.

Definition ok_response (url : pystr) (body : option json) : response :=
  {| resp_url := url; status_code := 200; text := []; body_json := body |}.

(** The primary API answers every room with the given document; the relay
    accepts every push; the notification sink works. *)
Definition primary_world (doc : json) : world :=
  {| http_get := fun _ url _ =>
       if is_prefix primary_prefix url then inr (ok_response url (Some doc))
       else inl no_connection;
     http_post := fun _ url _ _ _ =>
       inr (ok_response url (Some (JObj [(py "code", JNum 0)])));
     os_notify := fun _ _ _ => inr tt;
     browser_open := fun _ _ => inr tt;
     console_input := fun _ _ => inr (py "1");
     dump_names := fun _ _ => inr tt;
     strftime_now := fun _ => py "2024-05-01 12:00:00" |}.

(** The primary API is down and the mobile page answers with [page]. *)
Definition mobile_world (page : pystr -> response) : world :=
  {| http_get := fun _ url _ =>
       if is_prefix (py "https://m.douyu.com/") url then inr (page url)
       else inl no_connection;
     http_post := fun _ _ _ _ _ => inl no_connection;
     os_notify := fun _ _ _ => inr tt;
     browser_open := fun _ _ => inr tt;
     console_input := fun _ _ => inr (py "1");
     dump_names := fun _ _ => inr tt;
     strftime_now := fun _ => py "2024-05-01 12:00:00" |}.

(** The primary API is down and so are the others, but the notification
    sink and the relay work. *)
Definition servers_down_world : world :=
  {| http_get := fun _ _ _ => inl no_connection;
     http_post := fun _ url _ _ _ =>
       inr (ok_response url (Some (JObj [(py "code", JNum 0)])));
     os_notify := fun _ _ _ => inr tt;
     browser_open := fun _ _ => inr tt;
     console_input := fun _ _ => inr (py "1");
     dump_names := fun _ _ => inr tt;
     strftime_now := fun _ => py "2024-05-01 12:00:00" |}.

(** The notification sink raises; the relay accepts every push. *)
Definition broken_sink_world : world :=
  {| http_get := fun _ _ _ => inl no_connection;
     http_post := fun _ url _ _ _ =>
       inr (ok_response url (Some (JObj [(py "code", JNum 0)])));
     os_notify := fun _ _ _ => inl (OtherError (py "NotImplementedError"));
     browser_open := fun _ _ => inr tt;
     console_input := fun _ _ => inr (py "1");
     dump_names := fun _ _ => inr tt;
     strftime_now := fun _ => py "2024-05-01 12:00:00" |}.

(** The console gives [answer] to every prompt; the browser opens. *)
Definition console_world (answer : exn + pystr) : world :=
  {| http_get := fun _ _ _ => inl no_connection;
     http_post := fun _ _ _ _ _ => inl no_connection;
     os_notify := fun _ _ _ => inr tt;
     browser_open := fun _ _ => inr tt;
     console_input := fun _ _ => answer;
     dump_names := fun _ _ => inr tt;
     strftime_now := fun _ => py "2024-05-01 12:00:00" |}.

(** Sample rooms and documents. *)
Definition room_a : pystr := py "63136".
Definition room_b : pystr := py "6979222".

Definition live_payload : json :=
  JObj [ (py "room_id", JStr (py "63136"));
         (py "room_name", JStr (py "英雄联盟"));
         (py "owner_name", JStr (py "主播甲"));
         (py "room_status", JStr (py "1")) ].

Definition live_doc : json :=
  JObj [ (py "error", JNum 0); (py "data", live_payload) ].

(** A success document without a data payload. *)
Definition bare_doc : json := JObj [ (py "error", JNum 0) ].

(** A success document whose payload is [null]. *)
Definition null_doc : json := JObj [ (py "error", JNum 0); (py "data", JNull) ].

(** A page that was redirected to a topic page. *)
Definition topic_page (url : pystr) : response :=
  {| resp_url := py "https://www.douyu.com/topic/s15";
     status_code := 200; text := []; body_json := None |}.

(** A page served at the requested address, with nothing to scrape. *)
Definition empty_page (url : pystr) : response := ok_response url None.

Definition start (ids : list pystr) (names : gmap pystr json) : state :=
  init ids 60 true (Some (py "SCT123")) names.

(** A state in which two rooms are pending. *)
Definition two_pending : state :=
  set_new_live_rooms [(room_a, live_payload); (room_b, live_payload)]
    (start [room_a; room_b] ∅).

(** The browser calls of a history. *)
Definition opened (t : list event) : list pystr :=
  omap (fun e => match e with BrowserOpen url => Some url | _ => None end) t.

Definition no_repr (v : json) : pystr := py "?".
Definition digit_int (s : pystr) : option Z :=
  match s with
  | [c] => if (48 <=? c) && (c <=? 57) then Some (Z.of_N c - 48)%Z else None
  | _ => None
  end.

(** ** Notions used in the statements *)

(** An event that neither starts a resolution nor reports a room as newly
    live, and that is no GET without a timeout. *)
Definition minor (e : event) : Prop :=
  polled_room e = None ∧ went_live_room e = None ∧ unbounded_get e = false.

(** Three judgements on computations.  [quiet m]: [m] changes nothing but
    the history, and adds only minor events to it.  [safe m]: [m] never
    raises.  [yields P m]: what [m] returns, when it returns, satisfies
    [P]. *)

Definition quiet {A} (m : M A) : Prop :=
  ∀ s, ∃ evs, (m s).2 = set_trace (trace s ++ evs) s ∧ Forall minor evs.

Definition safe {A} (m : M A) : Prop :=
  ∀ s, ∃ a, (m s).1 = inr a.

Definition yields {A} (P : A → Prop) (m : M A) : Prop :=
  ∀ s, match (m s).1 with
       | inr a => P a
       | inl _ => True
       end.

(** A value built by the dict literal of the fallback sources. *)
Definition is_room_dict (room_id : pystr) (v : json) : Prop :=
  ∃ room_name room_status owner_name,
    v = room_dict room_id room_name room_status owner_name.

(** The cache after [check_room_status] has seen the room info [v]. *)
Definition names_after (room_id : pystr) (v : json) (names : gmap pystr json)
    : gmap pystr json :=
  match v with
  | JObj fs =>
      let room_name := default JNull (lookup_field (py "room_name") fs) in
      if truthy room_name then <[room_id := room_name]> names else names
  | _ => names
  end.

(** The live flag that [check_room_status] reads in the room info [v]. *)
Definition live_flag (v : json) : bool :=
  match v with
  | JObj fs => py_eq_str (default JNull (lookup_field (py "room_status") fs)) (py "1")
  | _ => false
  end.

(** The names that [run] reads in a room info. *)
Definition shown_room (room_id : pystr) (fs : list (pystr * json)) : json :=
  default (JStr (py "房间" ++ room_id)) (lookup_field (py "room_name") fs).
Definition shown_owner (room_id : pystr) (fs : list (pystr * json)) : json :=
  default (JStr (py "主播" ++ room_id)) (lookup_field (py "owner_name") fs).

(** The texts of the two notifications. *)
Definition live_title (py_repr : json → pystr) (owner_name : json) : pystr :=
  py "🔴 " ++ py_str py_repr owner_name ++ py " 开播啦!".
Definition offline_title (py_repr : json → pystr) (owner_name : json) : pystr :=
  py "⚪ " ++ py_str py_repr owner_name ++ py " 已下播".
Definition body_text (py_repr : json → pystr) (room_name : json) (now : pystr)
    : pystr :=
  py "房间: " ++ py_str py_repr room_name ++ newline ++ py "时间: " ++ now.

(** The part of the history that one iteration adds: the GET that starts
    the resolution of the room, and at most one newly-live record, for the
    room that was appended to the pending list. *)
Definition iteration_events (room_id : pystr) (evs : list event)
    (added : list (pystr * json)) : Prop :=
  polled_rooms evs = [room_id] ∧
  went_live evs = added.*1 ∧
  Forall (λ entry, is_dict entry.2 = true) added.

(** A computation that returns with the pending list empty. *)
Definition ends_cleared (m : M unit) : Prop :=
  ∀ s, ∃ s', m s = (inr tt, s') ∧ new_live_rooms s' = [].

(** A log record: no call on a collaborator outside the process. *)
Definition is_log (e : event) : Prop :=
  match e with
  | Logged _ _ => True
  | _ => False
  end.

(** The live flag that the scan of a mobile page ends with. *)
Definition scraped_live (html_content : pystr) : bool :=
  scrape_is_live html_content && negb (room_missing html_content).

(** The room info that [_try_pc_api] builds from the [room] object of an
    answer. *)
Definition pc_room_info (room_id : pystr) (rfs : list (pystr * json)) : json :=
  room_dict room_id
    (default (JStr (room_placeholder room_id)) (lookup_field (py "room_name") rfs))
    (if py_eq_int (default JNull (lookup_field (py "show_status") rfs)) 1
     then py "1" else py "2")
    (default (JStr unknown_owner) (lookup_field (py "owner_name") rfs)).

(** A room info of the fallback sources whose status is ['1'] or ['2']. *)
Definition is_status_dict (room_id : pystr) (v : json) : Prop :=
  ∃ room_name room_status owner_name,
    v = room_dict room_id room_name room_status owner_name ∧
    (room_status = py "1" ∨ room_status = py "2").

(** The mobile page and the PC API answer every request with [r]. *)
Definition mobile_serves (W : world) (room_id : pystr) (r : response) : Prop :=
  ∀ h, http_get W h (mobile_url room_id) (Some 10%Z) = inr r.
Definition pc_serves (W : world) (room_id : pystr) (r : response) : Prop :=
  ∀ h, http_get W h (pc_url room_id) (Some 10%Z) = inr r.

(** Everything is down but the PC API, which answers with [doc]. *)
Definition pc_world (doc : json) : world :=
  {| http_get := fun _ url _ =>
       if is_prefix (py "https://www.douyu.com/betard/") url
       then inr (ok_response url (Some doc))
       else inl no_connection;
     http_post := fun _ _ _ _ _ => inl no_connection;
     os_notify := fun _ _ _ => inr tt;
     browser_open := fun _ _ => inr tt;
     console_input := fun _ _ => inr (py "1");
     dump_names := fun _ _ => inr tt;
     strftime_now := fun _ => py "2024-05-01 12:00:00" |}.

(** A page with a nickname, a room name and a live marker, and the same
    page with the marker of a missing room after it. *)
Definition live_text : pystr :=
  py "{" ++ quoted (py "nickname") ++ py ":" ++ quoted (py "主播甲") ++ py "," ++
  quoted (py "roomName") ++ py ": " ++ quoted (py "英雄联盟") ++ py "," ++
  quoted (py "isLive") ++ py ": 1}".
Definition live_page (url : pystr) : response :=
  {| resp_url := url; status_code := 200; text := live_text; body_json := None |}.
Definition gone_page (url : pystr) : response :=
  {| resp_url := url; status_code := 200; text := live_text ++ py "房间未找到";
     body_json := None |}.

(** An answer of the PC API for a room that is live, without an owner. *)
Definition pc_doc : json :=
  JObj [ (py "room",
          JObj [ (py "room_id", JNum 63136);
                 (py "room_name", JStr (py "英雄联盟"));
                 (py "show_status", JNum 1) ]) ].

(** The address of the relay for a key: [f"https://sctapi.ftqq.com/{key}.send"]. *)
Definition relay_url (key : option pystr) : pystr :=
  py "https://sctapi.ftqq.com/" ++
  match key with
  | Some k => k
  | None => py "None"
  end ++ py ".send".

(** A text with every line feed doubled. *)
Definition double_newlines (message : pystr) : pystr :=
  flat_map (fun c => if c =? 10 then [10; 10] else [c]) message.

(** The title as [notify] logs it: the two emoji replaced by tags. *)
Definition log_title (title : pystr) : pystr :=
  str_replace (py "⚪") (py "[下播]") (str_replace (py "🔴") (py "[直播]") title).

(** The page of a room: [f"https://www.douyu.com/{room_id}"]. *)
Definition room_page (room_id : pystr) : pystr := py "https://www.douyu.com/" ++ room_id.

(** The prompt of the selection and the answers of the console to it. *)
Definition choice_prompt : pystr := py "请输入数字选择: ".
Definition console_answers (W : world) (answer : exn + pystr) : Prop :=
  ∀ h, console_input W h choice_prompt = answer.

(** A success document whose payload has no room name. *)
Definition nameless_doc : json :=
  JObj [ (py "error", JNum 0);
         (py "data", JObj [ (py "room_status", JStr (py "1")) ]) ].

(** ** The room list editor of the script

    The loop of [__main__] that edits the room list before the monitor is
    built: each line read from the console moves the editor one step.  The
    menu reads a choice; choice 1 reads an id to add; choice 2 reads the
    number of an id to delete, unless the list is empty; choice 3 empties
    the list and reads ids until a blank line; choice 4 leaves the loop.
    What the editor prints is not recorded. *)

Inductive edit_mode :=
| AtMenu       (* [choice = input("请选择操作 (1-4): ")] *)
| Adding       (* [new_id = input("请输入要添加的房间ID: ").strip()] *)
| Deleting     (* [index = int(input("请输入要删除的房间ID序号: ")) - 1] *)
| Resetting    (* [new_id = input("房间ID: ").strip()] *)
| Finished.    (* after [break] *)

Section Editor.

(** [int(s)], as in the monitor: [None] when it raises [ValueError]. *)
Variable py_int : pystr -> option Z.

Definition edit_step (st : edit_mode * list pystr) (line : pystr)
    : edit_mode * list pystr :=
  let '(mode, room_ids) := st in
  match mode with
  | AtMenu =>
      if pystr_eqb line (py "1") then (Adding, room_ids)
      else if pystr_eqb line (py "2") then
        match room_ids with
        | [] => (AtMenu, room_ids)
        | _ :: _ => (Deleting, room_ids)
        end
      else if pystr_eqb line (py "3") then (Resetting, [])
      else if pystr_eqb line (py "4") then (Finished, room_ids)
      else (AtMenu, room_ids)
  | Adding =>
      let new_id := str_strip line in
      if negb (pystr_eqb new_id []) && negb (bool_decide (new_id ∈ room_ids))
      then (AtMenu, room_ids ++ [new_id])
      else (AtMenu, room_ids)
  | Deleting =>
      match py_int line with
      | Some number =>
          let index := (number - 1)%Z in
          if ((0 <=? index) && (index <? Z.of_nat (length room_ids)))%Z
          then (AtMenu, delete (Z.to_nat index) room_ids)
          else (AtMenu, room_ids)
      | None => (AtMenu, room_ids)
      end
  | Resetting =>
      let new_id := str_strip line in
      if pystr_eqb new_id [] then (AtMenu, room_ids)
      else if bool_decide (new_id ∈ room_ids) then (Resetting, room_ids)
      else (Resetting, room_ids ++ [new_id])
  | Finished => (Finished, room_ids)
  end.

(** The editor after the lines of the console, from the menu. *)
Definition edit_rooms (lines : list pystr) (room_ids : list pystr)
    : edit_mode * list pystr :=
  foldl edit_step (AtMenu, room_ids) lines.

End Editor.

(** A room list without a repeated id and without an empty id. *)
Definition clean_ids (room_ids : list pystr) : Prop :=
  NoDup room_ids ∧ [] ∉ room_ids.

(** The text of [s] before the first [sep]. *)
Fixpoint prefix_before (sep : N) (s : pystr) : pystr :=
  match s with
  | [] => []
  | c :: s' => if c =? sep then [] else c :: prefix_before sep s'
  end.

(** A title whose room name holds a hyphen. *)
Definition hyphen_text : pystr := py "<title>LOL-S15 总决赛 - 主播甲</title>".

(** Rooms that go live later than [room_a] and [room_b]. *)
Definition room_c : pystr := py "288016".
Definition room_d : pystr := py "74751".

(** A success document of a room that is not live. *)
Definition idle_doc : json :=
  JObj [ (py "error", JNum 0);
         (py "data", JObj [ (py "room_name", JStr (py "云顶之弈"));
                            (py "owner_name", JStr (py "主播乙"));
                            (py "room_status", JStr (py "2")) ]) ].

(** The loop has slept at least once. *)
Definition has_slept (h : list event) : bool :=
  existsb (fun e => match e with Sleep _ => true | _ => false end) h.

(** The primary API reports [room_a] and [room_b] live from the start and
    every other room live from the second turn on; the console is never
    answered in between. *)
Definition staggered_world : world :=
  {| http_get := fun h url _ =>
       if is_prefix primary_prefix url then
         if pystr_eqb url (primary_url room_a) || pystr_eqb url (primary_url room_b)
            || has_slept h
         then inr (ok_response url (Some live_doc))
         else inr (ok_response url (Some idle_doc))
       else inl no_connection;
     http_post := fun _ url _ _ _ =>
       inr (ok_response url (Some (JObj [(py "code", JNum 0)])));
     os_notify := fun _ _ _ => inr tt;
     browser_open := fun _ _ => inr tt;
     console_input := fun _ _ => inr (py "1");
     dump_names := fun _ _ => inr tt;
     strftime_now := fun _ => py "2024-05-01 12:00:00" |}.

(** [run] over four rooms after the first turn of its loop: the handler
    thread was started and the list still holds what the turn appended. *)
Definition after_first_turn : state :=
  (run staggered_world no_repr 1 (start [room_a; room_b; room_c; room_d] ∅)).2.

(** ** Basic facts *)

Lemma pystr_eqb_eq (a b : pystr) : pystr_eqb a b = true ↔ a = b.
Proof.
  revert b. induction a as [|x a IH]; intros [|y b]; simpl; try (split; congruence).
  rewrite andb_true_iff, N.eqb_eq, IH. split.
  - intros [-> ->]. reflexivity.
  - intros [= -> ->]. split; reflexivity.
Qed.

Lemma pystr_eqb_refl (a : pystr) : pystr_eqb a a = true.
Proof. apply pystr_eqb_eq. reflexivity. Qed.

Lemma pystr_eqb_neq (a b : pystr) : a ≠ b → pystr_eqb a b = false.
Proof.
  intros H. destruct (pystr_eqb a b) eqn:E; [|reflexivity].
  apply pystr_eqb_eq in E. contradiction.
Qed.

Lemma is_prefix_app (p s : pystr) : is_prefix p (p ++ s) = true.
Proof. induction p as [|x p IH]; simpl; [reflexivity|]. rewrite N.eqb_refl. exact IH. Qed.

Lemma polled_room_primary (room_id : pystr) (t : option Z) :
  polled_room (HttpGet (primary_url room_id) t) = Some room_id.
Proof.
  unfold polled_room, primary_url. rewrite is_prefix_app.
  rewrite drop_app_length. reflexivity.
Qed.

Lemma set_trace_same (s : state) : set_trace (trace s) s = s.
Proof. destruct s. reflexivity. Qed.

Lemma polled_rooms_minor (evs : list event) :
  Forall minor evs → polled_rooms evs = [].
Proof.
  induction 1 as [|e evs (Hp & _ & _) _ IH]; [reflexivity|].
  unfold polled_rooms in *. simpl. rewrite Hp. exact IH.
Qed.

Lemma went_live_minor (evs : list event) :
  Forall minor evs → went_live evs = [].
Proof.
  induction 1 as [|e evs (_ & Hw & _) _ IH]; [reflexivity|].
  unfold went_live in *. simpl. rewrite Hw. exact IH.
Qed.

Lemma bounded_minor (evs : list event) :
  Forall minor evs → Forall (λ e, unbounded_get e = false) evs.
Proof. intros H. eapply Forall_impl; [exact H|]. intros e (_ & _ & He). exact He. Qed.

(** ** The judgements and the combinators of the monad *)

Section Judgements.

Context {A B : Type}.

Lemma quiet_ret (a : A) : quiet (ret a).
Proof.
  intros s. exists []. simpl. rewrite app_nil_r, set_trace_same. auto.
Qed.

Lemma quiet_raise (e : exn) : quiet (@raise A e).
Proof.
  intros s. exists []. simpl. rewrite app_nil_r, set_trace_same. auto.
Qed.

Lemma quiet_gets (f : state → A) : quiet (gets f).
Proof.
  intros s. exists []. simpl. rewrite app_nil_r, set_trace_same. auto.
Qed.

Lemma quiet_call (e : event) (answer : list event → exn + A) :
  minor e → quiet (call e answer).
Proof. intros He s. exists [e]. simpl. auto. Qed.

Lemma quiet_bind (m : M A) (k : A → M B) :
  quiet m → (∀ a, quiet (k a)) → quiet (bind m k).
Proof.
  intros Hm Hk s. unfold bind. destruct (Hm s) as (evs1 & E1 & F1).
  destruct (m s) as [[e|a] s1]; simpl in E1; subst s1.
  - exists evs1. auto.
  - destruct (Hk a (set_trace (trace s ++ evs1) s)) as (evs2 & E2 & F2).
    exists (evs1 ++ evs2). rewrite E2. simpl. rewrite app_assoc.
    split; [reflexivity|]. apply Forall_app; auto.
Qed.

Lemma quiet_try (body : M A) (handler : exn → M A) :
  quiet body → (∀ e, quiet (handler e)) → quiet (try_except body handler).
Proof.
  intros Hm Hk s. unfold try_except. destruct (Hm s) as (evs1 & E1 & F1).
  destruct (body s) as [[e|a] s1]; simpl in E1; subst s1.
  - destruct (Hk e (set_trace (trace s ++ evs1) s)) as (evs2 & E2 & F2).
    exists (evs1 ++ evs2). rewrite E2. simpl. rewrite app_assoc.
    split; [reflexivity|]. apply Forall_app; auto.
  - exists evs1. auto.
Qed.

Lemma safe_ret (a : A) : safe (ret a).
Proof. intros s. exists a. reflexivity. Qed.

Lemma safe_gets (f : state → A) : safe (gets f).
Proof. intros s. exists (f s). reflexivity. Qed.

Lemma safe_bind (m : M A) (k : A → M B) :
  safe m → (∀ a, safe (k a)) → safe (bind m k).
Proof.
  intros Hm Hk s. unfold bind. destruct (Hm s) as (a & E).
  destruct (m s) as [[e|a'] s1]; simpl in E; [discriminate|].
  apply Hk.
Qed.

Lemma safe_try (body : M A) (handler : exn → M A) :
  (∀ e, safe (handler e)) → safe (try_except body handler).
Proof.
  intros Hk s. unfold try_except.
  destruct (body s) as [[e|a] s1]; [apply Hk|]. exists a. reflexivity.
Qed.

Lemma yields_ret (P : A → Prop) (a : A) : P a → yields P (ret a).
Proof. intros H s. exact H. Qed.

Lemma yields_raise (P : A → Prop) (e : exn) : yields P (raise e).
Proof. intros s. exact I. Qed.

Lemma yields_bind (P : B → Prop) (m : M A) (k : A → M B) :
  (∀ a, yields P (k a)) → yields P (bind m k).
Proof.
  intros Hk s. unfold bind. destruct (m s) as [[e|a] s1]; [exact I|]. apply Hk.
Qed.

Lemma yields_seq (P : B → Prop) (Q : A → Prop) (m : M A) (k : A → M B) :
  yields Q m → (∀ a, Q a → yields P (k a)) → yields P (bind m k).
Proof.
  intros Hm Hk s. unfold bind. specialize (Hm s).
  destruct (m s) as [[e|a] s1]; [exact I|]. apply Hk. exact Hm.
Qed.

Lemma yields_try (P : A → Prop) (body : M A) (handler : exn → M A) :
  yields P body → (∀ e, yields P (handler e)) → yields P (try_except body handler).
Proof.
  intros Hm Hk s. unfold try_except. specialize (Hm s).
  destruct (body s) as [[e|a] s1]; [apply Hk|exact Hm].
Qed.

End Judgements.

Lemma safe_modify (f : state → state) : safe (modify f).
Proof. intros s. exists tt. reflexivity. Qed.

Lemma safe_emit (e : event) : safe (emit e).
Proof. intros s. exists tt. reflexivity. Qed.

Lemma quiet_log (lvl : level) (r : log_record) :
  went_live_room (Logged lvl r) = None → quiet (log lvl r).
Proof. intros H. apply quiet_call. repeat split. exact H. Qed.

Lemma quiet_py_get (v : json) (k : pystr) : quiet (py_get v k).
Proof. destruct v; first [apply quiet_ret | apply quiet_raise]. Qed.

Lemma quiet_py_get_default (v : json) (k : pystr) (d : json) :
  quiet (py_get_default v k d).
Proof. destruct v; first [apply quiet_ret | apply quiet_raise]. Qed.

Lemma quiet_response_json (r : response) : quiet (response_json r).
Proof.
  unfold response_json. destruct (body_json r); [apply quiet_ret | apply quiet_raise].
Qed.

Lemma minor_get_mobile (room_id : pystr) (t : Z) :
  minor (HttpGet (mobile_url room_id) (Some t)).
Proof. repeat split; reflexivity. Qed.

Lemma minor_get_pc (room_id : pystr) (t : Z) :
  minor (HttpGet (pc_url room_id) (Some t)).
Proof. repeat split; reflexivity. Qed.

Create HintDb quiet discriminated.
#[local] Hint Resolve quiet_ret quiet_raise quiet_gets quiet_py_get
  quiet_py_get_default quiet_response_json safe_ret safe_gets safe_modify
  safe_emit minor_get_mobile minor_get_pc : quiet.

(** Walks down a computation built from [bind], [try_except], tests and
    calls, leaving the goals of the calls that are not minor. *)
Ltac walk :=
  repeat first
    [ apply quiet_bind; [|intros]
    | apply quiet_try; [|intros]
    | apply safe_bind; [|intros]
    | apply safe_try; intros
    | apply quiet_log; reflexivity
    | apply quiet_call; solve [repeat split; reflexivity]
    | solve [auto with quiet]
    | match goal with
      | |- quiet (if ?b then _ else _) => destruct b
      | |- safe (if ?b then _ else _) => destruct b
      | |- quiet (match ?x with _ => _ end) => destruct x
      | |- safe (match ?x with _ => _ end) => destruct x
      | |- quiet (let '(_, _) := ?x in _) => destruct x
      | |- safe (let '(_, _) := ?x in _) => destruct x
      end ].

Lemma safe_log (lvl : level) (r : log_record) : safe (log lvl r).
Proof. apply safe_emit. Qed.

Lemma safe_print (line : pystr) : safe (print line).
Proof. apply safe_emit. Qed.

Lemma quiet_print (line : pystr) : quiet (print line).
Proof. apply quiet_call. repeat split; reflexivity. Qed.

#[local] Hint Resolve safe_log safe_print quiet_print : quiet.

(** ** The resolver and the dispatcher, function by function *)

Section Functions.

Variable W : world.
Variable py_repr : json → pystr.
Variable py_int : pystr → option Z.

Lemma save_room_names_quiet : quiet (save_room_names W).
Proof. unfold save_room_names. walk. Qed.

Lemma save_room_names_safe : safe (save_room_names W).
Proof. unfold save_room_names. walk. Qed.

Lemma try_pc_api_quiet (room_id : pystr) : quiet (_try_pc_api W room_id).
Proof. unfold _try_pc_api, requests_get. walk. Qed.

Lemma try_pc_api_safe (room_id : pystr) : safe (_try_pc_api W room_id).
Proof. unfold _try_pc_api. walk. Qed.

Lemma get_room_info_backup_quiet (room_id : pystr) :
  quiet (get_room_info_backup W room_id).
Proof.
  unfold get_room_info_backup, requests_get. walk.
Qed.

Lemma get_room_info_backup_safe (room_id : pystr) :
  safe (get_room_info_backup W room_id).
Proof. unfold get_room_info_backup. walk. Qed.

Lemma get_room_info_safe (room_id : pystr) : safe (get_room_info W room_id).
Proof. unfold get_room_info. walk. Qed.

Lemma send_server_chan_quiet (title message : pystr) :
  quiet (send_server_chan W title message).
Proof. unfold send_server_chan, requests_post. walk. Qed.

Lemma send_server_chan_safe (title message : pystr) :
  safe (send_server_chan W title message).
Proof. unfold send_server_chan. walk. Qed.

Lemma notify_quiet (title message : pystr) : quiet (notify W title message).
Proof. unfold notify. walk. Qed.

Lemma notify_safe (title message : pystr) : safe (notify W title message).
Proof. unfold notify. walk. Qed.

Lemma open_live_room_quiet (room_id : pystr) : quiet (open_live_room W room_id).
Proof. unfold open_live_room. walk. Qed.

Lemma open_live_room_safe (room_id : pystr) : safe (open_live_room W room_id).
Proof. unfold open_live_room. walk. Qed.

End Functions.

(** ** The paths of the resolver *)

(** Case analysis on every test of a straight-line path. *)
Ltac clash :=
  match goal with
  | H : ?x = _, H' : context [?x] |- _ =>
      rewrite H in H'; simpl in H'; discriminate H'
  end.

Ltac crunch :=
  repeat (simpl in *; try discriminate; try clash;
          match goal with
          | |- context [match ?x with _ => _ end] =>
              lazymatch x with
              | context [match _ with _ => _ end] => fail
              | _ => let E := fresh "E" in destruct x eqn:E; rewrite ?E in *
              end
          end).

(** Closes a path: the events added are the ones listed in the goal. *)
Ltac close_path :=
  eexists; split; [|rewrite <- ?app_assoc; simpl; reflexivity];
  repeat constructor.

Section Resolution.

Variable W : world.

Lemma get_room_info_accepted (room_id : pystr) (s : state) (r : response)
    (fs : list (pystr * json)) :
  http_get W (trace s) (primary_url room_id) None = inr r →
  body_json r = Some (JObj fs) →
  py_eq_int (default JNull (lookup_field (py "error") fs)) 0 = true →
  get_room_info W room_id s =
    (inr (default (JObj []) (lookup_field (py "data") fs)),
     set_trace (trace s ++ [HttpGet (primary_url room_id) None]) s).
Proof.
  intros Hget Hbody Herr.
  unfold get_room_info, try_except, bind, requests_get, call, response_json.
  rewrite Hget, Hbody. simpl. rewrite Herr.
  reflexivity.
Qed.

(** When the primary API does not accept, the resolver goes on with
    [get_room_info_backup], after at most one log record. *)
Lemma get_room_info_rejected (room_id : pystr) (s : state) :
  primary_rejects (http_get W (trace s) (primary_url room_id) None) →
  ∃ evs, Forall minor evs ∧
    get_room_info W room_id s =
      get_room_info_backup W room_id
        (set_trace (trace s ++ HttpGet (primary_url room_id) None :: evs) s).
Proof.
  intros Hrej.
  unfold get_room_info, try_except, bind, requests_get, call, response_json.
  unfold primary_rejects in Hrej.
  destruct (http_get W (trace s) (primary_url room_id) None) as [e|r]; simpl.
  - eexists [_]. split; [|unfold log, emit, call; simpl; rewrite <- app_assoc; reflexivity].
    repeat constructor.
  - destruct (body_json r) as [[| | | | |fs]|]; simpl;
      try (eexists [_]; split;
           [|unfold log, emit, call; simpl; rewrite <- app_assoc; reflexivity];
           repeat constructor).
    rewrite Hrej. exists []. split; [constructor|].
    match goal with |- context [get_room_info_backup W room_id ?s1] =>
      destruct (get_room_info_backup_safe W room_id s1) as [v Hv];
      destruct (get_room_info_backup W room_id s1) as [[e|v'] s2]
    end; [discriminate|reflexivity].
Qed.

Lemma try_pc_api_down (room_id : pystr) (s : state) :
  pc_down W room_id →
  ∃ evs, Forall minor evs ∧
    _try_pc_api W room_id s =
      (inr (cache_fallback room_id (room_names s)),
       set_trace (trace s ++ evs) s).
Proof.
  intros Hdown. specialize (Hdown (trace s)).
  unfold _try_pc_api, cache_fallback, try_except, bind, requests_get, call,
    response_json, py_get, py_get_default, pc_fails, pc_has_room, default in *.
  crunch; close_path.
Qed.

(** Uses the equation of [_try_pc_api] at the state the goal calls it in. *)
Ltac use_pc_down H :=
  match goal with
  | |- context [_try_pc_api W ?rid ?s1] =>
      let evs := fresh "evs" in
      let F := fresh "F" in
      let E := fresh "E" in
      destruct (try_pc_api_down rid s1 H) as (evs & F & E); rewrite E; clear E
  end.

Lemma get_room_info_backup_down (room_id : pystr) (s : state) :
  mobile_down W room_id → pc_down W room_id →
  ∃ evs, Forall minor evs ∧
    get_room_info_backup W room_id s =
      (inr (cache_fallback room_id (room_names s)),
       set_trace (trace s ++ evs) s).
Proof.
  intros Hmob Hpc. specialize (Hmob (trace s)).
  unfold get_room_info_backup, try_except, bind, requests_get, call,
    mobile_unusable in *.
  destruct (http_get W (trace s) (mobile_url room_id) (Some 10%Z)) as [e|r]; simpl.
  - use_pc_down Hpc. simpl. eexists. split; [|rewrite <- !app_assoc; reflexivity].
    repeat constructor; assumption.
  - destruct Hmob as [Hcode Hurl]. apply Z.eqb_neq in Hcode.
    destruct (pystr_eqb (resp_url r) (mobile_url room_id)) eqn:Eurl; simpl.
    + rewrite Hcode. simpl. use_pc_down Hpc. simpl.
      eexists. split; [|rewrite <- !app_assoc; reflexivity].
      repeat constructor; assumption.
    + destruct Hurl as [Hurl|Hurl].
      { apply pystr_eqb_eq in Hurl. congruence. }
      rewrite Hurl. simpl. rewrite Hcode. simpl. use_pc_down Hpc. simpl.
      eexists. split; [|rewrite <- !app_assoc; reflexivity].
      repeat constructor; assumption.
Qed.

Lemma get_room_info_backup_topic (room_id : pystr) (s : state) :
  mobile_on_topic W room_id →
  get_room_info_backup W room_id s =
    (inr (topic_fallback room_id (room_names s)),
     set_trace (trace s ++
                [ HttpGet (mobile_url room_id) (Some 10%Z);
                  Logged DEBUG
                    (LogRedirected room_id
                       (match http_get W (trace s) (mobile_url room_id) (Some 10%Z) with
                        | inr r => resp_url r
                        | inl _ => []
                        end));
                  Logged WARNING (LogTopicRedirect room_id) ]) s).
Proof.
  intros Hmob. specialize (Hmob (trace s)).
  unfold get_room_info_backup, try_except, bind, requests_get, call,
    mobile_topic_redirect in *.
  destruct (http_get W (trace s) (mobile_url room_id) (Some 10%Z)) as [e|r];
    [contradiction|]. simpl.
  destruct Hmob as [Hurl Htopic]. rewrite (pystr_eqb_neq _ _ Hurl). simpl.
  rewrite Htopic. simpl. rewrite <- !app_assoc. reflexivity.
Qed.

End Resolution.

Lemma get_room_info_trace (W : world) (room_id : pystr) (s : state) :
  ∃ evs, Forall minor evs ∧
    (get_room_info W room_id s).2 =
      set_trace (trace s ++ HttpGet (primary_url room_id) None :: evs) s.
Proof.
  assert (primary_rejects (http_get W (trace s) (primary_url room_id) None) ∨
          ∃ r fs, http_get W (trace s) (primary_url room_id) None = inr r ∧
                  body_json r = Some (JObj fs) ∧
                  py_eq_int (default JNull (lookup_field (py "error") fs)) 0 = true)
    as [Hrej|(r & fs & Hget & Hbody & Herr)].
  { unfold primary_rejects.
    destruct (http_get W (trace s) (primary_url room_id) None) as [e|r]; [left; exact I|].
    destruct (body_json r) as [[| | | | |fs]|] eqn:Hbody; try (left; exact I).
    destruct (py_eq_int (default JNull (lookup_field (py "error") fs)) 0) eqn:Herr;
      [right; eauto|left; reflexivity]. }
  - destruct (get_room_info_rejected W room_id s Hrej) as (evs1 & F1 & ->).
    destruct (get_room_info_backup_quiet W room_id
                (set_trace (trace s ++ HttpGet (primary_url room_id) None :: evs1) s))
      as (evs2 & -> & F2).
    exists (evs1 ++ evs2). split; [apply Forall_app; auto|].
    simpl. rewrite <- app_assoc. reflexivity.
  - rewrite (get_room_info_accepted W room_id s r fs Hget Hbody Herr).
    exists []. split; [constructor|reflexivity].
Qed.

Lemma has_names_cache_fallback (room_id : pystr) (names : gmap pystr json) :
  has_names (cache_fallback room_id names) = true.
Proof.
  unfold cache_fallback, has_names, room_dict. simpl.
  destruct (truthy (default JNull (names !! room_id))) eqn:E; rewrite ?E; reflexivity.
Qed.

Lemma is_room_dict_intro (room_id : pystr) (room_name : json)
    (room_status : pystr) (owner_name : json) :
  is_room_dict room_id (room_dict room_id room_name room_status owner_name).
Proof. eexists _, _, _. reflexivity. Qed.

Lemma found_dict_some (room_id : pystr) (room_name : json)
    (room_status : pystr) (owner_name : json) :
  ∀ v, Some (room_dict room_id room_name room_status owner_name) = Some v →
       is_room_dict room_id v.
Proof. intros v [= <-]. apply is_room_dict_intro. Qed.

Lemma found_dict_none (room_id : pystr) :
  ∀ v, @None json = Some v → is_room_dict room_id v.
Proof. discriminate. Qed.

(** Walks down a computation to its [return]s. *)
Ltac ywalk :=
  repeat first
    [ apply yields_raise
    | apply yields_ret;
      first [apply is_room_dict_intro | apply found_dict_some | apply found_dict_none]
    | apply yields_try; [|intros]
    | apply yields_bind; intros
    | match goal with
      | |- yields _ (if ?b then _ else _) => destruct b
      | |- yields _ (match ?x with _ => _ end) => destruct x
      end ].

Lemma try_pc_api_dict (W : world) (room_id : pystr) :
  yields (is_room_dict room_id) (_try_pc_api W room_id).
Proof.
  unfold _try_pc_api.
  apply yields_seq with (Q := λ o, ∀ v, o = Some v → is_room_dict room_id v).
  - ywalk.
  - intros [info|] Hinfo; [apply yields_ret; auto|]. ywalk.
Qed.

Lemma get_room_info_backup_dict (W : world) (room_id : pystr) :
  yields (is_room_dict room_id) (get_room_info_backup W room_id).
Proof.
  unfold get_room_info_backup. apply yields_try.
  - apply yields_bind. intros response.
    apply yields_seq with (Q := λ o, ∀ v, o = Some v → is_room_dict room_id v).
    + ywalk.
    + intros [info|] Hinfo; [apply yields_ret; auto|].
      destruct (status_code response =? 200)%Z.
      * destruct (scrape_names (text response)). ywalk.
      * apply yields_bind. intros _. apply try_pc_api_dict.
  - intros e. apply yields_bind. intros _. apply try_pc_api_dict.
Qed.

(** ** Claims on the resolver *)

(** C4. When the primary API answers with a JSON object whose [error]
    field equals 0, [get_room_info] returns the [data] payload of that
    answer as it is (so its name, owner and live-status fields), and the
    only call it makes is the GET on the primary API: no request for the
    mobile page, none for the PC API, no log record, and the state, name
    cache included, is left as it was. *)
Theorem primary_success_bypasses_fallbacks (W : world) (room_id : pystr)
    (s : state) (r : response) (fs : list (pystr * json)) :
  http_get W (trace s) (primary_url room_id) None = inr r →
  body_json r = Some (JObj fs) →
  py_eq_int (default JNull (lookup_field (py "error") fs)) 0 = true →
  ∃ s',
    get_room_info W room_id s =
      (inr (default (JObj []) (lookup_field (py "data") fs)), s') ∧
    s' = set_trace (trace s ++ [HttpGet (primary_url room_id) None]) s ∧
    room_names s' = room_names s ∧
    ∀ e, e ∈ trace s' → e ∈ trace s ∨ e = HttpGet (primary_url room_id) None.
Proof.
  intros Hget Hbody Herr.
  exists (set_trace (trace s ++ [HttpGet (primary_url room_id) None]) s).
  split; [|split; [reflexivity|split; [reflexivity|]]].
  - unfold get_room_info, try_except, bind, requests_get, call, response_json.
    rewrite Hget, Hbody. simpl. rewrite Herr. reflexivity.
  - intros e He. cbn [trace set_trace] in He.
    apply elem_of_app in He as [He|He]; [left; exact He|right].
    apply list_elem_of_singleton in He. exact He.
Qed.

(** The primary API answers room 63136 with a success document. *)
Lemma primary_success_bypasses_fallbacks_witness :
  py_eq_int (JNum 0) 0 = true ∧
  (get_room_info (primary_world live_doc) room_a (start [room_a] ∅)).1 =
    inr live_payload.
Proof.
  split; [reflexivity|].
  destruct (primary_success_bypasses_fallbacks (primary_world live_doc) room_a
              (start [room_a] ∅) (ok_response (primary_url room_a) (Some live_doc))
              [ (py "error", JNum 0); (py "data", live_payload) ])
    as (s' & E & _); [reflexivity|reflexivity|reflexivity|].
  rewrite E. reflexivity.
Defined.

(** C5. When the primary API does not accept and the mobile page ends on
    another address that contains [topic], the resolver returns a room info
    whose [room_status] is ['2'] and whose [room_name] and [owner_name] are
    both the cached name of the room when there is one (and the
    placeholders built from the room id when there is none). *)
Theorem topic_redirect_reports_offline (W : world) (room_id : pystr) (s : state) :
  primary_rejects (http_get W (trace s) (primary_url room_id) None) →
  mobile_on_topic W room_id →
  ∃ s', get_room_info W room_id s =
          (inr (room_dict room_id
                  (default (JStr (room_placeholder room_id)) (room_names s !! room_id))
                  (py "2")
                  (default (JStr (owner_placeholder room_id)) (room_names s !! room_id))),
           s') ∧
        room_names s' = room_names s ∧
        ∀ name, room_names s !! room_id = Some name →
                (get_room_info W room_id s).1 =
                  inr (room_dict room_id name (py "2") name).
Proof.
  intros Hrej Htopic.
  destruct (get_room_info_rejected W room_id s Hrej) as (evs & _ & E).
  rewrite E, (get_room_info_backup_topic W room_id _ Htopic).
  eexists. split; [reflexivity|]. split; [reflexivity|].
  intros name Hname. unfold fst, topic_fallback. cbn [room_names set_trace].
  rewrite Hname. reflexivity.
Qed.

(** The mobile page of room 63136 is redirected to a topic page. *)
Lemma topic_redirect_reports_offline_witness :
  (get_room_info (mobile_world topic_page) room_a
     (start [room_a] {[ room_a := JStr (py "英雄联盟") ]})).1 =
    inr (room_dict room_a (JStr (py "英雄联盟")) (py "2") (JStr (py "英雄联盟"))).
Proof.
  destruct (topic_redirect_reports_offline (mobile_world topic_page) room_a
              (start [room_a] {[ room_a := JStr (py "英雄联盟") ]}))
    as (s' & _ & _ & H).
  - exact I.
  - intros h. split; [discriminate|reflexivity].
  - apply H. reflexivity.
Defined.

(** C7. The GET on the primary API is issued without a timeout: it is the
    first call of every resolution, whatever the room and the world, and
    it carries no [timeout] argument.  Every call that the resolution makes
    after it (mobile page, PC API) is bounded. *)
Theorem primary_get_has_no_timeout (W : world) (room_id : pystr) (s : state) :
  ∃ evs,
    trace (get_room_info W room_id s).2 =
      trace s ++ HttpGet (primary_url room_id) None :: evs ∧
    unbounded_get (HttpGet (primary_url room_id) None) = true ∧
    Forall (λ e, unbounded_get e = false) evs.
Proof.
  destruct (get_room_info_trace W room_id s) as (evs & F & E).
  exists evs. rewrite E. split; [reflexivity|]. split; [reflexivity|].
  apply bounded_minor. exact F.
Qed.

(** C2, as stated, fails: a success answer of the primary API without a
    payload makes [get_room_info] return the empty dict, in which neither
    name is present. *)
Lemma get_room_info_may_lack_names :
  ¬ (∀ (W : world) (room_id : pystr) (s : state),
       ∃ v s', get_room_info W room_id s = (inr v, s') ∧ has_names v = true).
Proof.
  intros H.
  destruct (H (primary_world bare_doc) room_a (start [room_a] ∅))
    as (v & s' & E & Hnames).
  assert (Hv : (get_room_info (primary_world bare_doc) room_a (start [room_a] ∅)).1
               = inr (JObj [])) by reflexivity.
  rewrite E in Hv. simpl in Hv. injection Hv as ->. discriminate Hnames.
Qed.

(** C2, amended. For every room id and every behaviour of the sources,
    [get_room_info] never raises.  When the primary API does not accept,
    it returns a room info in which [room_id], [room_name], [room_status]
    and [owner_name] are present; when moreover the mobile page and the PC
    API fail, both names are non-empty: the cached name of the room, or the
    placeholders built from the room id.  (When the primary API accepts,
    its payload is returned as it is, whatever it holds.) *)
Theorem get_room_info_never_raises (W : world) (room_id : pystr) (s : state) :
  ∃ v s',
    get_room_info W room_id s = (inr v, s') ∧
    (primary_rejects (http_get W (trace s) (primary_url room_id) None) →
     ∃ room_name room_status owner_name,
       v = room_dict room_id room_name room_status owner_name) ∧
    (primary_rejects (http_get W (trace s) (primary_url room_id) None) →
     mobile_down W room_id → pc_down W room_id →
     v = cache_fallback room_id (room_names s) ∧ has_names v = true).
Proof.
  destruct (get_room_info_safe W room_id s) as [v Hv].
  destruct (get_room_info W room_id s) as [[e|v'] s'] eqn:E; [discriminate|].
  simpl in Hv. injection Hv as ->. exists v, s'. split; [reflexivity|]. split.
  - intros Hrej.
    destruct (get_room_info_rejected W room_id s Hrej) as (evs & _ & E').
    rewrite E' in E.
    pose proof (get_room_info_backup_dict W room_id
                  (set_trace (trace s ++ HttpGet (primary_url room_id) None :: evs) s))
      as Hd.
    rewrite E in Hd. exact Hd.
  - intros Hrej Hmob Hpc.
    destruct (get_room_info_rejected W room_id s Hrej) as (evs & _ & E').
    rewrite E' in E.
    destruct (get_room_info_backup_down W room_id
                (set_trace (trace s ++ HttpGet (primary_url room_id) None :: evs) s)
                Hmob Hpc) as (evs2 & _ & E2).
    rewrite E2 in E. injection E as <- _.
    split; [reflexivity|apply has_names_cache_fallback].
Qed.

(** Every request raises and nothing is cached: the placeholders. *)
Lemma get_room_info_never_raises_witness :
  (get_room_info offline_world room_a (start [room_a] ∅)).1 =
    inr (room_dict room_a (JStr (room_placeholder room_a)) (py "2")
           (JStr (owner_placeholder room_a))).
Proof.
  destruct (get_room_info_never_raises offline_world room_a (start [room_a] ∅))
    as (v & s' & E & _ & H).
  rewrite E. simpl. f_equal.
  apply H; [exact I | intros h; exact I | intros h; exact I].
Defined.

(** ** The name cache update *)

Lemma get_room_info_result (W : world) (room_id : pystr) (s : state) :
  ∃ v evs, Forall minor evs ∧
    get_room_info W room_id s =
      (inr v, set_trace (trace s ++ HttpGet (primary_url room_id) None :: evs) s).
Proof.
  destruct (get_room_info_safe W room_id s) as [v Hv].
  destruct (get_room_info_trace W room_id s) as (evs & F & E).
  destruct (get_room_info W room_id s) as [[e|v'] s']; [discriminate|].
  simpl in *. injection Hv as ->. subst s'. eauto.
Qed.

(** [check_room_status] after the resolver: it raises on a room info that
    is no dict, and otherwise stores a truthy [room_name] and returns. *)
Lemma check_room_status_after (W : world) (room_id : pystr) (s s1 : state) (v : json) :
  get_room_info W room_id s = (inr v, s1) →
  ∃ evs, Forall minor evs ∧
    check_room_status W room_id s =
      (if is_dict v then inr (live_flag v, v) else inl AttributeError,
       set_trace (trace s1 ++ evs) (set_room_names (names_after room_id v (room_names s1)) s1)).
Proof.
  intros E. unfold check_room_status, bind at 1. rewrite E.
  destruct v as [| | | | |fs];
    try (exists []; split; [constructor|]; simpl; rewrite app_nil_r;
         destruct s1; reflexivity).
  unfold bind, py_get, ret. simpl.
  destruct (truthy (default JNull (lookup_field (py "room_name") fs))) eqn:Et.
  - unfold modify. simpl.
    match goal with |- context [save_room_names W ?s2] =>
      destruct (save_room_names_safe W s2) as [[] Hs];
      destruct (save_room_names_quiet W s2) as (evs & Hq & F);
      destruct (save_room_names W s2) as [[e|[]] s3]; [discriminate|]
    end.
    simpl in Hq. subst s3. exists evs. split; [exact F|]. reflexivity.
  - exists []. split; [constructor|]. simpl. rewrite app_nil_r.
    destruct s1; reflexivity.
Qed.

(** What [check_room_status] leaves alone, and what it can return. *)
Lemma check_room_status_frame (W : world) (room_id : pystr) (s : state) :
  ∃ v evs,
    Forall minor evs ∧
    check_room_status W room_id s =
      (if is_dict v then inr (live_flag v, v) else inl AttributeError,
       set_trace (trace s ++ HttpGet (primary_url room_id) None :: evs)
         (set_room_names (names_after room_id v (room_names s)) s)).
Proof.
  destruct (get_room_info_result W room_id s) as (v & evs1 & F1 & E).
  destruct (check_room_status_after W room_id s _ v E) as (evs2 & F2 & E2).
  exists v, (evs1 ++ evs2). split; [apply Forall_app; auto|].
  rewrite E2. simpl. rewrite <- app_assoc. reflexivity.
Qed.

(** C3, as stated, fails: with the primary API down, a mobile page served
    at the requested address in which no name is found makes the scraper
    return the literal unknown-room string, and [check_room_status] stores
    it over the name that the cache held. *)
Lemma cache_name_overwritten_by_placeholder :
  ¬ (∀ (W : world) (room_id : pystr) (s : state) (name : json),
       room_names s !! room_id = Some name →
       is_placeholder room_id name = false →
       ∃ name', room_names (check_room_status W room_id s).2 !! room_id = Some name' ∧
                is_placeholder room_id name' = false).
Proof.
  intros H.
  destruct (H (mobile_world empty_page) room_a
              (start [room_a] {[ room_a := JStr (py "英雄联盟") ]})
              (JStr (py "英雄联盟")))
    as (name' & Hname & Hreal); [reflexivity|reflexivity|].
  assert (Hstored :
    room_names (check_room_status (mobile_world empty_page) room_a
                  (start [room_a] {[ room_a := JStr (py "英雄联盟") ]})).2
      !! room_a = Some (JStr unknown_room)) by (vm_compute; reflexivity).
  rewrite Hstored in Hname. injection Hname as <-. discriminate Hreal.
Qed.

(** C3, amended. [check_room_status] stores the truthy [room_name] of the
    room info that the resolver returned, whatever it is.  When the primary
    API does not accept and either the mobile page is redirected to a topic
    page or the mobile page and the PC API both fail, a room whose cache
    entry is a non-empty name keeps it: the cache is left as it was. *)
Theorem cached_name_kept_on_fallback (W : world) (room_id : pystr) (s : state)
    (name : json) :
  primary_down W room_id →
  mobile_on_topic W room_id ∨ (mobile_down W room_id ∧ pc_down W room_id) →
  room_names s !! room_id = Some name →
  truthy name = true →
  ∃ info s', check_room_status W room_id s = (inr (false, info), s') ∧
             room_names s' = room_names s.
Proof.
  intros Hprim Hpath Hname Htruthy.
  destruct (get_room_info_rejected W room_id s (Hprim (trace s))) as (evs & _ & E).
  assert (∃ s1, get_room_info W room_id s =
                  (inr (room_dict room_id name (py "2") name), s1) ∧
                room_names s1 = room_names s) as (s1 & E1 & Hs1).
  { destruct Hpath as [Htopic|[Hmob Hpc]].
    - rewrite E, (get_room_info_backup_topic W room_id _ Htopic).
      unfold topic_fallback. cbn [room_names set_trace]. rewrite Hname.
      eexists. split; reflexivity.
    - destruct (get_room_info_backup_down W room_id
                  (set_trace (trace s ++ HttpGet (primary_url room_id) None :: evs) s)
                  Hmob Hpc) as (evs2 & _ & E2).
      rewrite E, E2. unfold cache_fallback.
      cbn [room_names set_trace]. rewrite Hname. simpl. rewrite Htruthy.
      eexists. split; reflexivity. }
  destruct (check_room_status_after W room_id s s1 _ E1) as (evs3 & _ & E3).
  rewrite E3. eexists _, _. split; [reflexivity|].
  cbn [room_names set_trace set_room_names]. rewrite Hs1.
  unfold names_after, room_dict. simpl. rewrite Htruthy.
  apply insert_id. exact Hname.
Qed.

(** Every request raises and a name is cached: the cache is kept. *)
Lemma cached_name_kept_on_fallback_witness :
  ∃ info s',
    check_room_status offline_world room_a
      (start [room_a] {[ room_a := JStr (py "英雄联盟") ]}) = (inr (false, info), s') ∧
    room_names s' = room_names (start [room_a] {[ room_a := JStr (py "英雄联盟") ]}).
Proof.
  apply (cached_name_kept_on_fallback offline_world room_a
           (start [room_a] {[ room_a := JStr (py "英雄联盟") ]})
           (JStr (py "英雄联盟"))).
  - intros h. exact I.
  - right. split; intros h; exact I.
  - reflexivity.
  - reflexivity.
Defined.

(** ** The dispatcher and one iteration of the loop *)

Lemma quiet_safe_run {A} (m : M A) (s : state) :
  quiet m → safe m →
  ∃ a evs, Forall minor evs ∧ m s = (inr a, set_trace (trace s ++ evs) s).
Proof.
  intros Hq Hs. destruct (Hq s) as (evs & E & F). destruct (Hs s) as (a & Ea).
  destruct (m s) as [[e|a'] s']; [discriminate|]. simpl in *.
  injection Ea as ->. subst s'. eauto.
Qed.

(** [notify] never raises, touches nothing but the history, and its first
    call is the OS notification. *)
Lemma notify_run (W : world) (title message : pystr) (s : state) :
  ∃ evs, Forall minor evs ∧
    notify W title message s =
      (inr tt, set_trace (trace s ++ OsNotify title message :: evs) s).
Proof.
  unfold notify.
  set (rest := λ _ : unit,
         log INFO (LogNotifySent
                     (str_replace (py "⚪") (py "[下播]")
                        (str_replace (py "🔴") (py "[直播]") title)) message) ;;
         key <- gets server_chan_key ;;
         if key_set key then send_server_chan W title message else ret tt).
  change (∃ evs, Forall minor evs ∧
            try_except
              (bind (call (OsNotify title message)
                       (λ h, os_notify W h title message)) rest)
              (λ e, log ERROR (LogNotifyFailed e)) s =
            (inr tt, set_trace (trace s ++ OsNotify title message :: evs) s)).
  unfold try_except, bind, call.
  destruct (os_notify W (trace s) title message) as [e|[]].
  - exists [Logged ERROR (LogNotifyFailed e)]. split; [repeat constructor|].
    unfold log, emit, call. simpl. rewrite <- ?app_assoc. reflexivity.
  - destruct (quiet_safe_run (rest tt)
                (set_trace (trace s ++ [OsNotify title message]) s))
      as ([] & evs & F & E).
    { subst rest. walk. }
    { subst rest. walk. }
    rewrite E. exists evs. split; [exact F|]. simpl. rewrite <- ?app_assoc.
    reflexivity.
Qed.

(** When the OS notification raises, nothing else is attempted. *)
Lemma notify_sink_raises (W : world) (title message : pystr) (s : state) (e : exn) :
  os_notify W (trace s) title message = inl e →
  notify W title message s =
    (inr tt,
     set_trace (trace s ++ [OsNotify title message; Logged ERROR (LogNotifyFailed e)]) s).
Proof.
  intros H. unfold notify, try_except, bind at 1, call at 1. rewrite H.
  unfold log, emit, call. simpl. rewrite <- ?app_assoc. reflexivity.
Qed.

Section Iteration.

Variable W : world.
Variable py_repr : json → pystr.

Lemma update_status_unchanged (room_id : pystr) (is_live : bool)
    (fs : list (pystr * json)) (s : state) :
  room_status s !! room_id = Some is_live →
  update_status W py_repr room_id is_live (JObj fs) s =
    (inr tt,
     set_trace (trace s ++ [Logged INFO (LogState (shown_room room_id fs) room_id is_live)]) s).
Proof.
  intros H. unfold update_status, py_get_default, bind, gets, ret. cbn -[py].
  rewrite H. destruct is_live; reflexivity.
Qed.

Lemma update_status_newly_live (room_id : pystr) (fs : list (pystr * json))
    (s : state) :
  room_status s !! room_id = Some false →
  ∃ evs, Forall minor evs ∧
    update_status W py_repr room_id true (JObj fs) s =
      (inr tt,
       set_new_live_rooms (new_live_rooms s ++ [(room_id, JObj fs)])
         (set_trace
            (trace s ++
             OsNotify (live_title py_repr (shown_owner room_id fs))
                      (body_text py_repr (shown_room room_id fs) (strftime_now W (trace s)))
             :: evs ++ [Logged INFO (LogWentLive (shown_owner room_id fs) room_id)])
            (set_room_status (<[room_id := true]> (room_status s)) s))).
Proof.
  intros H. unfold update_status, py_get_default, bind, gets, ret. cbn -[py].
  rewrite H. cbn -[py].
  match goal with |- context [notify W ?t ?m ?s1] =>
    destruct (notify_run W t m s1) as (evs & F & E); rewrite E
  end.
  exists evs. split; [exact F|]. unfold log, emit, call, modify. cbn -[py].
  rewrite <- ?app_assoc. reflexivity.
Qed.

Lemma update_status_newly_offline (room_id : pystr) (fs : list (pystr * json))
    (s : state) :
  room_status s !! room_id = Some true →
  ∃ evs, Forall minor evs ∧
    update_status W py_repr room_id false (JObj fs) s =
      (inr tt,
       set_trace
         (trace s ++
          OsNotify (offline_title py_repr (shown_owner room_id fs))
                   (body_text py_repr (shown_room room_id fs) (strftime_now W (trace s)))
          :: evs ++ [Logged INFO (LogWentOffline (shown_owner room_id fs) room_id)])
         (set_room_status (<[room_id := false]> (room_status s)) s)).
Proof.
  intros H. unfold update_status, py_get_default, bind, gets, ret. cbn -[py].
  rewrite H. cbn -[py].
  match goal with |- context [notify W ?t ?m ?s1] =>
    destruct (notify_run W t m s1) as (evs & F & E); rewrite E
  end.
  exists evs. split; [exact F|]. unfold log, emit, call, modify. cbn -[py].
  rewrite <- ?app_assoc. reflexivity.
Qed.

Lemma update_status_missing (room_id : pystr) (is_live : bool)
    (fs : list (pystr * json)) (s : state) :
  room_status s !! room_id = None →
  update_status W py_repr room_id is_live (JObj fs) s = (inl KeyError, s).
Proof.
  intros H. unfold update_status, py_get_default, bind, gets, ret, raise. cbn -[py].
  rewrite H. reflexivity.
Qed.

End Iteration.

(** ** Claims on the dispatcher and on one iteration *)

(** C1. With a relay key configured, a notification sink that raises makes
    [notify] stop after the OS notification: the exception is logged and
    [send_server_chan] is not called, so no push reaches the relay.  With
    the same key and a sink that works, the push is made. *)
Theorem notify_skips_relay_when_sink_raises :
  key_set (server_chan_key (start [room_a] ∅)) = true ∧
  notify broken_sink_world (py "🔴 主播甲 开播啦!") (py "房间: 英雄联盟")
    (start [room_a] ∅) =
    (inr tt,
     set_trace
       [ OsNotify (py "🔴 主播甲 开播啦!") (py "房间: 英雄联盟");
         Logged ERROR (LogNotifyFailed (OtherError (py "NotImplementedError"))) ]
       (start [room_a] ∅)) ∧
  existsb is_relay_push
    (trace (notify broken_sink_world (py "🔴 主播甲 开播啦!") (py "房间: 英雄联盟")
              (start [room_a] ∅)).2) = false ∧
  existsb is_relay_push
    (trace (notify servers_down_world (py "🔴 主播甲 开播啦!") (py "房间: 英雄联盟")
              (start [room_a] ∅)).2) = true.
Proof.
  split; [reflexivity|].
  assert (E : notify broken_sink_world (py "🔴 主播甲 开播啦!") (py "房间: 英雄联盟")
                (start [room_a] ∅) =
              (inr tt,
               set_trace
                 [ OsNotify (py "🔴 主播甲 开播啦!") (py "房间: 英雄联盟");
                   Logged ERROR
                     (LogNotifyFailed (OtherError (py "NotImplementedError"))) ]
                 (start [room_a] ∅))).
  { apply (notify_sink_raises broken_sink_world _ _ (start [room_a] ∅)).
    reflexivity. }
  split; [exact E|]. split; [rewrite E; reflexivity|].
  vm_compute. reflexivity.
Qed.

Section IterationClaims.

Variable W : world.
Variable py_repr : json → pystr.

(** One iteration of [run] once [check_room_status] has returned. *)
Lemma run_room_checked (room_id : pystr) (s s1 : state) (is_live : bool)
    (room_info : json) :
  check_room_status W room_id s = (inr (is_live, room_info), s1) →
  run_room W py_repr room_id s =
    try_except (update_status W py_repr room_id is_live room_info)
               (λ e, log ERROR (LogCheckFailed room_id e)) s1.
Proof.
  intros H. unfold run_room, try_except, bind. rewrite H. reflexivity.
Qed.

(** What a returned [check_room_status] tells: the room info is a dict, and
    the tracked status and the pending list are as before. *)
Lemma check_room_status_returned (room_id : pystr) (s s1 : state)
    (is_live : bool) (room_info : json) :
  check_room_status W room_id s = (inr (is_live, room_info), s1) →
  ∃ fs, room_info = JObj fs ∧ is_live = live_flag room_info ∧
        room_status s1 = room_status s ∧
        new_live_rooms s1 = new_live_rooms s ∧
        room_ids s1 = room_ids s.
Proof.
  intros H. destruct (check_room_status_frame W room_id s) as (v & evs & _ & E).
  rewrite E in H. destruct v as [| | | | |fs]; try discriminate.
  simpl in H. injection H as <- <- <-. exists fs. repeat split; reflexivity.
Qed.

(** C6. A room whose stored status is false and that resolves as live is
    classified as newly live: the iteration stores true, dispatches the
    started-streaming notification and appends the room to the pending
    list.  An iteration that follows and resolves the room as live again
    only logs its state: no notification, and the stored status stays
    true. *)
Theorem newly_live_then_unchanged (room_id : pystr) (s s1 : state)
    (room_info : json) :
  room_status s !! room_id = Some false →
  check_room_status W room_id s = (inr (true, room_info), s1) →
  ∃ s2 fs evs,
    room_info = JObj fs ∧
    run_room W py_repr room_id s = (inr tt, s2) ∧
    room_status s2 = <[room_id := true]> (room_status s) ∧
    new_live_rooms s2 = new_live_rooms s ++ [(room_id, room_info)] ∧
    trace s2 =
      trace s1 ++
      OsNotify (live_title py_repr (shown_owner room_id fs))
               (body_text py_repr (shown_room room_id fs) (strftime_now W (trace s1)))
      :: evs ++ [Logged INFO (LogWentLive (shown_owner room_id fs) room_id)] ∧
    ∀ (room_info' : json) (s3 : state),
      check_room_status W room_id s2 = (inr (true, room_info'), s3) →
      ∃ room_name,
        run_room W py_repr room_id s2 =
          (inr tt,
           set_trace (trace s3 ++ [Logged INFO (LogState room_name room_id true)]) s3) ∧
        room_status s3 = <[room_id := true]> (room_status s) ∧
        new_live_rooms s3 = new_live_rooms s2.
Proof.
  intros Hstored Hcheck.
  destruct (check_room_status_returned room_id s s1 true room_info Hcheck)
    as (fs & -> & _ & Hst & Hnl & _).
  rewrite (run_room_checked room_id s s1 true (JObj fs) Hcheck).
  unfold try_except.
  destruct (update_status_newly_live W py_repr room_id fs s1) as (evs & _ & E).
  { rewrite Hst. exact Hstored. }
  rewrite E. eexists _, fs, evs. split; [reflexivity|]. split; [reflexivity|].
  split; [cbn [room_status set_new_live_rooms set_trace set_room_status];
          rewrite Hst; reflexivity|].
  split; [cbn [new_live_rooms set_new_live_rooms]; rewrite Hnl; reflexivity|].
  split; [reflexivity|].
  intros room_info' s3 Hcheck'.
  destruct (check_room_status_returned room_id _ s3 true room_info' Hcheck')
    as (fs' & -> & _ & Hst' & Hnl' & _).
  rewrite (run_room_checked room_id _ s3 true (JObj fs') Hcheck').
  unfold try_except.
  cbn [room_status set_new_live_rooms set_trace set_room_status] in Hst'.
  rewrite Hst in Hst'.
  rewrite (update_status_unchanged W py_repr room_id true fs' s3).
  - exists (shown_room room_id fs'). split; [reflexivity|]. split; [exact Hst'|exact Hnl'].
  - rewrite Hst'. apply lookup_insert_eq.
Qed.

(** C10. When every source fails for a room whose stored status is true,
    the cache fallback reports [room_status] ['2'], [check_room_status]
    returns [False], and the iteration stores false and dispatches the
    stopped-streaming notification: an outage of the sources alone is
    reported as the room going offline. *)
Theorem outage_reported_as_offline (room_id : pystr) (s : state) :
  room_status s !! room_id = Some true →
  primary_down W room_id → mobile_down W room_id → pc_down W room_id →
  ∃ s1 s2 fs evs,
    cache_fallback room_id (room_names s) = JObj fs ∧
    lookup_field (py "room_status") fs = Some (JStr (py "2")) ∧
    check_room_status W room_id s = (inr (false, JObj fs), s1) ∧
    run_room W py_repr room_id s = (inr tt, s2) ∧
    room_status s2 = <[room_id := false]> (room_status s) ∧
    trace s2 =
      trace s1 ++
      OsNotify (offline_title py_repr (shown_owner room_id fs))
               (body_text py_repr (shown_room room_id fs) (strftime_now W (trace s1)))
      :: evs ++ [Logged INFO (LogWentOffline (shown_owner room_id fs) room_id)].
Proof.
  intros Hstored Hprim Hmob Hpc.
  destruct (get_room_info_rejected W room_id s (Hprim (trace s))) as (evs0 & _ & E0).
  destruct (get_room_info_backup_down W room_id
              (set_trace (trace s ++ HttpGet (primary_url room_id) None :: evs0) s)
              Hmob Hpc) as (evs1 & _ & E1).
  rewrite E1 in E0. cbn [room_names set_trace] in E0.
  destruct (check_room_status_after W room_id s _ _ E0) as (evs2 & _ & E2).
  unfold cache_fallback, room_dict in *. cbn [is_dict live_flag] in E2.
  match type of E2 with _ = (inr (?b, JObj ?fs), ?s1) =>
    assert (Hb : b = false) by reflexivity;
    rewrite Hb in E2; clear Hb;
    destruct (update_status_newly_offline W py_repr room_id fs s1) as (evs & _ & E);
      [exact Hstored|];
    exists s1; eexists; exists fs, evs
  end.
  split; [reflexivity|]. split; [reflexivity|]. split; [exact E2|].
  rewrite (run_room_checked room_id s _ false _ E2). unfold try_except.
  rewrite E. split; [reflexivity|]. split; reflexivity.
Qed.

End IterationClaims.

(** Room 63136, stored as offline, is resolved as live by the primary API. *)
Lemma newly_live_then_unchanged_witness :
  ∃ s2, run_room (primary_world live_doc) no_repr room_a (start [room_a] ∅) = (inr tt, s2) ∧
        room_status s2 = <[room_a := true]> (room_status (start [room_a] ∅)) ∧
        new_live_rooms s2 = [(room_a, live_payload)].
Proof.
  destruct (newly_live_then_unchanged (primary_world live_doc) no_repr room_a
              (start [room_a] ∅)
              (check_room_status (primary_world live_doc) room_a (start [room_a] ∅)).2
              live_payload)
    as (s2 & fs & evs & _ & Hrun & Hst & Hnl & _).
  - reflexivity.
  - vm_compute. reflexivity.
  - exists s2. split; [exact Hrun|]. split; [exact Hst|exact Hnl].
Defined.

(** Room 63136 is stored as live and every request raises. *)
Lemma outage_reported_as_offline_witness :
  ∃ s2, run_room offline_world no_repr room_a
          (set_room_status {[ room_a := true ]} (start [room_a] ∅)) = (inr tt, s2) ∧
        room_status s2 = <[room_a := false]> {[ room_a := true ]}.
Proof.
  destruct (outage_reported_as_offline offline_world no_repr room_a
              (set_room_status {[ room_a := true ]} (start [room_a] ∅)))
    as (s1 & s2 & fs & evs & _ & _ & _ & Hrun & Hst & _).
  - reflexivity.
  - intros h. exact I.
  - intros h. exact I.
  - intros h. exact I.
  - exists s2. split; [exact Hrun|exact Hst].
Defined.

(** ** The polling loop *)

Lemma polled_rooms_app (a b : list event) :
  polled_rooms (a ++ b) = polled_rooms a ++ polled_rooms b.
Proof. apply omap_app. Qed.

Lemma went_live_app (a b : list event) :
  went_live (a ++ b) = went_live a ++ went_live b.
Proof. apply omap_app. Qed.

Lemma polled_rooms_single (e : event) :
  polled_rooms [e] = match polled_room e with
                     | Some room_id => [room_id]
                     | None => []
                     end.
Proof. unfold polled_rooms. simpl. destruct (polled_room e); reflexivity. Qed.

Lemma iteration_events_intro (room_id : pystr) (evs1 mid : list event)
    (added : list (pystr * json)) :
  Forall minor evs1 →
  polled_rooms mid = [] →
  went_live mid = added.*1 →
  Forall (λ entry, is_dict entry.2 = true) added →
  iteration_events room_id (HttpGet (primary_url room_id) None :: evs1 ++ mid) added.
Proof.
  intros F Hp Hw Hd. split; [|split; [|exact Hd]].
  - change (polled_rooms ([HttpGet (primary_url room_id) None] ++ evs1 ++ mid) = [room_id]).
    rewrite !polled_rooms_app, (polled_rooms_minor _ F), Hp.
    rewrite polled_rooms_single, polled_room_primary. reflexivity.
  - change (went_live ([HttpGet (primary_url room_id) None] ++ evs1 ++ mid) = added.*1).
    rewrite !went_live_app, (went_live_minor _ F), Hw. reflexivity.
Qed.

Lemma notified_events (title message : pystr) (evs : list event) (r : log_record) :
  Forall minor evs →
  polled_rooms (OsNotify title message :: evs ++ [Logged INFO r]) = [] ∧
  went_live (OsNotify title message :: evs ++ [Logged INFO r]) =
    went_live [Logged INFO r].
Proof.
  intros F. split.
  - change (polled_rooms ([OsNotify title message] ++ evs ++ [Logged INFO r]) = []).
    rewrite !polled_rooms_app, (polled_rooms_minor _ F). reflexivity.
  - change (went_live ([OsNotify title message] ++ evs ++ [Logged INFO r]) =
            went_live [Logged INFO r]).
    rewrite !went_live_app, (went_live_minor _ F). reflexivity.
Qed.

Section Loop.

Variable W : world.
Variable py_repr : json → pystr.

(** An exception of the body of an iteration is caught and logged there. *)
Lemma run_room_catches (room_id : pystr) (s s1 : state) (e : exn) :
  (checked <- check_room_status W room_id ;;
   update_status W py_repr room_id checked.1 checked.2) s = (inl e, s1) →
  run_room W py_repr room_id s =
    (inr tt, set_trace (trace s1 ++ [Logged ERROR (LogCheckFailed room_id e)]) s1).
Proof. intros H. unfold run_room, try_except. rewrite H. reflexivity. Qed.

(** Closes a case of [run_room_step]: the events after the resolution are
    [mid], the entries appended to the pending list are [added]. *)
Ltac close_step rid evs1 mid added F1 :=
  eexists _, (HttpGet (primary_url rid) None :: evs1 ++ mid), added;
  split; [reflexivity|];
  split; [reflexivity|];
  split; [reflexivity|];
  split; [cbn [trace set_trace set_room_names set_room_status set_new_live_rooms];
          rewrite <- ?app_assoc; reflexivity|];
  split; [cbn [new_live_rooms set_trace set_room_names set_room_status
               set_new_live_rooms];
          rewrite ?app_nil_r; reflexivity|];
  apply iteration_events_intro; [exact F1| | |].

Lemma run_room_step (room_id : pystr) (s : state) :
  ∃ s' evs added,
    run_room W py_repr room_id s = (inr tt, s') ∧
    room_ids s' = room_ids s ∧
    check_interval s' = check_interval s ∧
    trace s' = trace s ++ evs ∧
    new_live_rooms s' = new_live_rooms s ++ added ∧
    iteration_events room_id evs added.
Proof.
  destruct (check_room_status_frame W room_id s) as (v & evs1 & F1 & E).
  assert (Hraise : is_dict v = false →
            ∃ s' evs added,
              run_room W py_repr room_id s = (inr tt, s') ∧
              room_ids s' = room_ids s ∧
              check_interval s' = check_interval s ∧
              trace s' = trace s ++ evs ∧
              new_live_rooms s' = new_live_rooms s ++ added ∧
              iteration_events room_id evs added).
  { intros Hv. rewrite Hv in E.
    rewrite (run_room_catches room_id s _ AttributeError)
      by (unfold bind; rewrite E; reflexivity).
    close_step room_id evs1 [Logged ERROR (LogCheckFailed room_id AttributeError)]
               (@nil (pystr * json)) F1; [reflexivity|reflexivity|constructor]. }
  destruct v as [| | | | |fs]; try (apply Hraise; reflexivity). clear Hraise.
  cbn [is_dict] in E.
  rewrite (run_room_checked W py_repr room_id s _ _ _ E). unfold try_except.
  match type of E with _ = (_, ?st) => set (s1 := st) in * end.
  destruct (room_status s1 !! room_id) as [stored|] eqn:Hstored.
  - destruct (live_flag (JObj fs)) eqn:Hlive, stored.
    + rewrite (update_status_unchanged W py_repr room_id true fs s1 Hstored).
      subst s1.
      close_step room_id evs1 [Logged INFO (LogState (shown_room room_id fs) room_id true)]
                 (@nil (pystr * json)) F1; [reflexivity|reflexivity|constructor].
    + destruct (update_status_newly_live W py_repr room_id fs s1 Hstored)
        as (evs2 & F2 & E2).
      rewrite E2. subst s1.
      destruct (notified_events
                  (live_title py_repr (shown_owner room_id fs))
                  (body_text py_repr (shown_room room_id fs)
                     (strftime_now W (trace s ++ HttpGet (primary_url room_id) None :: evs1)))
                  evs2 (LogWentLive (shown_owner room_id fs) room_id) F2)
        as [Hp Hw].
      close_step room_id evs1
        (OsNotify (live_title py_repr (shown_owner room_id fs))
           (body_text py_repr (shown_room room_id fs)
              (strftime_now W (trace s ++ HttpGet (primary_url room_id) None :: evs1)))
         :: evs2 ++ [Logged INFO (LogWentLive (shown_owner room_id fs) room_id)])
        [(room_id, JObj fs)] F1;
        [exact Hp|rewrite Hw; reflexivity|repeat constructor].
    + destruct (update_status_newly_offline W py_repr room_id fs s1 Hstored)
        as (evs2 & F2 & E2).
      rewrite E2. subst s1.
      destruct (notified_events
                  (offline_title py_repr (shown_owner room_id fs))
                  (body_text py_repr (shown_room room_id fs)
                     (strftime_now W (trace s ++ HttpGet (primary_url room_id) None :: evs1)))
                  evs2 (LogWentOffline (shown_owner room_id fs) room_id) F2)
        as [Hp Hw].
      close_step room_id evs1
        (OsNotify (offline_title py_repr (shown_owner room_id fs))
           (body_text py_repr (shown_room room_id fs)
              (strftime_now W (trace s ++ HttpGet (primary_url room_id) None :: evs1)))
         :: evs2 ++ [Logged INFO (LogWentOffline (shown_owner room_id fs) room_id)])
        (@nil (pystr * json)) F1;
        [exact Hp|rewrite Hw; reflexivity|constructor].
    + rewrite (update_status_unchanged W py_repr room_id false fs s1 Hstored).
      subst s1.
      close_step room_id evs1 [Logged INFO (LogState (shown_room room_id fs) room_id false)]
                 (@nil (pystr * json)) F1; [reflexivity|reflexivity|constructor].
  - rewrite (update_status_missing W py_repr room_id _ fs s1 Hstored).
    subst s1.
    close_step room_id evs1 [Logged ERROR (LogCheckFailed room_id KeyError)]
               (@nil (pystr * json)) F1; [reflexivity|reflexivity|constructor].
Qed.

End Loop.

Section Cycle.

Variable W : world.
Variable py_repr : json → pystr.

(** The [for] loop of a turn: every room of the list is polled, in order,
    and the rooms logged as newly live are the ones appended to the
    pending list. *)
Lemma for_each_rooms (ids : list pystr) (s : state) :
  ∃ s' added,
    for_each ids (run_room W py_repr) s = (inr tt, s') ∧
    room_ids s' = room_ids s ∧
    check_interval s' = check_interval s ∧
    polled_rooms (trace s') = polled_rooms (trace s) ++ ids ∧
    went_live (trace s') = went_live (trace s) ++ added.*1 ∧
    new_live_rooms s' = new_live_rooms s ++ added ∧
    Forall (λ entry, is_dict entry.2 = true) added.
Proof.
  revert s. induction ids as [|room_id ids IH]; intros s.
  - exists s, []. simpl. rewrite !app_nil_r. repeat split; constructor.
  - destruct (run_room_step W py_repr room_id s)
      as (s1 & evs & added1 & E1 & Hids1 & Hint1 & Htr1 & Hnl1 & Hp1 & Hw1 & Hd1).
    destruct (IH s1) as (s2 & added2 & E2 & Hids2 & Hint2 & Hp2 & Hw2 & Hnl2 & Hd2).
    exists s2, (added1 ++ added2).
    split; [simpl; unfold bind; rewrite E1; exact E2|].
    split; [congruence|]. split; [congruence|].
    split; [rewrite Hp2, Htr1, polled_rooms_app, Hp1, <- app_assoc; reflexivity|].
    split; [rewrite Hw2, Htr1, went_live_app, Hw1, fmap_app, <- !app_assoc; reflexivity|].
    split; [rewrite Hnl2, Hnl1, <- app_assoc; reflexivity|].
    apply Forall_app; auto.
Qed.

Lemma run_cycle_step (s : state) :
  ∃ s' added,
    run_cycle W py_repr s = (inr tt, s') ∧
    room_ids s' = room_ids s ∧
    check_interval s' = check_interval s ∧
    polled_rooms (trace s') = polled_rooms (trace s) ++ room_ids s ∧
    went_live (trace s') = went_live (trace s) ++ added.*1 ∧
    new_live_rooms s' = new_live_rooms s ++ added ∧
    Forall (λ entry, is_dict entry.2 = true) added.
Proof.
  destruct (for_each_rooms (room_ids s) s)
    as (s1 & added & E & Hids & Hint & Hp & Hw & Hnl & Hd).
  unfold run_cycle, bind, gets. rewrite E.
  destruct (new_live_rooms s1) as [|entry pending] eqn:Hpending.
  - eexists _, added. split; [reflexivity|].
    cbn [room_ids check_interval trace new_live_rooms set_trace].
    rewrite polled_rooms_app, went_live_app, !app_nil_r, Hpending.
    repeat split; assumption.
  - eexists _, added. split; [reflexivity|].
    cbn [room_ids check_interval trace new_live_rooms set_trace].
    rewrite !polled_rooms_app, !went_live_app, !app_nil_r, Hpending.
    repeat split; assumption.
Qed.

Lemma run_loop_turns (turns : nat) (s : state) :
  ∃ s',
    run_loop W py_repr turns s = (inr tt, s') ∧
    room_ids s' = room_ids s ∧
    polled_rooms (trace s') =
      polled_rooms (trace s) ++ concat (replicate turns (room_ids s)).
Proof.
  revert s. induction turns as [|turns IH]; intros s.
  - exists s. simpl. rewrite app_nil_r. repeat split.
  - destruct (run_cycle_step s) as (s1 & added & E1 & Hids1 & _ & Hp1 & _).
    destruct (IH s1) as (s2 & E2 & Hids2 & Hp2).
    exists s2. split; [simpl; unfold bind; rewrite E1; exact E2|].
    split; [congruence|].
    rewrite Hp2, Hp1, Hids1. simpl. rewrite <- app_assoc. reflexivity.
Qed.

End Cycle.

(** ** The selection handler *)

Lemma ends_cleared_bind {A} (m : M A) (k : A → M unit) :
  safe m → (∀ a, ends_cleared (k a)) → ends_cleared (bind m k).
Proof.
  intros Hm Hk s. unfold bind. destruct (Hm s) as [a Ha].
  destruct (m s) as [[e|a'] s1]; [discriminate|]. apply Hk.
Qed.

Lemma ends_cleared_modify : ends_cleared (modify (set_new_live_rooms [])).
Proof. intros s. eexists. split; reflexivity. Qed.

Section Handler.

Variable W : world.
Variable py_repr : json → pystr.
Variable py_int : pystr → option Z.

Lemma menu_line_safe (i : nat) (entry : pystr * json) :
  is_dict entry.2 = true → safe (menu_line py_repr i entry).
Proof.
  destruct entry as [room_id [| | | | |fs]]; try discriminate. intros _.
  unfold menu_line, py_get_default. walk.
Qed.

Lemma for_enumerate_safe (i : nat) (pending : list (pystr * json)) :
  Forall (λ entry, is_dict entry.2 = true) pending →
  safe (for_enumerate i pending (menu_line py_repr)).
Proof.
  intros H. revert i. induction H as [|entry pending Hd _ IH]; intros i.
  - apply safe_ret.
  - simpl. apply safe_bind; [apply menu_line_safe; exact Hd|]. intros _. apply IH.
Qed.

(** Whatever the console answers and whatever [int] makes of it, the
    handler returns with the pending list empty. *)
Lemma handle_new_live_rooms_clears (s : state) :
  Forall (λ entry, is_dict entry.2 = true) (new_live_rooms s) →
  ∃ s', handle_new_live_rooms W py_repr py_int s = (inr tt, s') ∧
        new_live_rooms s' = [].
Proof.
  intros Hd. unfold handle_new_live_rooms, bind at 1, gets at 1.
  destruct (new_live_rooms s) as [|[room_id room_info] [|entry pending]] eqn:E.
  - exists s. split; [reflexivity|exact E].
  - apply ends_cleared_bind; [apply safe_gets|]. intros auto.
    apply ends_cleared_bind; [|intros; apply ends_cleared_modify].
    destruct auto; [apply open_live_room_safe|apply safe_ret].
  - apply ends_cleared_bind; [apply safe_print|]. intros _.
    apply ends_cleared_bind; [apply for_enumerate_safe; exact Hd|]. intros _.
    apply ends_cleared_bind; [apply safe_print|]. intros _.
    apply ends_cleared_bind; [|intros; apply ends_cleared_modify].
    apply safe_try. intros e. destruct e; first [apply safe_print | apply safe_log].
Qed.

End Handler.

(** ** Claims on the loop *)

(** C8. An exception raised in the body of one room's iteration (its
    resolution, its cache update, its dispatch) is caught and logged in
    that iteration; the [for] loop of a turn polls every room of the list,
    in order, whatever happened with the rooms before; and [run] goes
    through every turn: observed for any number of turns, it has polled
    every room in each of them. *)
Theorem run_isolates_room_failures (W : world) (py_repr : json → pystr)
    (turns : nat) (s : state) :
  (∀ (room_id : pystr) (s0 s1 : state) (e : exn),
     (checked <- check_room_status W room_id ;;
      update_status W py_repr room_id checked.1 checked.2) s0 = (inl e, s1) →
     run_room W py_repr room_id s0 =
       (inr tt, set_trace (trace s1 ++ [Logged ERROR (LogCheckFailed room_id e)]) s1)) ∧
  (∃ s', for_each (room_ids s) (run_room W py_repr) s = (inr tt, s') ∧
         polled_rooms (trace s') = polled_rooms (trace s) ++ room_ids s) ∧
  (∃ s', run W py_repr turns s = (inr tt, s') ∧
         polled_rooms (trace s') =
           polled_rooms (trace s) ++ concat (replicate turns (room_ids s))).
Proof.
  split; [intros room_id s0 s1 e; apply run_room_catches|]. split.
  - destruct (for_each_rooms W py_repr (room_ids s) s)
      as (s' & added & E & _ & _ & Hp & _).
    exists s'. split; assumption.
  - unfold run, bind, gets, log, emit, call, try_except.
    destruct (run_loop_turns W py_repr turns
                (set_trace (trace s ++ [Logged INFO (LogStart (room_ids s))]) s))
      as (s' & E & _ & Hp).
    rewrite E. exists s'. split; [reflexivity|].
    rewrite Hp. cbn [trace set_trace room_ids].
    rewrite polled_rooms_app. cbn. rewrite app_nil_r. reflexivity.
Qed.

(** The primary API answers every room with a [null] payload, on which
    [check_room_status] raises: both rooms are polled in both turns. *)
Lemma run_isolates_room_failures_witness :
  run_room (primary_world null_doc) no_repr room_a (start [room_a; room_b] ∅) =
    (inr tt,
     set_trace
       [ HttpGet (primary_url room_a) None;
         Logged ERROR (LogCheckFailed room_a AttributeError) ]
       (start [room_a; room_b] ∅)) ∧
  (run (primary_world null_doc) no_repr 2 (start [room_a; room_b] ∅)).1 = inr tt ∧
  polled_rooms (trace (run (primary_world null_doc) no_repr 2
                         (start [room_a; room_b] ∅)).2) =
    [room_a; room_b; room_a; room_b].
Proof.
  destruct (run_isolates_room_failures (primary_world null_doc) no_repr 2
              (start [room_a; room_b] ∅)) as (Hcatch & _ & s' & E & Hp).
  split.
  - apply (Hcatch room_a (start [room_a; room_b] ∅)
             (set_trace [HttpGet (primary_url room_a) None] (start [room_a; room_b] ∅))
             AttributeError).
    vm_compute. reflexivity.
  - rewrite E. split; [reflexivity|exact Hp].
Defined.




(** The same in the second turn of [run], in which two entries of the
    first turn are still pending: the list holds these and the two new
    ones, and the handler empties it. *)
Example second_turn_appends_to_pending :
  let r := run_cycle staggered_world no_repr after_first_turn in
  r.1 = inr tt ∧
  new_live_rooms after_first_turn = [(room_a, live_payload); (room_b, live_payload)] ∧
  new_live_rooms r.2 =
    new_live_rooms after_first_turn ++ [(room_c, live_payload); (room_d, live_payload)] ∧
  new_live_rooms
    (handle_new_live_rooms (console_world (inr (py "1"))) no_repr digit_int r.2).2 = [].
Proof. vm_compute. repeat split. Qed.

(** The four outcomes of the selection, run on a state with two pending
    rooms: a valid pick opens the room, the others open nothing, and the
    list is empty after each. *)
Example selection_valid_pick :
  let r := handle_new_live_rooms (console_world (inr (py "1"))) no_repr digit_int
             two_pending in
  r.1 = inr tt ∧ new_live_rooms r.2 = [] ∧
  opened (trace r.2) = [py "https://www.douyu.com/63136"].
Proof. vm_compute. repeat split. Qed.

Example selection_zero :
  let r := handle_new_live_rooms (console_world (inr (py "0"))) no_repr digit_int
             two_pending in
  r.1 = inr tt ∧ new_live_rooms r.2 = [] ∧ opened (trace r.2) = [].
Proof. vm_compute. repeat split. Qed.

Example selection_out_of_range :
  let r := handle_new_live_rooms (console_world (inr (py "7"))) no_repr digit_int
             two_pending in
  r.1 = inr tt ∧ new_live_rooms r.2 = [] ∧ opened (trace r.2) = [] ∧
  last (trace r.2) = Some (ConsolePrint (py "无效的选择")).
Proof. vm_compute. repeat split. Qed.

Example selection_not_a_number :
  let r := handle_new_live_rooms (console_world (inr (py "abc"))) no_repr digit_int
             two_pending in
  r.1 = inr tt ∧ new_live_rooms r.2 = [] ∧ opened (trace r.2) = [] ∧
  last (trace r.2) = Some (ConsolePrint (py "请输入有效的数字")).
Proof. vm_compute. repeat split. Qed.

(** ** More on the resolver *)

(** The mobile page, served with status 200 and not redirected to a topic
    page, is scanned: the result is built from the page alone, the only
    request is the one for the page, and the PC API is not called. *)
Lemma get_room_info_backup_scanned (W : world) (room_id : pystr) (s : state)
    (r : response) :
  http_get W (trace s) (mobile_url room_id) (Some 10%Z) = inr r →
  status_code r = 200%Z →
  resp_url r = mobile_url room_id ∨ py_in (py "topic") (resp_url r) = false →
  ∃ evs, Forall is_log evs ∧
    get_room_info_backup W room_id s =
      (inr (room_dict room_id (JStr (scrape_names (text r)).1)
              (if scraped_live (text r) then py "1" else py "2")
              (JStr (scrape_names (text r)).2)),
       set_trace (trace s ++ HttpGet (mobile_url room_id) (Some 10%Z) :: evs) s).
Proof.
  intros Hget Hcode Hurl.
  unfold get_room_info_backup, try_except, bind, requests_get, call, scraped_live.
  rewrite Hget.
  assert (Htopic : pystr_eqb (resp_url r) (mobile_url room_id) = false →
                   py_in (py "topic") (resp_url r) = false).
  { intros Hne. destruct Hurl as [Hurl|Hurl]; [|exact Hurl].
    apply pystr_eqb_eq in Hurl. congruence. }
  destruct (scrape_names (text r)) as [room_name owner_name].
  destruct (pystr_eqb (resp_url r) (mobile_url room_id)) eqn:Eurl;
    cbn -[py scrape_is_live room_missing];
    rewrite ?(Htopic eq_refl); cbn -[py scrape_is_live room_missing];
    rewrite Hcode; cbn -[py scrape_is_live room_missing];
    destruct (room_missing (text r));
    unfold log, emit, call, ret; cbn -[py scrape_is_live];
    rewrite ?andb_false_r, ?andb_true_r;
    (eexists; split; [|rewrite <- ?app_assoc; cbn [app]; reflexivity]);
    repeat constructor.
Qed.

(** *** The regular expressions *)

Lemma or_else_some_r {A} (a b : option A) : is_Some b → is_Some (or_else a b).
Proof. destruct a; simpl; eauto. Qed.

Lemma or_else_some_l {A} (a b : option A) : is_Some a → is_Some (or_else a b).
Proof. destruct a; simpl; [eauto|intros [x H]; discriminate]. Qed.

Lemma or_else_inv {A} (a b : option A) (x : A) :
  or_else a b = Some x → a = Some x ∨ b = Some x.
Proof. destruct a; simpl; auto. Qed.

(** A literal matches itself, and nothing else. *)
Lemma match_here_lit_app (l : pystr) (ps : list piece) (start grp s : pystr) :
  match_here (lit l ++ ps) start grp (l ++ s) = match_here ps start grp s.
Proof.
  induction l as [|c l IH]; [reflexivity|].
  simpl. rewrite N.eqb_refl. exact IH.
Qed.

Lemma match_here_lit_inv (l : pystr) (ps : list piece) (start grp s g : pystr) :
  match_here (lit l ++ ps) start grp s = Some g →
  ∃ s', s = l ++ s' ∧ match_here ps start grp s' = Some g.
Proof.
  revert s. induction l as [|c l IH]; intros s H.
  - exists s. split; [reflexivity|exact H].
  - simpl in H. destruct s as [|c' s]; [discriminate|].
    destruct (c =? c') eqn:E; [|discriminate].
    apply N.eqb_eq in E. subst c'.
    destruct (IH s H) as (s' & -> & H'). exists s'. split; [reflexivity|exact H'].
Qed.

(** A greedy star gives back what the rest of the pattern needs. *)
Lemma match_here_star (p : N → bool) (ps : list piece) (start grp s : pystr) :
  is_Some (match_here ps start grp s) →
  is_Some (match_here (Star p :: ps) start grp s).
Proof.
  intros H. destruct s as [|c s]; simpl; [exact H|].
  destruct (p c); [apply or_else_some_r|]; exact H.
Qed.

Lemma match_here_star_app (p : N → bool) (ps : list piece) (start grp ws s : pystr) :
  Forall (λ c, p c = true) ws →
  is_Some (match_here ps start grp s) →
  is_Some (match_here (Star p :: ps) start grp (ws ++ s)).
Proof.
  intros Hws H. induction Hws as [|c ws Hc _ IH].
  - apply match_here_star. exact H.
  - simpl. rewrite Hc. apply or_else_some_l. exact IH.
Qed.

Lemma match_here_star_inv (p : N → bool) (ps : list piece) (start grp s g : pystr) :
  match_here (Star p :: ps) start grp s = Some g →
  ∃ pre s', s = pre ++ s' ∧ Forall (λ c, p c = true) pre ∧
            match_here ps start grp s' = Some g.
Proof.
  induction s as [|c s IH]; intros H.
  - exists [], []. split; [reflexivity|]. split; [constructor|exact H].
  - simpl in H. destruct (p c) eqn:Hc.
    + apply or_else_inv in H as [H|H].
      * destruct (IH H) as (pre & s' & -> & Hpre & H').
        exists (c :: pre), s'. split; [reflexivity|]. split; [constructor; assumption|exact H'].
      * exists [], (c :: s). split; [reflexivity|]. split; [constructor|exact H].
    + exists [], (c :: s). split; [reflexivity|]. split; [constructor|exact H].
Qed.

(** [re.search] finds a match wherever one starts, and what it returns is
    a match that starts somewhere. *)
Lemma re_search_app (ps : list piece) (pre s : pystr) :
  is_Some (match_here ps [] [] s) → is_Some (re_search ps (pre ++ s)).
Proof.
  intros H. induction pre as [|c pre IH].
  - destruct s; simpl; apply or_else_some_l; exact H.
  - simpl. apply or_else_some_r. exact IH.
Qed.

Lemma re_search_inv (ps : list piece) (s g : pystr) :
  re_search ps s = Some g →
  ∃ pre s', s = pre ++ s' ∧ match_here ps [] [] s' = Some g.
Proof.
  induction s as [|c s IH]; intros H.
  - simpl in H. apply or_else_inv in H as [H|H]; [|discriminate].
    exists [], []. split; [reflexivity|exact H].
  - simpl in H. apply or_else_inv in H as [H|H].
    + exists [], (c :: s). split; [reflexivity|exact H].
    + destruct (IH H) as (pre & s' & -> & H').
      exists (c :: pre), s'. split; [reflexivity|exact H'].
Qed.

Lemma match_here_one_inv (p : N → bool) (ps : list piece) (start grp s g : pystr) :
  match_here (One p :: ps) start grp s = Some g →
  ∃ c s', s = c :: s' ∧ p c = true ∧ match_here ps start grp s' = Some g.
Proof.
  destruct s as [|c s]; simpl; [discriminate|].
  destruct (p c) eqn:Hc; [|discriminate]. eauto.
Qed.

Lemma match_here_open (ps : list piece) (start grp s : pystr) :
  match_here (GroupOpen :: ps) start grp s = match_here ps s grp s.
Proof. reflexivity. Qed.

Lemma match_here_close (ps : list piece) (start grp s : pystr) :
  match_here (GroupClose :: ps) start grp s =
    match_here ps start (take (length start - length s) start) s.
Proof. reflexivity. Qed.

Lemma py_in_prefix (needle hay : pystr) :
  is_prefix needle hay = true → py_in needle hay = true.
Proof. intros H. destruct hay; simpl; rewrite H; reflexivity. Qed.

(** [needle in hay] holds when [hay] has [needle] somewhere. *)
Lemma py_in_app (needle before after : pystr) :
  py_in needle (before ++ needle ++ after) = true.
Proof.
  induction before as [|c before IH].
  - cbn [app]. apply py_in_prefix, is_prefix_app.
  - cbn [app py_in]. rewrite IH. apply orb_true_r.
Qed.

Lemma take_captured (a rest : pystr) :
  take (length (a ++ rest) - length rest) (a ++ rest) = a.
Proof.
  rewrite length_app, Nat.add_sub. apply take_app_length.
Qed.

Lemma is_status_dict_offline (room_id : pystr) (room_name owner_name : json) :
  is_status_dict room_id (room_dict room_id room_name (py "2") owner_name).
Proof. eexists _, _, _. split; [reflexivity|]. right. reflexivity. Qed.

Lemma is_status_dict_if (room_id : pystr) (room_name owner_name : json) (b : bool) :
  is_status_dict room_id
    (room_dict room_id room_name (if b then py "1" else py "2") owner_name).
Proof. eexists _, _, _. split; [reflexivity|]. destruct b; auto. Qed.

Lemma found_status_some (room_id : pystr) (info : json) :
  is_status_dict room_id info →
  ∀ v, Some info = Some v → is_status_dict room_id v.
Proof. intros H v [= <-]. exact H. Qed.

Lemma found_status_none (room_id : pystr) :
  ∀ v, @None json = Some v → is_status_dict room_id v.
Proof. discriminate. Qed.

Ltac swalk :=
  repeat first
    [ apply yields_raise
    | apply yields_ret;
      first [ apply is_status_dict_offline | apply is_status_dict_if
            | apply found_status_some;
              first [apply is_status_dict_offline | apply is_status_dict_if]
            | apply found_status_none ]
    | apply yields_try; [|intros]
    | apply yields_bind; intros
    | match goal with
      | |- yields _ (if ?b then _ else _) => destruct b
      | |- yields _ (match ?x with _ => _ end) => destruct x
      end ].

Lemma try_pc_api_status (W : world) (room_id : pystr) :
  yields (is_status_dict room_id) (_try_pc_api W room_id).
Proof.
  unfold _try_pc_api.
  apply yields_seq with (Q := λ o, ∀ v, o = Some v → is_status_dict room_id v).
  - swalk.
  - intros [info|] Hinfo; [apply yields_ret; auto|]. swalk.
Qed.

Lemma get_room_info_backup_status (W : world) (room_id : pystr) :
  yields (is_status_dict room_id) (get_room_info_backup W room_id).
Proof.
  unfold get_room_info_backup. apply yields_try.
  - apply yields_bind. intros response.
    apply yields_seq with (Q := λ o, ∀ v, o = Some v → is_status_dict room_id v).
    + swalk.
    + intros [info|] Hinfo; [apply yields_ret; auto|].
      destruct (status_code response =? 200)%Z.
      * destruct (scrape_names (text response)). swalk.
      * apply yields_bind. intros _. apply try_pc_api_status.
  - intros e. apply yields_bind. intros _. apply try_pc_api_status.
Qed.

(** As [get_room_info_rejected], with the events named as log records. *)
Lemma get_room_info_rejected_log (W : world) (room_id : pystr) (s : state) :
  primary_rejects (http_get W (trace s) (primary_url room_id) None) →
  ∃ evs, Forall is_log evs ∧
    get_room_info W room_id s =
      get_room_info_backup W room_id
        (set_trace (trace s ++ HttpGet (primary_url room_id) None :: evs) s).
Proof.
  intros Hrej.
  unfold get_room_info, try_except, bind, requests_get, call, response_json.
  unfold primary_rejects in Hrej.
  destruct (http_get W (trace s) (primary_url room_id) None) as [e|r]; simpl.
  - eexists [_]. split; [|unfold log, emit, call; simpl; rewrite <- app_assoc; reflexivity].
    repeat constructor.
  - destruct (body_json r) as [[| | | | |fs]|]; simpl;
      try (eexists [_]; split;
           [|unfold log, emit, call; simpl; rewrite <- app_assoc; reflexivity];
           repeat constructor).
    rewrite Hrej. exists []. split; [constructor|].
    match goal with |- context [get_room_info_backup W room_id ?s1] =>
      destruct (get_room_info_backup_safe W room_id s1) as [v Hv];
      destruct (get_room_info_backup W room_id s1) as [[e|v'] s2]
    end; [discriminate|reflexivity].
Qed.

(** The PC API, once it answers with a [room] object that has a truthy
    [room_id], decides: the room info is built from that object. *)
Lemma try_pc_api_answered (W : world) (room_id : pystr) (s : state)
    (r : response) (fs rfs : list (pystr * json)) :
  http_get W (trace s) (pc_url room_id) (Some 10%Z) = inr r →
  status_code r = 200%Z →
  body_json r = Some (JObj fs) →
  lookup_field (py "room") fs = Some (JObj rfs) →
  truthy (default JNull (lookup_field (py "room_id") rfs)) = true →
  _try_pc_api W room_id s =
    (inr (pc_room_info room_id rfs),
     set_trace (trace s ++ [HttpGet (pc_url room_id) (Some 10%Z)]) s).
Proof.
  intros Hget Hcode Hbody Hroom Hid.
  assert (Hne : truthy (JObj rfs) = true).
  { destruct rfs; [discriminate Hid|reflexivity]. }
  unfold _try_pc_api, pc_room_info, try_except, bind, requests_get, call,
    response_json, py_get, py_get_default, ret.
  rewrite Hget. cbn -[py truthy]. rewrite Hcode. cbn -[py truthy].
  rewrite Hbody. cbn -[py truthy]. rewrite Hroom. cbn -[py truthy].
  rewrite Hne, Hid. reflexivity.
Qed.

(** When the mobile page fails, the resolver goes on with [_try_pc_api],
    after one or two log records. *)
Lemma get_room_info_backup_missed (W : world) (room_id : pystr) (s : state) :
  mobile_unusable room_id (http_get W (trace s) (mobile_url room_id) (Some 10%Z)) →
  ∃ evs, Forall is_log evs ∧
    get_room_info_backup W room_id s =
      _try_pc_api W room_id
        (set_trace (trace s ++ HttpGet (mobile_url room_id) (Some 10%Z) :: evs) s).
Proof.
  intros Hmob.
  assert (Hsafe : ∀ s1, match _try_pc_api W room_id s1 with
                        | (inl e, s') =>
                            (let (s0, s'0) := log ERROR (LogRoomInfoFailed room_id e) s' in
                             match s0 with
                             | inl e0 => (inl e0, s'0)
                             | inr _ => _try_pc_api W room_id s'0
                             end)
                        | (inr a, s') => (inr a, s')
                        end = _try_pc_api W room_id s1).
  { intros s1. destruct (try_pc_api_safe W room_id s1) as [v Hv].
    destruct (_try_pc_api W room_id s1) as [[e|v'] s2]; [discriminate|reflexivity]. }
  unfold get_room_info_backup, try_except, bind, requests_get, call,
    mobile_unusable in *.
  destruct (http_get W (trace s) (mobile_url room_id) (Some 10%Z)) as [e|r].
  - eexists [_]. split.
    2:{ unfold log, emit, call. cbn -[py]. rewrite <- app_assoc. reflexivity. }
    repeat constructor.
  - destruct Hmob as [Hcode Hurl]. apply Z.eqb_neq in Hcode.
    destruct (pystr_eqb (resp_url r) (mobile_url room_id)) eqn:Eurl.
    + cbn -[py]. rewrite Hcode. unfold log, emit, call. cbn -[py].
      rewrite Hsafe. eexists [_]. split.
      2:{ rewrite <- app_assoc. reflexivity. }
      repeat constructor.
    + destruct Hurl as [Hurl|Hurl]; [apply pystr_eqb_eq in Hurl; congruence|].
      cbn -[py]. rewrite Hurl. unfold log, emit, call. cbn -[py].
      rewrite Hcode. cbn -[py]. rewrite Hsafe. eexists [_; _]. split.
      2:{ rewrite <- !app_assoc. reflexivity. }
      repeat constructor.
Qed.

(** X1. A mobile page served with status 200 and not redirected to a topic
    page ends the resolution: the room info is built from the page alone
    (names from the scan, status ['1'] exactly when a live marker is found
    and no marker of a missing room), the PC API is not called, and the
    name cache is neither read nor changed. *)
Theorem mobile_page_answer_is_final (W : world) (room_id : pystr) (s : state)
    (r : response) :
  primary_rejects (http_get W (trace s) (primary_url room_id) None) →
  mobile_serves W room_id r →
  status_code r = 200%Z →
  resp_url r = mobile_url room_id ∨ py_in (py "topic") (resp_url r) = false →
  ∃ evs1 evs2,
    Forall is_log evs1 ∧ Forall is_log evs2 ∧
    get_room_info W room_id s =
      (inr (room_dict room_id (JStr (scrape_names (text r)).1)
              (if scraped_live (text r) then py "1" else py "2")
              (JStr (scrape_names (text r)).2)),
       set_trace
         (trace s ++ HttpGet (primary_url room_id) None :: evs1 ++
          HttpGet (mobile_url room_id) (Some 10%Z) :: evs2) s).
Proof.
  intros Hrej Hserve Hcode Hurl.
  destruct (get_room_info_rejected_log W room_id s Hrej) as (evs1 & F1 & E1).
  destruct (get_room_info_backup_scanned W room_id
              (set_trace (trace s ++ HttpGet (primary_url room_id) None :: evs1) s) r
              (Hserve _) Hcode Hurl) as (evs2 & F2 & E2).
  exists evs1, evs2. split; [exact F1|]. split; [exact F2|].
  rewrite E1, E2. cbn [trace set_trace]. rewrite <- app_assoc. reflexivity.
Qed.

(** The mobile page of room 63136 shows a nickname, a room name and a live
    marker. *)
Lemma mobile_page_answer_is_final_witness :
  (get_room_info (mobile_world live_page) room_a (start [room_a] ∅)).1 =
    inr (room_dict room_a (JStr (py "英雄联盟")) (py "1") (JStr (py "主播甲"))).
Proof.
  destruct (mobile_page_answer_is_final (mobile_world live_page) room_a
              (start [room_a] ∅) (live_page (mobile_url room_a)))
    as (evs1 & evs2 & _ & _ & E).
  - exact I.
  - intros h. reflexivity.
  - reflexivity.
  - left. reflexivity.
  - rewrite E. vm_compute. reflexivity.
Defined.

(** X2. When the mobile page is served with status 200 and was not
    redirected to a topic page, a text that holds one of the two markers
    of a missing room makes [get_room_info_backup] return the scraped
    names with [room_status] 2, whatever live markers the text holds
    besides.  A page with another status is not scanned at all: the PC
    API is asked instead. *)
Theorem not_found_page_reports_offline (W : world) (room_id : pystr) (s : state)
    (r : response) :
  http_get W (trace s) (mobile_url room_id) (Some 10%Z) = inr r →
  status_code r = 200%Z →
  resp_url r = mobile_url room_id ∨ py_in (py "topic") (resp_url r) = false →
  room_missing (text r) = true →
  (get_room_info_backup W room_id s).1 =
    inr (room_dict room_id (JStr (scrape_names (text r)).1) (py "2")
           (JStr (scrape_names (text r)).2)).
Proof.
  intros Hget Hcode Hurl Hmissing.
  destruct (get_room_info_backup_scanned W room_id s r Hget Hcode Hurl)
    as (evs & _ & E).
  rewrite E. unfold scraped_live. rewrite Hmissing, andb_false_r. reflexivity.
Qed.

(** The page of room 63136 holds a live marker and the marker of a missing
    room. *)
Lemma not_found_page_reports_offline_witness :
  scrape_is_live (text (gone_page (mobile_url room_a))) = true ∧
  (get_room_info_backup (mobile_world gone_page) room_a (start [room_a] ∅)).1 =
    inr (room_dict room_a (JStr (py "英雄联盟")) (py "2") (JStr (py "主播甲"))).
Proof.
  split; [vm_compute; reflexivity|].
  rewrite (not_found_page_reports_offline (mobile_world gone_page) room_a
             (start [room_a] ∅) (gone_page (mobile_url room_a)));
    [vm_compute; reflexivity|reflexivity|reflexivity|left; reflexivity
    |vm_compute; reflexivity].
Defined.

(** X3. A page that holds the key ["isLive"] followed by a colon, any
    white space and a digit from 1 to 9 is found live by the scan. *)
Theorem live_marker_is_detected (before spaces after : pystr) (digit : N) :
  Forall (λ c, isspace c = true) spaces →
  digit_1_9 digit = true →
  scrape_is_live
    (before ++ (quoted (py "isLive") ++ py ":") ++ spaces ++ digit :: after) = true.
Proof.
  intros Hspaces Hdigit. unfold scrape_is_live, is_live_patterns.
  cbn [existsb]. apply orb_true_iff. left. apply bool_decide_eq_true.
  apply re_search_app. unfold key_prefix. rewrite <- app_assoc.
  rewrite match_here_lit_app.
  change ([Star isspace] ++ ?x) with (Star isspace :: x).
  apply match_here_star_app; [exact Hspaces|].
  rewrite match_here_open. cbn [match_here]. rewrite Hdigit. eauto.
Qed.

Lemma live_marker_is_detected_witness :
  scrape_is_live
    (py "{" ++ (quoted (py "isLive") ++ py ":") ++ py "  " ++ 49 :: py ",}") = true.
Proof.
  apply (live_marker_is_detected (py "{") (py "  ") (py ",}") 49).
  - repeat constructor.
  - reflexivity.
Defined.

(** X4. A name taken from a string field of the page (nickname, roomName
    or room_name) is never empty, holds no double quote, and stands
    between double quotes in the page. *)
Theorem scraped_field_is_quoted_text (key : string) (html_content name : pystr) :
  re_search (string_field key) html_content = Some name →
  name ≠ [] ∧ Forall (λ c, c ≠ 34) name ∧
  py_in (dquote ++ name ++ dquote) html_content = true.
Proof.
  intros H. apply re_search_inv in H as (pre & s0 & -> & H).
  unfold string_field, key_prefix in H. rewrite <- !app_assoc in H.
  apply match_here_lit_inv in H as (s1 & -> & H).
  change ([Star isspace] ++ ?x) with (Star isspace :: x) in H.
  apply match_here_star_inv in H as (ws & s2 & -> & Hws & H).
  apply match_here_lit_inv in H as (s3 & -> & H).
  change ([GroupOpen; One not_dquote; Star not_dquote; GroupClose] ++ lit dquote)
    with (GroupOpen :: One not_dquote :: Star not_dquote :: GroupClose :: lit dquote ++ [])
    in H.
  rewrite match_here_open in H.
  apply match_here_one_inv in H as (c & s4 & -> & Hc & H).
  apply match_here_star_inv in H as (rest & s5 & -> & Hrest & H).
  rewrite match_here_close in H.
  apply match_here_lit_inv in H as (s6 & -> & H).
  cbn [match_here] in H.
  change (c :: rest ++ dquote ++ s6) with ((c :: rest) ++ dquote ++ s6) in H.
  rewrite take_captured in H. injection H as <-.
  split; [discriminate|]. split.
  - constructor.
    + intros ->. discriminate Hc.
    + eapply Forall_impl; [exact Hrest|]. intros x Hx ->. discriminate Hx.
  - match goal with |- py_in ?n ?h = true =>
      assert (E : h = (pre ++ (quoted (py key) ++ py ":") ++ ws) ++ n ++ s6)
        by (rewrite <- !app_assoc; reflexivity);
      rewrite E
    end.
    apply py_in_app.
Qed.

Lemma scraped_field_is_quoted_text_witness :
  re_search nickname_pattern live_text = Some (py "主播甲") ∧ py "主播甲" ≠ [].
Proof.
  assert (H : re_search (string_field "nickname") live_text = Some (py "主播甲"))
    by (vm_compute; reflexivity).
  split; [exact H|].
  apply (scraped_field_is_quoted_text "nickname" live_text (py "主播甲") H).
Defined.

(** X5. When the primary API and the mobile page fail and the PC API
    answers with status 200 and a [room] object whose [room_id] is truthy,
    the room info is built from that object: its [room_name] (the
    placeholder built from the room id when the key is absent), status
    ['1'] exactly when [show_status] equals 1, its [owner_name] (the plain
    unknown-owner string when absent).  The name cache is not consulted. *)
Theorem pc_api_answer_is_used (W : world) (room_id : pystr) (s : state)
    (r : response) (fs rfs : list (pystr * json)) :
  primary_rejects (http_get W (trace s) (primary_url room_id) None) →
  mobile_down W room_id →
  pc_serves W room_id r →
  status_code r = 200%Z →
  body_json r = Some (JObj fs) →
  lookup_field (py "room") fs = Some (JObj rfs) →
  truthy (default JNull (lookup_field (py "room_id") rfs)) = true →
  ∃ s', get_room_info W room_id s = (inr (pc_room_info room_id rfs), s') ∧
        room_names s' = room_names s.
Proof.
  intros Hrej Hmob Hserve Hcode Hbody Hroom Hid.
  destruct (get_room_info_rejected_log W room_id s Hrej) as (evs1 & _ & E1).
  destruct (get_room_info_backup_missed W room_id
              (set_trace (trace s ++ HttpGet (primary_url room_id) None :: evs1) s)
              (Hmob _)) as (evs2 & _ & E2).
  rewrite E1, E2.
  rewrite (try_pc_api_answered W room_id _ r fs rfs (Hserve _) Hcode Hbody Hroom Hid).
  eexists. split; reflexivity.
Qed.

(** Only the PC API answers, for a live room without an owner name, while
    the cache holds another name. *)
Lemma pc_api_answer_is_used_witness :
  (get_room_info (pc_world pc_doc) room_a
     (start [room_a] {[ room_a := JStr (py "旧名") ]})).1 =
    inr (room_dict room_a (JStr (py "英雄联盟")) (py "1") (JStr unknown_owner)).
Proof.
  destruct (pc_api_answer_is_used (pc_world pc_doc) room_a
              (start [room_a] {[ room_a := JStr (py "旧名") ]})
              (ok_response (pc_url room_a) (Some pc_doc))
              [ (py "room",
                 JObj [ (py "room_id", JNum 63136);
                        (py "room_name", JStr (py "英雄联盟"));
                        (py "show_status", JNum 1) ]) ]
              [ (py "room_id", JNum 63136);
                (py "room_name", JStr (py "英雄联盟"));
                (py "show_status", JNum 1) ])
    as (s' & E & _).
  - exact I.
  - intros h. exact I.
  - intros h. reflexivity.
  - reflexivity.
  - reflexivity.
  - reflexivity.
  - reflexivity.
  - rewrite E. reflexivity.
Defined.

(** X6. Whatever the sources do, [get_room_info_backup] returns, and what
    it returns is a room info with the four keys whose [room_status] is
    ['1'] or ['2']. *)
Theorem fallback_status_is_1_or_2 (W : world) (room_id : pystr) (s : state) :
  ∃ v s', get_room_info_backup W room_id s = (inr v, s') ∧
          is_status_dict room_id v.
Proof.
  destruct (get_room_info_backup_safe W room_id s) as [v Hv].
  pose proof (get_room_info_backup_status W room_id s) as Hs.
  destruct (get_room_info_backup W room_id s) as [[e|v'] s'] eqn:E; [discriminate|].
  simpl in Hv, Hs. injection Hv as ->. exists v, s'. split; [reflexivity|exact Hs].
Qed.

(** ** More on the dispatcher *)

Lemma str_replace_newline (message : pystr) :
  str_replace newline (newline ++ newline) message = double_newlines message.
Proof.
  unfold str_replace, double_newlines, newline. cbn [app].
  induction message as [|c message IH]; [reflexivity|].
  cbn [replace_go flat_map is_prefix length Nat.sub].
  destruct (10 =? c) eqn:E.
  - apply N.eqb_eq in E. subst c. cbn [andb N.eqb Pos.eqb app]. rewrite IH. reflexivity.
  - rewrite N.eqb_sym, E. cbn [andb app]. rewrite IH. reflexivity.
Qed.

(** [send_server_chan], step by step. *)
Lemma send_server_chan_run (W : world) (title message : pystr) (s : state) :
  ∃ lvl record,
    send_server_chan W title message s =
      (inr tt,
       set_trace
         (trace s ++
          [ HttpPost (relay_url (server_chan_key s)) title
              (str_replace newline (newline ++ newline) message) (Some 10%Z);
            Logged lvl record ]) s).
Proof.
  unfold send_server_chan, try_except, bind, gets, requests_post, call,
    response_json, py_get, log, emit, call, ret, raise, relay_url.
  cbn -[py str_replace].
  match goal with |- context [http_post W ?h ?u ?t ?d ?o] =>
    destruct (http_post W h u t d o) as [e|r]
  end; cbn -[py str_replace].
  - eexists _, _. rewrite <- app_assoc. reflexivity.
  - destruct (status_code r =? 200)%Z; cbn -[py str_replace];
      [|eexists _, _; rewrite <- app_assoc; reflexivity].
    destruct (body_json r) as [[| | | | |fs]|];
      cbn -[py str_replace];
      try (eexists _, _; rewrite <- app_assoc; reflexivity).
    destruct (py_eq_int (default JNull (lookup_field (py "code") fs)) 0);
      cbn -[py str_replace];
      eexists _, _; rewrite <- app_assoc; reflexivity.
Qed.

(** X7. [send_server_chan] never raises and makes exactly one request: a
    POST to the address of the relay for the configured key, with the
    title, the message with every line feed doubled, and a timeout of 10
    seconds; it then logs one record (success, rejection, status or error)
    and changes nothing else. *)
Theorem send_server_chan_pushes_once (W : world) (title message : pystr)
    (s : state) :
  ∃ lvl record,
    send_server_chan W title message s =
      (inr tt,
       set_trace
         (trace s ++
          [ HttpPost (relay_url (server_chan_key s)) title
              (double_newlines message) (Some 10%Z);
            Logged lvl record ]) s).
Proof.
  destruct (send_server_chan_run W title message s) as (lvl & record & E).
  exists lvl, record. rewrite E, str_replace_newline. reflexivity.
Qed.

(** X8. When the notification sink works, [notify] logs the notification
    and then pushes to the relay exactly when a non-empty key is
    configured: one POST with the same title, and nothing at all
    without a key. *)
Theorem notify_pushes_when_key_is_set (W : world) (title message : pystr)
    (s : state) :
  os_notify W (trace s) title message = inr tt →
  ∃ evs,
    notify W title message s =
      (inr tt,
       set_trace
         (trace s ++
          OsNotify title message ::
          Logged INFO (LogNotifySent (log_title title) message) :: evs) s) ∧
    (key_set (server_chan_key s) = false → evs = []) ∧
    (key_set (server_chan_key s) = true →
     ∃ lvl record,
       evs = [ HttpPost (relay_url (server_chan_key s)) title
                 (double_newlines message) (Some 10%Z);
               Logged lvl record ]).
Proof.
  intros Hsink.
  unfold notify, try_except, bind at 1, call at 1. rewrite Hsink.
  fold (log_title title).
  unfold bind, log, emit, call, gets, ret.
  cbn -[py log_title send_server_chan].
  destruct (key_set (server_chan_key s)) eqn:Hkey.
  - match goal with |- context [send_server_chan W title message ?s1] =>
      destruct (send_server_chan_run W title message s1) as (lvl & record & E)
    end.
    rewrite E, str_replace_newline. cbn -[py log_title relay_url double_newlines].
    eexists. split; [rewrite <- !app_assoc; reflexivity|].
    split; [discriminate|]. intros _. eauto.
  - exists []. split; [rewrite <- !app_assoc; reflexivity|].
    split; [reflexivity|discriminate].
Qed.

(** The sink works and the key [SCT123] is configured. *)
Lemma notify_pushes_when_key_is_set_witness :
  existsb is_relay_push
    (trace (notify servers_down_world (py "标题") (py "正文") (start [room_a] ∅)).2) = true.
Proof.
  destruct (notify_pushes_when_key_is_set servers_down_world (py "标题") (py "正文")
              (start [room_a] ∅)) as (evs & E & _ & Hkey); [reflexivity|].
  destruct (Hkey eq_refl) as (lvl & record & ->).
  rewrite E. reflexivity.
Defined.

(** ** More on the tracked status and on one iteration *)

Lemma foldl_insert_false (ids : list pystr) (m : gmap pystr bool) (room_id : pystr) :
  foldl (λ m room_id, <[room_id := false]> m) m ids !! room_id =
    if bool_decide (room_id ∈ ids) then Some false else m !! room_id.
Proof.
  revert m. induction ids as [|x ids IH]; intros m; [reflexivity|].
  cbn [foldl]. rewrite IH.
  destruct (decide (room_id ∈ ids)) as [Hin|Hnin].
  - rewrite (bool_decide_eq_true_2 _ Hin).
    rewrite bool_decide_eq_true_2 by (apply elem_of_cons; right; exact Hin).
    reflexivity.
  - rewrite (bool_decide_eq_false_2 _ Hnin).
    destruct (decide (x = room_id)) as [->|Hne].
    + rewrite lookup_insert_eq.
      rewrite bool_decide_eq_true_2 by (apply elem_of_cons; left; reflexivity).
      reflexivity.
    + rewrite lookup_insert_ne by exact Hne.
      rewrite bool_decide_eq_false_2; [reflexivity|].
      intros [Heq|Hin]%elem_of_cons; [congruence|contradiction].
Qed.

Lemma init_status (ids : list pystr) (interval : Z) (auto : bool)
    (key : option pystr) (names : gmap pystr json) (room_id : pystr) :
  room_status (init ids interval auto key names) !! room_id =
    if bool_decide (room_id ∈ ids) then Some false else None.
Proof. unfold init. cbn [room_status]. rewrite foldl_insert_false. reflexivity. Qed.

Lemma init_dom (ids : list pystr) (interval : Z) (auto : bool)
    (key : option pystr) (names : gmap pystr json) :
  dom (room_status (init ids interval auto key names)) = list_to_set ids.
Proof.
  apply set_eq. intros x. rewrite elem_of_dom, elem_of_list_to_set, init_status.
  destruct (decide (x ∈ ids)) as [Hin|Hnin].
  - rewrite (bool_decide_eq_true_2 _ Hin). split; eauto.
  - rewrite (bool_decide_eq_false_2 _ Hnin).
    split; [intros [? ?]; discriminate|contradiction].
Qed.

(** X9. A new monitor tracks exactly the configured rooms, each as not
    live, and has nothing pending and an empty history; a room id that
    occurs several times in the list is tracked once. *)
Theorem init_tracks_every_room_offline (ids : list pystr) (interval : Z)
    (auto : bool) (key : option pystr) (names : gmap pystr json)
    (room_id : pystr) :
  (room_id ∈ ids → room_status (init ids interval auto key names) !! room_id = Some false) ∧
  (room_id ∉ ids → room_status (init ids interval auto key names) !! room_id = None) ∧
  size (room_status (init ids interval auto key names)) =
    size (list_to_set ids : gset pystr) ∧
  new_live_rooms (init ids interval auto key names) = [] ∧
  trace (init ids interval auto key names) = [].
Proof.
  split; [|split; [|split; [|split; reflexivity]]].
  - intros Hin. rewrite init_status, (bool_decide_eq_true_2 _ Hin). reflexivity.
  - intros Hnin. rewrite init_status, (bool_decide_eq_false_2 _ Hnin). reflexivity.
  - rewrite <- (init_dom ids interval auto key names). symmetry. apply size_dom.
Qed.

Section Tracked.

Variable W : world.
Variable py_repr : json → pystr.

(** What one iteration does to the tracked status: nothing, or it turns
    the status of its own room over. *)
Lemma run_room_status (room_id : pystr) (s : state) :
  room_status (run_room W py_repr room_id s).2 = room_status s ∨
  ∃ b, room_status s !! room_id = Some (negb b) ∧
       room_status (run_room W py_repr room_id s).2 =
         <[room_id := b]> (room_status s).
Proof.
  destruct (check_room_status_frame W room_id s) as (v & evs1 & F1 & E).
  destruct v as [| | | | |fs];
    try (left; rewrite (run_room_catches W py_repr room_id s _ AttributeError)
           by (unfold bind; rewrite E; reflexivity); reflexivity).
  cbn [is_dict] in E.
  rewrite (run_room_checked W py_repr room_id s _ _ _ E). unfold try_except.
  match type of E with _ = (_, ?st) => set (s1 := st) in * end.
  destruct (room_status s1 !! room_id) as [stored|] eqn:Hstored.
  - destruct (live_flag (JObj fs)) eqn:Hlive, stored.
    + rewrite (update_status_unchanged W py_repr room_id true fs s1 Hstored).
      left. reflexivity.
    + destruct (update_status_newly_live W py_repr room_id fs s1 Hstored)
        as (evs2 & F2 & E2).
      rewrite E2. right. exists true. split; [exact Hstored|reflexivity].
    + destruct (update_status_newly_offline W py_repr room_id fs s1 Hstored)
        as (evs2 & F2 & E2).
      rewrite E2. right. exists false. split; [exact Hstored|reflexivity].
    + rewrite (update_status_unchanged W py_repr room_id false fs s1 Hstored).
      left. reflexivity.
  - rewrite (update_status_missing W py_repr room_id _ fs s1 Hstored).
    left. reflexivity.
Qed.

Lemma run_room_dom (room_id : pystr) (s : state) :
  dom (room_status (run_room W py_repr room_id s).2) = dom (room_status s).
Proof.
  destruct (run_room_status room_id s) as [->|(b & Hb & ->)]; [reflexivity|].
  rewrite dom_insert_L. apply elem_of_dom_2 in Hb.
  apply subseteq_union_1_L, singleton_subseteq_l. exact Hb.
Qed.

Lemma for_each_dom (ids : list pystr) (s : state) :
  dom (room_status (for_each ids (run_room W py_repr) s).2) = dom (room_status s).
Proof.
  revert s. induction ids as [|room_id ids IH]; intros s; [reflexivity|].
  cbn [for_each]. unfold bind.
  pose proof (run_room_dom room_id s) as Hd.
  destruct (run_room_step W py_repr room_id s) as (s1 & evs & added & E & _).
  rewrite E in *. cbn [snd] in Hd. rewrite IH. exact Hd.
Qed.

Lemma run_cycle_dom (s : state) :
  dom (room_status (run_cycle W py_repr s).2) = dom (room_status s).
Proof.
  pose proof (for_each_dom (room_ids s) s) as Hd.
  destruct (for_each_rooms W py_repr (room_ids s) s) as (s1 & added & E & _).
  unfold run_cycle, bind, gets. rewrite E in *. cbn [snd] in Hd.
  destruct (new_live_rooms s1); exact Hd.
Qed.

Lemma run_loop_dom (turns : nat) (s : state) :
  dom (room_status (run_loop W py_repr turns s).2) = dom (room_status s).
Proof.
  revert s. induction turns as [|turns IH]; intros s; [reflexivity|].
  cbn [run_loop]. unfold bind.
  pose proof (run_cycle_dom s) as Hd.
  destruct (run_cycle_step W py_repr s) as (s1 & added & E & _).
  rewrite E in *. cbn [snd] in Hd. rewrite IH. exact Hd.
Qed.

(** X10. The set of tracked rooms never changes while [run] polls: after
    any number of turns it is the set it was, and for a monitor built by
    [__init__] it is the set of the configured rooms. *)
Theorem run_keeps_tracked_rooms (turns : nat) (s : state) :
  dom (room_status (run W py_repr turns s).2) = dom (room_status s) ∧
  ∀ ids interval auto key names,
    dom (room_status (run W py_repr turns (init ids interval auto key names)).2) =
      list_to_set ids.
Proof.
  assert (H : ∀ s0, dom (room_status (run W py_repr turns s0).2) = dom (room_status s0)).
  { intros s0. unfold run, bind, gets, log, emit, call, try_except.
    pose proof (run_loop_dom turns
                  (set_trace (trace s0 ++ [Logged INFO (LogStart (room_ids s0))]) s0)) as Hd.
    destruct (run_loop_turns W py_repr turns
                (set_trace (trace s0 ++ [Logged INFO (LogStart (room_ids s0))]) s0))
      as (s' & E & _).
    rewrite E in *. exact Hd. }
  split; [apply H|]. intros ids interval auto key names. rewrite H.
  apply init_dom.
Qed.

(** X11. One iteration leaves the tracked status of every other room as
    it was. *)
Theorem iteration_leaves_other_rooms (room_id other : pystr) (s : state) :
  other ≠ room_id →
  room_status (run_room W py_repr room_id s).2 !! other = room_status s !! other.
Proof.
  intros Hne. destruct (run_room_status room_id s) as [->|(b & _ & ->)];
    [reflexivity|]. apply lookup_insert_ne. auto.
Qed.

(** X12. When the resolution of a tracked room returns, the status stored
    after the iteration is the live flag that was resolved, whatever was
    stored before. *)
Theorem stored_status_follows_resolution (room_id : pystr) (s s1 : state)
    (is_live : bool) (room_info : json) :
  check_room_status W room_id s = (inr (is_live, room_info), s1) →
  is_Some (room_status s !! room_id) →
  room_status (run_room W py_repr room_id s).2 !! room_id = Some is_live.
Proof.
  intros Hcheck [stored Hstored].
  destruct (check_room_status_returned W room_id s s1 is_live room_info Hcheck)
    as (fs & -> & _ & Hst & _).
  rewrite (run_room_checked W py_repr room_id s s1 is_live (JObj fs) Hcheck).
  unfold try_except. rewrite <- Hst in Hstored.
  destruct is_live, stored.
  - rewrite (update_status_unchanged W py_repr room_id true fs s1 Hstored). exact Hstored.
  - destruct (update_status_newly_live W py_repr room_id fs s1 Hstored) as (evs & _ & E).
    rewrite E. apply lookup_insert_eq.
  - destruct (update_status_newly_offline W py_repr room_id fs s1 Hstored) as (evs & _ & E).
    rewrite E. apply lookup_insert_eq.
  - rewrite (update_status_unchanged W py_repr room_id false fs s1 Hstored). exact Hstored.
Qed.

(** X13. A room stored as live that resolves as not live is classified as
    newly offline: the iteration stores false and dispatches the
    stopped-streaming notification, and it appends nothing to the pending
    list. *)
Theorem newly_offline_is_not_pending (room_id : pystr) (s s1 : state)
    (room_info : json) :
  room_status s !! room_id = Some true →
  check_room_status W room_id s = (inr (false, room_info), s1) →
  ∃ s2 fs evs,
    room_info = JObj fs ∧
    run_room W py_repr room_id s = (inr tt, s2) ∧
    room_status s2 = <[room_id := false]> (room_status s) ∧
    new_live_rooms s2 = new_live_rooms s ∧
    trace s2 =
      trace s1 ++
      OsNotify (offline_title py_repr (shown_owner room_id fs))
               (body_text py_repr (shown_room room_id fs) (strftime_now W (trace s1)))
      :: evs ++ [Logged INFO (LogWentOffline (shown_owner room_id fs) room_id)].
Proof.
  intros Hstored Hcheck.
  destruct (check_room_status_returned W room_id s s1 false room_info Hcheck)
    as (fs & -> & _ & Hst & Hnl & _).
  rewrite (run_room_checked W py_repr room_id s s1 false (JObj fs) Hcheck).
  unfold try_except.
  destruct (update_status_newly_offline W py_repr room_id fs s1) as (evs & _ & E).
  { rewrite Hst. exact Hstored. }
  rewrite E. eexists _, fs, evs. split; [reflexivity|]. split; [reflexivity|].
  split; [cbn [room_status set_trace set_room_status]; rewrite Hst; reflexivity|].
  split; [exact Hnl|reflexivity].
Qed.

(** X14. A room that is polled without being tracked makes the lookup of
    its stored status raise [KeyError]: the iteration logs the error,
    sends no notification and leaves the tracked status and the pending
    list as they were. *)
Theorem untracked_room_is_only_logged (room_id : pystr) (s s1 : state)
    (is_live : bool) (room_info : json) :
  room_status s !! room_id = None →
  check_room_status W room_id s = (inr (is_live, room_info), s1) →
  run_room W py_repr room_id s =
    (inr tt,
     set_trace (trace s1 ++ [Logged ERROR (LogCheckFailed room_id KeyError)]) s1) ∧
  room_status s1 = room_status s ∧
  new_live_rooms s1 = new_live_rooms s.
Proof.
  intros Hstored Hcheck.
  destruct (check_room_status_returned W room_id s s1 is_live room_info Hcheck)
    as (fs & -> & _ & Hst & Hnl & _).
  rewrite (run_room_checked W py_repr room_id s s1 is_live (JObj fs) Hcheck).
  unfold try_except. rewrite <- Hst in Hstored.
  rewrite (update_status_missing W py_repr room_id is_live fs s1 Hstored).
  split; [reflexivity|]. split; assumption.
Qed.

End Tracked.

(** Room 63136 is listed twice. *)
Lemma init_tracks_every_room_offline_witness :
  room_status (init [room_a; room_b; room_a] 60 true None ∅) !! room_a = Some false ∧
  size (room_status (init [room_a; room_b; room_a] 60 true None ∅)) = 2%nat.
Proof.
  destruct (init_tracks_every_room_offline [room_a; room_b; room_a] 60 true None ∅ room_a)
    as (Hin & _ & Hsize & _).
  split.
  - apply Hin. apply elem_of_cons. left. reflexivity.
  - rewrite Hsize. vm_compute. reflexivity.
Defined.

(** Room 63136 goes live; room 6979222 stays as it was. *)
Lemma iteration_leaves_other_rooms_witness :
  room_status (run_room (primary_world live_doc) no_repr room_a
                 (start [room_a; room_b] ∅)).2 !! room_b = Some false.
Proof.
  rewrite (iteration_leaves_other_rooms (primary_world live_doc) no_repr room_a room_b).
  - reflexivity.
  - intros H. vm_compute in H. discriminate H.
Defined.

(** Room 63136, tracked as not live, resolves as live. *)
Lemma stored_status_follows_resolution_witness :
  room_status (run_room (primary_world live_doc) no_repr room_a
                 (start [room_a] ∅)).2 !! room_a = Some true.
Proof.
  apply (stored_status_follows_resolution (primary_world live_doc) no_repr room_a
           (start [room_a] ∅)
           (check_room_status (primary_world live_doc) room_a (start [room_a] ∅)).2
           true live_payload).
  - vm_compute. reflexivity.
  - exists false. reflexivity.
Defined.

(** Room 63136 is stored as live and every request raises. *)
Lemma newly_offline_is_not_pending_witness :
  ∃ s2, run_room offline_world no_repr room_a
          (set_room_status {[ room_a := true ]} (start [room_a] ∅)) = (inr tt, s2) ∧
        new_live_rooms s2 = [].
Proof.
  destruct (newly_offline_is_not_pending offline_world no_repr room_a
              (set_room_status {[ room_a := true ]} (start [room_a] ∅))
              (check_room_status offline_world room_a
                 (set_room_status {[ room_a := true ]} (start [room_a] ∅))).2
              (cache_fallback room_a ∅))
    as (s2 & fs & evs & _ & Hrun & _ & Hnl & _).
  - reflexivity.
  - vm_compute. reflexivity.
  - exists s2. split; [exact Hrun|exact Hnl].
Defined.

(** Room 63136 is polled by a monitor that tracks no room. *)
Lemma untracked_room_is_only_logged_witness :
  (run_room (primary_world live_doc) no_repr room_a
     (set_room_status ∅ (start [room_a] ∅))).1 = inr tt ∧
  last (trace (run_room (primary_world live_doc) no_repr room_a
                 (set_room_status ∅ (start [room_a] ∅))).2) =
    Some (Logged ERROR (LogCheckFailed room_a KeyError)).
Proof.
  destruct (untracked_room_is_only_logged (primary_world live_doc) no_repr room_a
              (set_room_status ∅ (start [room_a] ∅))
              (check_room_status (primary_world live_doc) room_a
                 (set_room_status ∅ (start [room_a] ∅))).2
              true live_payload) as (E & _).
  - reflexivity.
  - vm_compute. reflexivity.
  - rewrite E. split; [reflexivity|]. cbn [snd trace set_trace]. apply last_snoc.
Defined.

(** ** More on the name cache *)

Lemma save_room_names_run (W : world) (s : state) :
  ∃ evs, Forall is_log evs ∧
    save_room_names W s =
      (inr tt, set_trace (trace s ++ SaveNames (room_names s) :: evs) s).
Proof.
  unfold save_room_names, try_except, bind, gets, call.
  destruct (dump_names W (trace s) (room_names s)) as [e|[]].
  - eexists [_]. split.
    2:{ unfold log, emit, call. cbn -[py]. rewrite <- app_assoc. reflexivity. }
    repeat constructor.
  - exists []. split; [constructor|reflexivity].
Qed.

(** X15. When the resolver returns a room info with a truthy [room_name],
    [check_room_status] stores that name under the room id, leaves every
    other entry of the cache alone, and writes the updated cache through
    to the file; a write that fails is logged and the call still
    returns. *)
Theorem cache_holds_resolved_name (W : world) (room_id : pystr) (s s0 : state)
    (fs : list (pystr * json)) (name : json) :
  get_room_info W room_id s = (inr (JObj fs), s0) →
  lookup_field (py "room_name") fs = Some name →
  truthy name = true →
  ∃ evs s1,
    Forall is_log evs ∧
    check_room_status W room_id s = (inr (live_flag (JObj fs), JObj fs), s1) ∧
    trace s1 = trace s0 ++ SaveNames (<[room_id := name]> (room_names s0)) :: evs ∧
    room_names s1 !! room_id = Some name ∧
    ∀ other, other ≠ room_id → room_names s1 !! other = room_names s0 !! other.
Proof.
  intros Hinfo Hname Htruthy.
  unfold check_room_status, bind at 1. rewrite Hinfo.
  unfold bind, py_get, ret, modify. cbn -[py save_room_names]. rewrite Hname.
  cbn -[py save_room_names]. rewrite Htruthy.
  match goal with |- context [save_room_names W ?s2] =>
    destruct (save_room_names_run W s2) as (evs & F & E); rewrite E
  end.
  eexists evs, _. split; [exact F|]. split; [reflexivity|].
  split; [reflexivity|]. cbn [room_names set_trace set_room_names].
  split; [apply lookup_insert_eq|].
  intros other Hne. apply lookup_insert_ne. auto.
Qed.

(** The primary API answers room 63136 with a name. *)
Lemma cache_holds_resolved_name_witness :
  room_names (check_room_status (primary_world live_doc) room_a (start [room_a] ∅)).2
    !! room_a = Some (JStr (py "英雄联盟")).
Proof.
  destruct (cache_holds_resolved_name (primary_world live_doc) room_a
              (start [room_a] ∅)
              (get_room_info (primary_world live_doc) room_a (start [room_a] ∅)).2
              [ (py "room_id", JStr (py "63136"));
                (py "room_name", JStr (py "英雄联盟"));
                (py "owner_name", JStr (py "主播甲"));
                (py "room_status", JStr (py "1")) ]
              (JStr (py "英雄联盟")))
    as (evs & s1 & _ & E & _ & H & _).
  - vm_compute. reflexivity.
  - reflexivity.
  - reflexivity.
  - rewrite E. exact H.
Defined.

(** X16. When the room info has no [room_name], or one that is not truthy
    (empty string, [null], zero), [check_room_status] neither changes the
    cache nor writes the file: it returns in the state the resolver
    left. *)
Theorem falsy_name_is_not_cached (W : world) (room_id : pystr) (s s0 : state)
    (fs : list (pystr * json)) :
  get_room_info W room_id s = (inr (JObj fs), s0) →
  truthy (default JNull (lookup_field (py "room_name") fs)) = false →
  check_room_status W room_id s = (inr (live_flag (JObj fs), JObj fs), s0).
Proof.
  intros Hinfo Hfalsy.
  unfold check_room_status, bind at 1. rewrite Hinfo.
  unfold bind, py_get, ret. cbn -[py]. rewrite Hfalsy. reflexivity.
Qed.

(** The primary API answers with a payload that has a status and no name:
    the room is live and the cached name stays. *)
Lemma falsy_name_is_not_cached_witness :
  (check_room_status (primary_world nameless_doc) room_a
     (start [room_a] {[ room_a := JStr (py "旧名") ]})).1 =
    inr (true, JObj [ (py "room_status", JStr (py "1")) ]) ∧
  room_names (check_room_status (primary_world nameless_doc) room_a
                (start [room_a] {[ room_a := JStr (py "旧名") ]})).2 =
    {[ room_a := JStr (py "旧名") ]}.
Proof.
  rewrite (falsy_name_is_not_cached (primary_world nameless_doc) room_a
             (start [room_a] {[ room_a := JStr (py "旧名") ]})
             (get_room_info (primary_world nameless_doc) room_a
                (start [room_a] {[ room_a := JStr (py "旧名") ]})).2
             [ (py "room_status", JStr (py "1")) ]).
  - split; reflexivity.
  - vm_compute. reflexivity.
  - reflexivity.
Defined.

(** ** More on the selection handler *)

Lemma opened_app (a b : list event) : opened (a ++ b) = opened a ++ opened b.
Proof. apply omap_app. Qed.

Lemma open_live_room_run (W : world) (room_id : pystr) (s : state) :
  ∃ lvl record,
    open_live_room W room_id s =
      (inr tt,
       set_trace (trace s ++ [BrowserOpen (room_page room_id); Logged lvl record]) s).
Proof.
  unfold open_live_room, try_except, bind, call, log, emit, call, room_page.
  match goal with |- context [browser_open W ?h ?u] =>
    destruct (browser_open W h u) as [e|[]]
  end; cbn -[py]; eexists _, _; rewrite <- app_assoc; reflexivity.
Qed.

Section Selection.

Variable W : world.
Variable py_repr : json → pystr.
Variable py_int : pystr → option Z.

Lemma menu_line_run (i : nat) (entry : pystr * json) (s : state) :
  is_dict entry.2 = true →
  ∃ line, menu_line py_repr i entry s =
            (inr tt, set_trace (trace s ++ [ConsolePrint line]) s).
Proof.
  destruct entry as [room_id [| | | | |fs]]; try discriminate. intros _.
  eexists. reflexivity.
Qed.

(** The menu only prints. *)
Lemma for_enumerate_run (i : nat) (pending : list (pystr * json)) (s : state) :
  Forall (λ entry, is_dict entry.2 = true) pending →
  ∃ lines, opened lines = [] ∧
    for_enumerate i pending (menu_line py_repr) s =
      (inr tt, set_trace (trace s ++ lines) s).
Proof.
  intros H. revert i s. induction H as [|entry pending Hd _ IH]; intros i s.
  - exists []. split; [reflexivity|]. cbn. rewrite app_nil_r, set_trace_same. reflexivity.
  - destruct (menu_line_run i entry s Hd) as (line & E).
    destruct (IH (S i) (set_trace (trace s ++ [ConsolePrint line]) s)) as (lines & Ho & E').
    exists (ConsolePrint line :: lines). split; [exact Ho|].
    cbn [for_enumerate]. unfold bind. rewrite E, E'.
    cbn [trace set_trace]. rewrite <- app_assoc. reflexivity.
Qed.

(** With two pending rooms or more, the handler prints the menu and then
    asks for a choice. *)
Lemma handle_many (s : state) (e1 e2 : pystr * json) (rest : list (pystr * json)) :
  new_live_rooms s = e1 :: e2 :: rest →
  Forall (λ entry, is_dict entry.2 = true) (new_live_rooms s) →
  ∃ lines, opened lines = [] ∧
    handle_new_live_rooms W py_repr py_int s =
      (try_except (choose_room W py_int)
         (λ e, match e with
               | ValueError => print (py "请输入有效的数字")
               | _ => log ERROR (LogChoiceError e)
               end) ;;
       modify (set_new_live_rooms []))%py
        (set_trace (trace s ++ lines) s).
Proof.
  intros Hpending Hd. unfold handle_new_live_rooms, bind at 1, gets at 1.
  rewrite Hpending in *. destruct e1 as [room_id room_info]. cbv beta iota.
  unfold bind at 1, print at 1, emit, call.
  unfold bind at 1.
  match goal with |- context [for_enumerate 1 ?l _ ?s1] =>
    destruct (for_enumerate_run 1 l s1 Hd) as (lines & Ho & E)
  end.
  rewrite E. unfold bind at 1, print at 1, emit, call.
  eexists (_ :: lines ++ [_]). split.
  2:{ cbn [trace set_trace]. rewrite <- !app_assoc. reflexivity. }
  match goal with |- opened (?a :: ?l ++ [?b]) = [] =>
    change (opened ([a] ++ l ++ [b]) = [])
  end.
  rewrite !opened_app, Ho. reflexivity.
Qed.

(** X17. With exactly one pending room the handler asks nothing: it opens
    the page of that room when [auto_open] is set, opens nothing when it
    is not, and empties the list in both cases. *)
Theorem single_pending_room_follows_auto_open (s : state) (room_id : pystr)
    (room_info : json) :
  new_live_rooms s = [(room_id, room_info)] →
  ∃ evs,
    handle_new_live_rooms W py_repr py_int s =
      (inr tt, set_new_live_rooms [] (set_trace (trace s ++ evs) s)) ∧
    (auto_open s = true →
     ∃ lvl record, evs = [BrowserOpen (room_page room_id); Logged lvl record]) ∧
    (auto_open s = false → evs = []).
Proof.
  intros Hpending. unfold handle_new_live_rooms, bind at 1, gets at 1.
  rewrite Hpending. unfold bind at 1, gets at 1. unfold bind, modify.
  destruct (auto_open s) eqn:Hauto.
  - destruct (open_live_room_run W room_id s) as (lvl & record & E). rewrite E.
    eexists. split; [reflexivity|]. split; [eauto|discriminate].
  - exists []. split; [|split; [discriminate|reflexivity]].
    cbn. rewrite app_nil_r. reflexivity.
Qed.

(** X18. With two pending rooms or more, an answer that [int] reads as a
    number between 1 and the length of the list opens the page of the
    room at that position, and no other page; the list is empty
    afterwards.  [auto_open] plays no part. *)
Theorem valid_pick_opens_selected_room (s : state) (e1 e2 : pystr * json)
    (rest : list (pystr * json)) (answer : pystr) (choice : Z)
    (room_id : pystr) (room_info : json) :
  new_live_rooms s = e1 :: e2 :: rest →
  Forall (λ entry, is_dict entry.2 = true) (new_live_rooms s) →
  console_answers W (inr answer) →
  py_int answer = Some choice →
  (1 ≤ choice)%Z →
  new_live_rooms s !! Z.to_nat (choice - 1) = Some (room_id, room_info) →
  ∃ s', handle_new_live_rooms W py_repr py_int s = (inr tt, s') ∧
        new_live_rooms s' = [] ∧
        opened (trace s') = opened (trace s) ++ [room_page room_id].
Proof.
  intros Hpending Hd Hanswer Hint Hlow Hpick.
  destruct (handle_many s e1 e2 rest Hpending Hd) as (lines & Ho & E).
  rewrite E. clear E.
  assert (Hhigh : (choice ≤ Z.of_nat (length (new_live_rooms s)))%Z).
  { apply lookup_lt_Some in Hpick. lia. }
  unfold bind, try_except, choose_room, bind, call, gets, modify.
  unfold console_answers, choice_prompt in Hanswer. rewrite (Hanswer _), Hint.
  cbn [new_live_rooms set_trace].
  replace ((1 <=? choice)%Z && (choice <=? Z.of_nat (length (new_live_rooms s)))%Z)
    with true by (symmetry; apply andb_true_iff; split; apply Z.leb_le; assumption).
  rewrite Hpick.
  match goal with |- context [open_live_room W room_id ?s1] =>
    destruct (open_live_room_run W room_id s1) as (lvl & record & E); rewrite E
  end.
  eexists. split; [reflexivity|]. split; [reflexivity|].
  cbn [trace set_trace set_new_live_rooms].
  rewrite !opened_app, Ho. cbn [opened omap app]. rewrite ?app_nil_r. reflexivity.
Qed.

(** X19. With two pending rooms or more, every other outcome of the prompt
    opens no page and still empties the list: an exception of the
    console, an answer that [int] rejects, zero, or a number out of the
    range of the list. *)
Theorem other_answers_open_nothing (s : state) (e1 e2 : pystr * json)
    (rest : list (pystr * json)) (answer : exn + pystr) :
  new_live_rooms s = e1 :: e2 :: rest →
  Forall (λ entry, is_dict entry.2 = true) (new_live_rooms s) →
  console_answers W answer →
  match answer with
  | inl _ => True
  | inr text =>
      match py_int text with
      | None => True
      | Some choice =>
          (choice < 1 ∨ Z.of_nat (length (new_live_rooms s)) < choice)%Z
      end
  end →
  ∃ s', handle_new_live_rooms W py_repr py_int s = (inr tt, s') ∧
        new_live_rooms s' = [] ∧
        opened (trace s') = opened (trace s).
Proof.
  intros Hpending Hd Hanswer Hbad.
  destruct (handle_many s e1 e2 rest Hpending Hd) as (lines & Ho & E).
  rewrite E. clear E.
  unfold bind, try_except, choose_room, bind, call, gets, modify, raise.
  unfold console_answers, choice_prompt in Hanswer. rewrite (Hanswer _).
  destruct answer as [e|text].
  - destruct e; unfold print, log, emit, call;
      (eexists; split; [reflexivity|]; split; [reflexivity|]);
      cbn [trace set_trace set_new_live_rooms];
      rewrite !opened_app, Ho; cbn [opened omap app]; rewrite ?app_nil_r; reflexivity.
  - destruct (py_int text) as [choice|].
    + cbn [new_live_rooms set_trace].
      replace ((1 <=? choice)%Z && (choice <=? Z.of_nat (length (new_live_rooms s)))%Z)
        with false.
      2:{ symmetry. apply andb_false_iff. destruct Hbad as [Hlow|Hhigh];
            [left|right]; apply Z.leb_gt; assumption. }
      destruct (choice =? 0)%Z; unfold print, emit, call, ret;
        (eexists; split; [reflexivity|]; split; [reflexivity|]);
        cbn [trace set_trace set_new_live_rooms negb];
        rewrite !opened_app, Ho; cbn [opened omap app]; rewrite ?app_nil_r; reflexivity.
    + unfold print, emit, call.
      eexists. split; [reflexivity|]. split; [reflexivity|].
      cbn [trace set_trace set_new_live_rooms].
      rewrite !opened_app, Ho. cbn [opened omap app]. rewrite ?app_nil_r. reflexivity.
Qed.

End Selection.

(** One room is pending and [auto_open] is set. *)
Lemma single_pending_room_follows_auto_open_witness :
  opened (trace (handle_new_live_rooms offline_world no_repr digit_int
                   (set_new_live_rooms [(room_a, live_payload)] (start [room_a] ∅))).2) =
    [room_page room_a].
Proof.
  destruct (single_pending_room_follows_auto_open offline_world no_repr digit_int
              (set_new_live_rooms [(room_a, live_payload)] (start [room_a] ∅))
              room_a live_payload) as (evs & E & Hauto & _); [reflexivity|].
  destruct (Hauto eq_refl) as (lvl & record & ->). rewrite E. reflexivity.
Defined.

(** Two rooms are pending and the console answers 2. *)
Lemma valid_pick_opens_selected_room_witness :
  ∃ s', handle_new_live_rooms (console_world (inr (py "2"))) no_repr digit_int
          two_pending = (inr tt, s') ∧
        new_live_rooms s' = [] ∧
        opened (trace s') = opened (trace two_pending) ++ [room_page room_b].
Proof.
  apply (valid_pick_opens_selected_room (console_world (inr (py "2"))) no_repr
           digit_int two_pending (room_a, live_payload) (room_b, live_payload) []
           (py "2") 2 room_b live_payload).
  - reflexivity.
  - repeat constructor.
  - intros h. reflexivity.
  - reflexivity.
  - lia.
  - reflexivity.
Defined.

(** Two rooms are pending and the console answers 7. *)
Lemma other_answers_open_nothing_witness :
  ∃ s', handle_new_live_rooms (console_world (inr (py "7"))) no_repr digit_int
          two_pending = (inr tt, s') ∧
        new_live_rooms s' = [] ∧
        opened (trace s') = opened (trace two_pending).
Proof.
  apply (other_answers_open_nothing (console_world (inr (py "7"))) no_repr
           digit_int two_pending (room_a, live_payload) (room_b, live_payload) []
           (inr (py "7"))).
  - reflexivity.
  - repeat constructor.
  - intros h. reflexivity.
  - right. vm_compute. reflexivity.
Defined.

(** ** The room list editor *)

Section EditorFacts.

Variable py_int : pystr → option Z.

Lemma clean_ids_snoc (room_ids : list pystr) (new_id : pystr) :
  clean_ids room_ids → new_id ≠ [] → new_id ∉ room_ids →
  clean_ids (room_ids ++ [new_id]).
Proof.
  intros [Hnd Hne] Hnew Hnin. split.
  - apply NoDup_app. split; [exact Hnd|]. split; [|apply NoDup_singleton].
    intros x Hx Hx'. apply list_elem_of_singleton in Hx'. subst x. contradiction.
  - intros [H|H]%elem_of_app; [contradiction|].
    apply list_elem_of_singleton in H. congruence.
Qed.

Lemma clean_ids_delete (room_ids : list pystr) (i : nat) :
  clean_ids room_ids → clean_ids (delete i room_ids).
Proof.
  intros [Hnd Hne]. pose proof (sublist_delete room_ids i) as Hsub. split.
  - eapply sublist_NoDup; eassumption.
  - intros H. apply Hne. eapply elem_of_sublist; eassumption.
Qed.

Lemma edit_step_clean (st : edit_mode * list pystr) (line : pystr) :
  clean_ids st.2 → clean_ids (edit_step py_int st line).2.
Proof.
  destruct st as [mode room_ids]. cbn [snd]. intros Hclean.
  assert (Hnil : clean_ids []) by (split; [constructor|apply not_elem_of_nil]).
  destruct mode; unfold edit_step.
  - destruct (pystr_eqb line (py "1")); [exact Hclean|].
    destruct (pystr_eqb line (py "2")); [destruct room_ids; exact Hclean|].
    destruct (pystr_eqb line (py "3")); [exact Hnil|].
    destruct (pystr_eqb line (py "4")); exact Hclean.
  - destruct (pystr_eqb (str_strip line) []) eqn:Hempty; [exact Hclean|].
    destruct (bool_decide (str_strip line ∈ room_ids)) eqn:Hin; [exact Hclean|].
    cbn [negb andb snd]. apply clean_ids_snoc; [exact Hclean| |].
    + intros H. apply pystr_eqb_eq in H. congruence.
    + apply bool_decide_eq_false in Hin. exact Hin.
  - destruct (py_int line) as [number|]; [|exact Hclean].
    cbv zeta.
    destruct ((0 <=? number - 1) && (number - 1 <? Z.of_nat (length room_ids)))%Z;
      [apply clean_ids_delete|]; exact Hclean.
  - destruct (pystr_eqb (str_strip line) []) eqn:Hempty; [exact Hclean|].
    destruct (bool_decide (str_strip line ∈ room_ids)) eqn:Hin; [exact Hclean|].
    cbn [snd]. apply clean_ids_snoc; [exact Hclean| |].
    + intros H. apply pystr_eqb_eq in H. congruence.
    + apply bool_decide_eq_false in Hin. exact Hin.
  - exact Hclean.
Qed.

Lemma foldl_edit_clean (lines : list pystr) (st : edit_mode * list pystr) :
  clean_ids st.2 → clean_ids (foldl (edit_step py_int) st lines).2.
Proof.
  revert st. induction lines as [|line lines IH]; intros st H; [exact H|].
  cbn [foldl]. apply IH, edit_step_clean, H.
Qed.

(** X20. Whatever is typed at the console, the editor keeps a room list
    clean: starting from a list without a repeated id and without an empty
    id, adding, deleting and re-entering ids never produce a repeated or
    an empty id. *)
Theorem editor_keeps_ids_clean (lines room_ids : list pystr) :
  clean_ids room_ids → clean_ids (edit_rooms py_int lines room_ids).2.
Proof. intros H. apply (foldl_edit_clean lines (AtMenu, room_ids)), H. Qed.

Lemma resetting_reads_ids (lines acc : list pystr) :
  Forall (λ line, str_strip line ≠ []) lines →
  NoDup acc →
  ∃ acc', foldl (edit_step py_int) (Resetting, acc) lines = (Resetting, acc') ∧
          NoDup acc' ∧
          ∀ x, x ∈ acc' ↔ x ∈ acc ∨ x ∈ str_strip <$> lines.
Proof.
  intros Hlines. revert acc. induction Hlines as [|line lines Hline _ IH]; intros acc Hnd.
  - exists acc. split; [reflexivity|]. split; [exact Hnd|].
    intros x. rewrite fmap_nil, elem_of_nil. tauto.
  - cbn [foldl]. unfold edit_step at 2.
    rewrite (pystr_eqb_neq _ _ Hline).
    destruct (bool_decide (str_strip line ∈ acc)) eqn:Hin.
    + apply bool_decide_eq_true in Hin.
      destruct (IH acc Hnd) as (acc' & E & Hnd' & Hmem).
      exists acc'. split; [exact E|]. split; [exact Hnd'|].
      intros x. rewrite Hmem, fmap_cons, elem_of_cons.
      split; [tauto|]. intros [H|[->|H]]; auto.
    + apply bool_decide_eq_false in Hin.
      destruct (IH (acc ++ [str_strip line])) as (acc' & E & Hnd' & Hmem).
      { apply NoDup_app. split; [exact Hnd|]. split; [|apply NoDup_singleton].
        intros x Hx Hx'. apply list_elem_of_singleton in Hx'. subst x. contradiction. }
      exists acc'. split; [exact E|]. split; [exact Hnd'|].
      intros x. rewrite Hmem, fmap_cons, elem_of_cons, elem_of_app, list_elem_of_singleton.
      tauto.
Qed.

(** X21. Choice 3 drops the list that was there and reads a new one: after
    the ids typed up to the first blank line, the list holds exactly these
    ids, stripped of surrounding white space, each once, whatever the old
    list was. *)
Theorem reset_replaces_the_list (new_lines room_ids : list pystr) (blank : pystr) :
  Forall (λ line, str_strip line ≠ []) new_lines →
  str_strip blank = [] →
  ∃ ids,
    edit_rooms py_int (py "3" :: new_lines ++ [blank; py "4"]) room_ids = (Finished, ids) ∧
    NoDup ids ∧
    ∀ x, x ∈ ids ↔ x ∈ str_strip <$> new_lines.
Proof.
  intros Hlines Hblank.
  destruct (resetting_reads_ids new_lines [] Hlines (NoDup_nil_2 (A:=pystr)))
    as (ids & E & Hnd & Hmem).
  exists ids. split; [|split; [exact Hnd|]].
  - unfold edit_rooms. cbn [foldl].
    change (edit_step py_int (AtMenu, room_ids) (py "3")) with (Resetting, @nil pystr).
    rewrite foldl_app, E. cbn [foldl]. unfold edit_step at 2.
    rewrite Hblank. reflexivity.
  - intros x. rewrite Hmem, elem_of_nil. tauto.
Qed.

(** X22. Choice 2 deletes by position, counted from 1: a number between 1
    and the length of the list removes the id at that position and no
    other; any other number, zero and the negative ones included, and any
    text that [int] rejects, leave the list as it was.  On an empty list
    choice 2 asks for no number. *)
Theorem delete_is_by_position (room_ids : list pystr) (answer : pystr) :
  room_ids ≠ [] →
  (∀ number, py_int answer = Some number →
     (1 ≤ number ≤ Z.of_nat (length room_ids))%Z →
     edit_rooms py_int [py "2"; answer] room_ids =
       (AtMenu, take (Z.to_nat (number - 1)) room_ids ++
                drop (Z.to_nat number) room_ids)) ∧
  (∀ number, py_int answer = Some number →
     (number < 1 ∨ Z.of_nat (length room_ids) < number)%Z →
     edit_rooms py_int [py "2"; answer] room_ids = (AtMenu, room_ids)) ∧
  (py_int answer = None →
     edit_rooms py_int [py "2"; answer] room_ids = (AtMenu, room_ids)) ∧
  (∀ lines, edit_rooms py_int (py "2" :: lines) [] = edit_rooms py_int lines []).
Proof.
  intros Hne.
  assert (Hmenu : edit_step py_int (AtMenu, room_ids) (py "2") = (Deleting, room_ids)).
  { destruct room_ids; [contradiction|reflexivity]. }
  unfold edit_rooms. cbn [foldl]. rewrite Hmenu. unfold edit_step.
  split; [|split; [|split]].
  - intros number Hint [Hlow Hhigh]. rewrite Hint. cbv zeta.
    replace ((0 <=? number - 1) && (number - 1 <? Z.of_nat (length room_ids)))%Z
      with true by (symmetry; apply andb_true_iff; split;
                    [apply Z.leb_le|apply Z.ltb_lt]; lia).
    rewrite delete_take_drop. repeat f_equal. lia.
  - intros number Hint Hout. rewrite Hint. cbv zeta.
    replace ((0 <=? number - 1) && (number - 1 <? Z.of_nat (length room_ids)))%Z
      with false; [reflexivity|].
    symmetry. apply andb_false_iff. destruct Hout;
      [left; apply Z.leb_gt|right; apply Z.ltb_ge]; lia.
  - intros Hint. rewrite Hint. reflexivity.
  - intros lines. reflexivity.
Qed.

Lemma adding_step (room_ids : list pystr) (line : pystr) :
  edit_step py_int (Adding, room_ids) line =
    (AtMenu,
     if negb (pystr_eqb (str_strip line) []) &&
        negb (bool_decide (str_strip line ∈ room_ids))
     then room_ids ++ [str_strip line] else room_ids).
Proof.
  unfold edit_step.
  destruct (negb (pystr_eqb (str_strip line) []) &&
            negb (bool_decide (str_strip line ∈ room_ids))); reflexivity.
Qed.

Lemma menu_step_add (room_ids : list pystr) :
  edit_step py_int (AtMenu, room_ids) (py "1") = (Adding, room_ids).
Proof. reflexivity. Qed.

(** X23. Choice 1 adds an id once: typing the same id again, with or
    without white space around it, leaves the list as the first addition
    made it; an id that is blank is not added at all. *)
Theorem adding_twice_is_adding_once (room_ids : list pystr) (id id' : pystr) :
  str_strip id = str_strip id' →
  edit_rooms py_int [py "1"; id; py "1"; id'] room_ids =
    edit_rooms py_int [py "1"; id] room_ids ∧
  (str_strip id = [] → edit_rooms py_int [py "1"; id] room_ids = (AtMenu, room_ids)).
Proof.
  intros Hsame. unfold edit_rooms. cbn [foldl].
  rewrite menu_step_add, adding_step, menu_step_add, adding_step, <- Hsame.
  split.
  - f_equal.
    destruct (pystr_eqb (str_strip id) []) eqn:Hempty; cbn [negb andb];
      [reflexivity|].
    destruct (bool_decide (str_strip id ∈ room_ids)) eqn:Hin; cbn [negb andb].
    + rewrite Hin. reflexivity.
    + rewrite bool_decide_eq_true_2; [reflexivity|].
      apply elem_of_app. right. apply list_elem_of_singleton. reflexivity.
  - intros Hblank. rewrite Hblank. reflexivity.
Qed.

End EditorFacts.

(** Room 63136 is typed twice, once with spaces around it. *)
Lemma editor_keeps_ids_clean_witness :
  (edit_rooms digit_int [py "1"; py " 63136 "; py "1"; py "63136"; py "4"] [room_b]).2 =
    [room_b; room_a] ∧
  clean_ids (edit_rooms digit_int [py "1"; py " 63136 "; py "1"; py "63136"; py "4"]
               [room_b]).2.
Proof.
  split; [vm_compute; reflexivity|].
  apply (editor_keeps_ids_clean digit_int). split.
  - apply NoDup_singleton.
  - intros H. apply list_elem_of_singleton in H. vm_compute in H. discriminate H.
Defined.

(** Two ids are typed after choice 3, the first one twice. *)
Lemma reset_replaces_the_list_witness :
  ∃ ids,
    edit_rooms digit_int (py "3" :: [py "63136"; py "6979222 "; py "63136"] ++ [py " "; py "4"])
      [py "1"] = (Finished, ids) ∧
    NoDup ids ∧
    ∀ x, x ∈ ids ↔ x ∈ str_strip <$> [py "63136"; py "6979222 "; py "63136"].
Proof.
  apply (reset_replaces_the_list digit_int).
  - repeat constructor; intros H; vm_compute in H; discriminate H.
  - vm_compute. reflexivity.
Defined.

(** Number 2 of a list of two, and number 0. *)
Lemma delete_is_by_position_witness :
  edit_rooms digit_int [py "2"; py "2"] [room_a; room_b] = (AtMenu, [room_a]) ∧
  edit_rooms digit_int [py "2"; py "0"] [room_a; room_b] = (AtMenu, [room_a; room_b]).
Proof.
  destruct (delete_is_by_position digit_int [room_a; room_b] (py "2"))
    as (Hin & _); [discriminate|].
  destruct (delete_is_by_position digit_int [room_a; room_b] (py "0"))
    as (_ & Hout & _); [discriminate|].
  split.
  - rewrite (Hin 2%Z); [reflexivity|reflexivity|cbn; lia].
  - rewrite (Hout 0%Z); [reflexivity|reflexivity|left; lia].
Defined.

Lemma adding_twice_is_adding_once_witness :
  edit_rooms digit_int [py "1"; py " 63136 "; py "1"; py "63136"] [room_b] =
    edit_rooms digit_int [py "1"; py " 63136 "] [room_b].
Proof.
  apply (adding_twice_is_adding_once digit_int [room_b] (py " 63136 ") (py "63136")).
  vm_compute. reflexivity.
Defined.

(** ** More on the scan of the page, the payload and the turn *)

Lemma split_go_cons (sep : N) (cur s : pystr) :
  ∃ part rest, split_go sep cur s = part :: rest.
Proof.
  revert cur. induction s as [|c s IH]; intros cur; cbn [split_go].
  - eexists _, _. reflexivity.
  - destruct (c =? sep); [eexists _, _; reflexivity|apply IH].
Qed.

(** When [s] holds the separator, [s.split(sep)] has two parts at least,
    and the first is the text before the first separator. *)
Lemma split_go_first (sep : N) (cur s : pystr) :
  py_in [sep] s = true →
  ∃ part1 rest, split_go sep cur s = (rev cur ++ prefix_before sep s) :: part1 :: rest.
Proof.
  revert cur. induction s as [|c s IH]; intros cur H; [discriminate|].
  cbn [split_go prefix_before]. cbn [py_in is_prefix] in H.
  rewrite N.eqb_sym in H. destruct (c =? sep) eqn:E.
  - rewrite app_nil_r. destruct (split_go_cons sep [] s) as (part1 & rest & ->).
    exists part1, rest. reflexivity.
  - cbn [andb orb] in H. destruct (IH (c :: cur) H) as (part1 & rest & ->).
    exists part1, rest. cbn [rev]. rewrite <- app_assoc. reflexivity.
Qed.

(** X24. When the page has no room-name field and its title holds a
    hyphen, the room name is the text of the title before the first
    hyphen, stripped: a room name that itself holds a hyphen is cut
    there. *)
Theorem title_room_name_stops_at_first_hyphen (html_content title : pystr) :
  re_search room_name_pattern html_content = None →
  re_search alt_room_name_pattern html_content = None →
  re_search title_pattern html_content = Some title →
  py_in (py "-") title = true →
  (scrape_names html_content).1 = str_strip (prefix_before 45 title).
Proof.
  intros Hroom Halt Htitle Hhyphen.
  destruct (split_go_first 45 [] title Hhyphen) as (part1 & rest & Hsplit).
  unfold scrape_names. rewrite Hroom, Halt, Htitle, Hhyphen.
  rewrite pystr_eqb_refl, orb_true_r. unfold str_split. rewrite Hsplit.
  reflexivity.
Qed.

Lemma title_room_name_stops_at_first_hyphen_witness :
  (scrape_names hyphen_text).1 = py "LOL".
Proof.
  rewrite (title_room_name_stops_at_first_hyphen hyphen_text (py "LOL-S15 总决赛 - 主播甲"));
    vm_compute; reflexivity.
Defined.

Section Turn.

Variable W : world.
Variable py_repr : json → pystr.

(** X25. When the primary API answers with the success marker and a
    payload that is not a JSON object ([null], a list, a string, a
    number), [check_room_status] raises [AttributeError] on it: the
    iteration only logs the error, and the tracked status, the name cache
    and the pending list stay as they were. *)
Theorem non_dict_payload_is_only_logged (room_id : pystr) (s : state)
    (r : response) (fs : list (pystr * json)) (payload : json) :
  http_get W (trace s) (primary_url room_id) None = inr r →
  body_json r = Some (JObj fs) →
  py_eq_int (default JNull (lookup_field (py "error") fs)) 0 = true →
  lookup_field (py "data") fs = Some payload →
  is_dict payload = false →
  check_room_status W room_id s =
    (inl AttributeError,
     set_trace (trace s ++ [HttpGet (primary_url room_id) None]) s) ∧
  run_room W py_repr room_id s =
    (inr tt,
     set_trace
       (trace s ++ [ HttpGet (primary_url room_id) None;
                     Logged ERROR (LogCheckFailed room_id AttributeError) ]) s).
Proof.
  intros Hget Hbody Herr Hdata Hpayload.
  pose proof (get_room_info_accepted W room_id s r fs Hget Hbody Herr) as E.
  rewrite Hdata in E. cbn [default from_option id] in E.
  assert (Hcheck : check_room_status W room_id s =
                     (inl AttributeError,
                      set_trace (trace s ++ [HttpGet (primary_url room_id) None]) s)).
  { unfold check_room_status, bind at 1. rewrite E.
    destruct payload; try discriminate; reflexivity. }
  split; [exact Hcheck|].
  rewrite (run_room_catches W py_repr room_id s _ AttributeError)
    by (unfold bind at 1; rewrite Hcheck; reflexivity).
  cbn [trace set_trace]. rewrite <- app_assoc. reflexivity.
Qed.


End Turn.

(** The primary API answers room 63136 with a [null] payload. *)
Lemma non_dict_payload_is_only_logged_witness :
  run_room (primary_world null_doc) no_repr room_a (start [room_a] ∅) =
    (inr tt,
     set_trace [ HttpGet (primary_url room_a) None;
                 Logged ERROR (LogCheckFailed room_a AttributeError) ]
       (start [room_a] ∅)).
Proof.
  apply (non_dict_payload_is_only_logged (primary_world null_doc) no_repr room_a
           (start [room_a] ∅) (ok_response (primary_url room_a) (Some null_doc))
           [ (py "error", JNum 0); (py "data", JNull) ] JNull);
    reflexivity.
Defined.

